(** * QuestionnaireAnalysis (hw5_q1.py): a shallow embedding and its properties

    The class [QuestionnaireAnalysis] wraps one pandas table and offers five
    queries over it.  The embedding follows the source line by line:

    - the file is a list of JSON objects; under each of the eleven keys an
      object holds a value, null, or nothing at all (the key is absent);
    - a table is what [pd.DataFrame] builds from them: the columns that occur,
      each with the dtype pandas infers for it, and an ordered list of labelled
      rows (label = the pandas index).  A key that no object has gives no
      column, so the empty file gives a table without columns; a column of
      nulls only is an object column; nulls and numbers give a float column;
    - pandas objects live in a store of tables addressed by location, so that
      [pd.DataFrame(self.data)] (which shares its argument's data) and the
      in-place assignments [df[...] = ...] are modelled with their aliasing;
    - the methods run in a state-and-exception monad over that store;
    - the answers q1..q5 are binary64 floats and every operation on them is
      the float operation numpy performs, in numpy's order; ages are only ever
      compared, and are given by their exact values;
    - pandas is the pandas the code was written for (1.x, numpy before 2.0, no
      copy-on-write): [replace] turns an object column into a float column
      when it replaces a text in it and no text is left, an assignment
      [df[col][label] = v] writes into [df], [astype('UInt8')] refuses a value
      that is not one of 0..255, and the mean of a group is taken over the
      numeric columns with a compensated sum. *)

From Stdlib Require Import QArith Qround ZArith Lia Lqa String Ascii List Sorted OrderedTypeEx Floats.
From stdpp Require Import base list.
Import ListNotations.

Local Open Scope string_scope.
Local Open Scope list_scope.

(** A decimal literal stands for the nearest binary64 float, as Python reads
    it from the file. *)
Set Warnings "-inexact-float".

(** ** The JSON file *)

(** What an object holds under a numeric key: nothing (the key is absent),
    null, the text "nan", or a number. *)
Inductive jnum (A : Type) :=
  | JAbsent
  | JNull
  | JNan
  | JNumber (x : A).
Arguments JAbsent {A}.
Arguments JNull {A}.
Arguments JNan {A}.
Arguments JNumber {A} x.

(** What an object holds under a text key: nothing, null, or a string. *)
Inductive jtxt :=
  | JTAbsent
  | JTNull
  | JText (s : string).

Record json_object := mkObject {
  j_age : jnum Q;
  j_email : jtxt;
  j_first_name : jtxt;
  j_gender : jtxt;
  j_id : jnum float;
  j_last_name : jtxt;
  j_q1 : jnum float;
  j_q2 : jnum float;
  j_q3 : jnum float;
  j_q4 : jnum float;
  j_q5 : jnum float
}.

(** ** Cells and rows *)

(** A numeric cell of a table: a number (never the float NaN), the text
    "nan", or a missing value (NaN or None). *)
Inductive num :=
  | Num (x : float)
  | NanText
  | NaN.

(** A float as a cell. *)
Definition of_float (x : float) : num :=
  if PrimFloat.is_nan x then NaN else Num x.

(** The age cell.  [Flag] is a Python bool: line 137 stores one per row. *)
Inductive age_cell :=
  | Age (x : Q)
  | AgeNanText
  | AgeNaN
  | Flag (b : bool).

(** A text cell: a string or a missing value. *)
Inductive txt :=
  | Text (s : string)
  | TNaN.

(** The [score] column of [score_subjects]: a float (possibly NaN) while it is
    being computed, [pd.NA], and finally a UInt8 value. *)
Inductive score_cell :=
  | SFloat (x : float)
  | SNA
  | SUInt8 (n : Z).

Record Row := mkRow {
  age : age_cell;
  email : txt;
  first_name : txt;
  gender : txt;
  id_ : num;
  last_name : txt;
  q1 : num;
  q2 : num;
  q3 : num;
  q4 : num;
  q5 : num;
  score : option score_cell   (* None: the table has no score column *)
}.

(** The cells [pd.DataFrame] makes of the values of an object: null and an
    absent key both give a missing value. *)
Definition num_of (c : jnum float) : num :=
  match c with
  | JNumber x => of_float x
  | JNan => NanText
  | JNull | JAbsent => NaN
  end.

Definition age_of (c : jnum Q) : age_cell :=
  match c with
  | JNumber x => Age x
  | JNan => AgeNanText
  | JNull | JAbsent => AgeNaN
  end.

Definition txt_of (c : jtxt) : txt :=
  match c with
  | JText s => Text s
  | JTNull | JTAbsent => TNaN
  end.

Definition row_of (o : json_object) : Row :=
  mkRow (age_of (j_age o)) (txt_of (j_email o)) (txt_of (j_first_name o))
        (txt_of (j_gender o)) (num_of (j_id o)) (txt_of (j_last_name o))
        (num_of (j_q1 o)) (num_of (j_q2 o)) (num_of (j_q3 o))
        (num_of (j_q4 o)) (num_of (j_q5 o)) None.

(** ** Columns *)

Inductive qcol := Q1 | Q2 | Q3 | Q4 | Q5.

Definition question_eqb (a b : qcol) : bool :=
  match a, b with
  | Q1, Q1 | Q2, Q2 | Q3, Q3 | Q4, Q4 | Q5, Q5 => true
  | _, _ => false
  end.

Definition questions : list qcol := [Q1; Q2; Q3; Q4; Q5].

(** The column labels of the file. *)
Inductive label :=
  | L_age
  | L_email
  | L_first_name
  | L_gender
  | L_id
  | L_last_name
  | L_q (q : qcol).

(** The dtype of a column: int64 or float64, object, or bool. *)
Inductive dtype :=
  | Number
  | Object
  | Boolean.

(** The columns of a table: for each label the dtype of its column, or
    nothing when the table has no such column. *)
Record Columns := mkColumns {
  c_age : option dtype;
  c_email : option dtype;
  c_first_name : option dtype;
  c_gender : option dtype;
  c_id : option dtype;
  c_last_name : option dtype;
  c_q1 : option dtype;
  c_q2 : option dtype;
  c_q3 : option dtype;
  c_q4 : option dtype;
  c_q5 : option dtype
}.

Definition dtype_of (cs : Columns) (c : label) : option dtype :=
  match c with
  | L_age => c_age cs
  | L_email => c_email cs
  | L_first_name => c_first_name cs
  | L_gender => c_gender cs
  | L_id => c_id cs
  | L_last_name => c_last_name cs
  | L_q Q1 => c_q1 cs
  | L_q Q2 => c_q2 cs
  | L_q Q3 => c_q3 cs
  | L_q Q4 => c_q4 cs
  | L_q Q5 => c_q5 cs
  end.

(** The columns given label by label. *)
Definition columns_of (f : label -> option dtype) : Columns :=
  mkColumns (f L_age) (f L_email) (f L_first_name) (f L_gender) (f L_id)
            (f L_last_name) (f (L_q Q1)) (f (L_q Q2)) (f (L_q Q3)) (f (L_q Q4))
            (f (L_q Q5)).

(** [row[question]] *)
Definition get_q (q : qcol) (r : Row) : num :=
  match q with
  | Q1 => q1 r
  | Q2 => q2 r
  | Q3 => q3 r
  | Q4 => q4 r
  | Q5 => q5 r
  end.

(** [row[question] = v] *)
Definition set_q (q : qcol) (v : num) (r : Row) : Row :=
  match q with
  | Q1 => mkRow (age r) (email r) (first_name r) (gender r) (id_ r) (last_name r)
            v (q2 r) (q3 r) (q4 r) (q5 r) (score r)
  | Q2 => mkRow (age r) (email r) (first_name r) (gender r) (id_ r) (last_name r)
            (q1 r) v (q3 r) (q4 r) (q5 r) (score r)
  | Q3 => mkRow (age r) (email r) (first_name r) (gender r) (id_ r) (last_name r)
            (q1 r) (q2 r) v (q4 r) (q5 r) (score r)
  | Q4 => mkRow (age r) (email r) (first_name r) (gender r) (id_ r) (last_name r)
            (q1 r) (q2 r) (q3 r) v (q5 r) (score r)
  | Q5 => mkRow (age r) (email r) (first_name r) (gender r) (id_ r) (last_name r)
            (q1 r) (q2 r) (q3 r) (q4 r) v (score r)
  end.

Definition set_age (a : age_cell) (r : Row) : Row :=
  mkRow a (email r) (first_name r) (gender r) (id_ r) (last_name r)
    (q1 r) (q2 r) (q3 r) (q4 r) (q5 r) (score r).

Definition set_score (s : option score_cell) (r : Row) : Row :=
  mkRow (age r) (email r) (first_name r) (gender r) (id_ r) (last_name r)
    (q1 r) (q2 r) (q3 r) (q4 r) (q5 r) s.

(** ** Tables *)

(** Rows in order, each with its index label. *)
Abbreviation Body := (list (nat * Row)).

(** A DataFrame: its columns and its labelled rows. *)
Record DataFrame := mkDataFrame {
  dtypes : Columns;
  body : Body
}.

(** A change of the rows that leaves the columns as they are. *)
Definition on_body (f : Body -> Body) (df : DataFrame) : DataFrame :=
  mkDataFrame (dtypes df) (f (body df)).

(** A RangeIndex 0..n-1 over the rows. *)
Definition range_index (rows : list Row) : Body :=
  combine (seq 0 (length rows)) rows.

(** [df.reset_index(drop=True)] *)
Definition reset_index (b : Body) : Body :=
  range_index (map snd b).

(** [df[mask]] for a row-wise boolean mask *)
Definition getitem_mask (mask : Row -> bool) (b : Body) : Body :=
  List.filter (fun lr => mask (snd lr)) b.

(** A row-wise change of the cells; labels and order stay. *)
Definition map_rows (f : Row -> Row) (b : Body) : Body :=
  map (fun lr => (fst lr, f (snd lr))) b.

(** *** The dtypes [pd.DataFrame] infers *)

(** What kind of value a cell of the file is. *)
Inductive kind :=
  | KAbsent
  | KNull
  | KString
  | KNumber.

Definition kind_num {A} (c : jnum A) : kind :=
  match c with
  | JAbsent => KAbsent
  | JNull => KNull
  | JNan => KString
  | JNumber _ => KNumber
  end.

Definition kind_txt (c : jtxt) : kind :=
  match c with
  | JTAbsent => KAbsent
  | JTNull => KNull
  | JText _ => KString
  end.

Definition kind_of (c : label) (o : json_object) : kind :=
  match c with
  | L_age => kind_num (j_age o)
  | L_email => kind_txt (j_email o)
  | L_first_name => kind_txt (j_first_name o)
  | L_gender => kind_txt (j_gender o)
  | L_id => kind_num (j_id o)
  | L_last_name => kind_txt (j_last_name o)
  | L_q Q1 => kind_num (j_q1 o)
  | L_q Q2 => kind_num (j_q2 o)
  | L_q Q3 => kind_num (j_q3 o)
  | L_q Q4 => kind_num (j_q4 o)
  | L_q Q5 => kind_num (j_q5 o)
  end.

Definition is_absent (k : kind) : bool :=
  match k with KAbsent => true | _ => false end.

Definition is_string (k : kind) : bool :=
  match k with KString => true | _ => false end.

Definition is_null (k : kind) : bool :=
  match k with KNull => true | _ => false end.

(** The dtype of the column made of these values.  No column when no object
    has the key.  An absent key becomes the float NaN; a string makes the
    column an object column; nulls alone stay None in an object column;
    otherwise the values are numbers, NaN and nulls, and the column is
    numeric. *)
Definition infer_dtype (kinds : list kind) : option dtype :=
  if forallb is_absent kinds then None
  else if existsb is_string kinds then Some Object
  else if forallb is_null kinds then Some Object
  else Some Number.

(** [pd.DataFrame(records)] for the list of objects of the file *)
Definition DataFrame_of (records : list json_object) : DataFrame :=
  mkDataFrame
    (columns_of (fun c => infer_dtype (map (kind_of c) records)))
    (range_index (map row_of records)).

(** ** Strings and the regular expressions the code uses *)

(** The patterns of the source are built from ordinary characters, an escaped
    character (backslash, then the character) and the dot. *)
Inductive atom :=
  | Lit (c : ascii)
  | AnyChar.

Fixpoint re_compile (p : string) : list atom :=
  match p with
  | EmptyString => []
  | String "\" (String c p') => Lit c :: re_compile p'
  | String "." p' => AnyChar :: re_compile p'
  | String c p' => Lit c :: re_compile p'
  end.

Definition atom_matches (a : atom) (c : ascii) : bool :=
  match a with
  | Lit d => Ascii.eqb d c
  | AnyChar => negb (Ascii.eqb c "010")
  end.

(** [re.match]: the pattern matches at the start of the string. *)
Fixpoint re_match (r : list atom) (s : string) : bool :=
  match r with
  | [] => true
  | a :: r' =>
      match s with
      | EmptyString => false
      | String c s' => atom_matches a c && re_match r' s'
      end
  end.

(** [re.search]: the pattern matches somewhere. *)
Fixpoint re_search (r : list atom) (s : string) : bool :=
  re_match r s ||
  match s with
  | EmptyString => false
  | String _ s' => re_search r s'
  end.

(** [len(re.findall(...))]: non-overlapping matches, scanning left to right;
    [skip] characters of the last match remain to be passed over. *)
Fixpoint re_count_from (r : list atom) (s : string) (skip : nat) : nat :=
  match s with
  | EmptyString => if re_match r s then 1 else 0
  | String _ s' =>
      match skip with
      | S k => re_count_from r s' k
      | O =>
          if re_match r s
          then S (re_count_from r s' (length r - 1))
          else re_count_from r s' 0
      end
  end.

(** [Series.str.contains(pat, na=False)]: [pat] is a regular expression. *)
Definition str_contains (pat : string) (c : txt) : bool :=
  match c with
  | Text s => re_search (re_compile pat) s
  | TNaN => false
  end.

(** [Series.str.startswith(pat, na=False)]: [pat] is taken literally. *)
Definition str_startswith (pat : string) (c : txt) : bool :=
  match c with
  | Text s => String.prefix pat s
  | TNaN => false
  end.

(** [Series.str.count(pat)]: NaN for a missing value. *)
Definition str_count (pat : string) (c : txt) : option nat :=
  match c with
  | Text s => Some (re_count_from (re_compile pat) s 0)
  | TNaN => None
  end.

(** [series == n], false on NaN *)
Definition eq_count (o : option nat) (n : nat) : bool :=
  match o with
  | Some k => Nat.eqb k n
  | None => false
  end.

(** ** The store and the monad of the methods *)

Inductive exn :=
  | ValueError
  | KeyError
  | AttributeError
  | TypeError
  | IndexError
  | FileNotFoundError
  | JSONDecodeError.

Inductive res (A : Type) :=
  | Ok (a : A)
  | Raise (e : exn).
Arguments Ok {A} a.
Arguments Raise {A} e.

Abbreviation loc := nat (only parsing).

(** The pandas objects allocated so far; a location is a position. *)
Abbreviation store := (list DataFrame).

Definition M (A : Type) : Type := store -> res A * store.

Definition ret {A} (a : A) : M A := fun h => (Ok a, h).

Definition raise {A} (e : exn) : M A := fun h => (Raise e, h).

Definition bind {A B} (m : M A) (k : A -> M B) : M B :=
  fun h =>
    match m h with
    | (Ok a, h') => k a h'
    | (Raise e, h') => (Raise e, h')
    end.

Notation "x <- m ;; k" := (bind m (fun x => k))
  (at level 100, m at next level, right associativity).
Notation "m ;;; k" := (bind m (fun _ => k))
  (at level 100, right associativity).

(** A new pandas object. *)
Definition alloc (df : DataFrame) : M loc :=
  fun h => (Ok (length h), h ++ [df]).

(** Reading the object behind a reference. *)
Definition deref (l : loc) : M DataFrame :=
  fun h =>
    match h !! l with
    | Some df => (Ok df, h)
    | None => (Raise AttributeError, h)
    end.

(** An assignment into an existing object. *)
Definition assign (l : loc) (f : DataFrame -> DataFrame) : M unit :=
  fun h =>
    match h !! l with
    | Some df => (Ok tt, <[l := f df]> h)
    | None => (Raise AttributeError, h)
    end.

(** A for loop whose body runs in the monad. *)
Fixpoint for_each {A S} (xs : list A) (body : S -> A -> M S) (s : S) : M S :=
  match xs with
  | [] => ret s
  | x :: xs' => s' <- body s x ;; for_each xs' body s'
  end.

(** [pd.DataFrame(df)]: a second handle on the same data, not a copy. *)
Definition pd_DataFrame (l : loc) : M loc := ret l.

(** An operation that returns a new table computed from [l]'s. *)
Definition derive (f : DataFrame -> DataFrame) (l : loc) : M loc :=
  df <- deref l ;; alloc (f df).


(** The same for an operation that can raise. *)
Definition derive_res (f : DataFrame -> res DataFrame) (l : loc) : M loc :=
  df <- deref l ;;
  match f df with
  | Ok out => alloc out
  | Raise e => raise e
  end.

Definition lift {A} (r : res A) : M A := fun h => (r, h).

(** [df[...] = f(df)] where computing the new content can raise *)
Definition assign_res (l : loc) (f : DataFrame -> res DataFrame) : M unit :=
  cur <- deref l ;;
  out <- lift (f cur) ;;
  assign l (fun _ => out).

(** ** Looking up columns *)

Definition label_eqb (a b : label) : bool :=
  match a, b with
  | L_age, L_age | L_email, L_email | L_first_name, L_first_name
  | L_gender, L_gender | L_id, L_id | L_last_name, L_last_name => true
  | L_q q, L_q q' => question_eqb q q'
  | _, _ => false
  end.

(** The columns with the dtype of one of them changed. *)
Definition set_dtype (c : label) (d : option dtype) (cs : Columns) : Columns :=
  columns_of (fun c' => if label_eqb c c' then d else dtype_of cs c').

(** [df[label]]: the dtype of the column, [KeyError] when there is none. *)
Definition getitem (c : label) (df : DataFrame) : res dtype :=
  match dtype_of (dtypes df) c with
  | Some d => Ok d
  | None => Raise KeyError
  end.

(** [df[labels]]: every label must be a column. *)
Fixpoint getitem_list (cs : list label) (df : DataFrame) : res unit :=
  match cs with
  | [] => Ok tt
  | c :: cs' =>
      match getitem c df with
      | Ok _ => getitem_list cs' df
      | Raise e => Raise e
      end
  end.

(** ** The class *)

Record QuestionnaireAnalysis := mkQA {
  data_fname : string;
  data : option loc
}.

(** What a path holds.  A regular file is its content as [json.loads] reads
    it: the list of objects, or nothing when it is not such JSON. *)
Inductive node :=
  | Directory
  | RegularFile (content : option (list json_object)).

Definition filesystem := string -> option node.

Definition is_file (fs : filesystem) (p : string) : bool :=
  match fs p with
  | Some (RegularFile _) => true
  | _ => false
  end.

(** [__init__] *)
Definition init (fs : filesystem) (data_fname : string) : M QuestionnaireAnalysis :=
  if is_file fs data_fname
  then ret (mkQA data_fname None)
  else raise ValueError.

(** [read_data] *)
Definition read_data (fs : filesystem) (self : QuestionnaireAnalysis)
  : M QuestionnaireAnalysis :=
  match fs (data_fname self) with
  | Some (RegularFile (Some records)) =>
      l <- alloc (DataFrame_of records) ;;
      ret (mkQA (data_fname self) (Some l))
  | Some (RegularFile None) => raise JSONDecodeError
  | _ => raise FileNotFoundError
  end.

(** ** remove_rows_without_mail *)

(** [df[test(df.email.str...)]]: the attribute [email] needs the column, and
    the accessor [.str] needs an object column; both refusals are
    [AttributeError]. *)
Definition filter_email (test : txt -> bool) (df : DataFrame) : res DataFrame :=
  match c_email (dtypes df) with
  | Some Object => Ok (on_body (getitem_mask (fun r => test (email r))) df)
  | _ => Raise AttributeError
  end.

Definition remove_rows_without_mail (self : QuestionnaireAnalysis) : M loc :=
  match data self with
  | None => raise AttributeError
  | Some d =>
      df <- pd_DataFrame d ;;
      df <- derive_res (filter_email (str_contains "@")) df ;;
      df <- derive_res (filter_email (str_contains "\.")) df ;;
      df <- derive_res (filter_email (fun c => negb (str_contains "@\." c))) df ;;
      df <- derive_res (filter_email (fun c => negb (str_startswith "@" c))) df ;;
      df <- derive_res (filter_email (fun c => negb (str_startswith "\." c))) df ;;
      df <- derive_res (filter_email (fun c => eq_count (str_count "@" c) 1)) df ;;
      derive (on_body reset_index) df
  end.

(** ** Numbers *)

Definition Qltb (x y : Q) : bool := negb (Qle_bool y x).

Definition float_of_nat (n : nat) : float :=
  PrimFloat.of_uint63 (Uint63.of_Z (Z.of_nat n)).

(** The sum numpy computes for fewer than eight values: from left to right. *)
Definition fsum (l : list float) : float := fold_left PrimFloat.add l 0%float.

(** The mean of the values present, in float arithmetic: their sum over
    their number; NaN (0/0) when none is present. *)
Definition mean (l : list float) : float :=
  (fsum l / float_of_nat (length l))%float.

(** 2^52: from here on every float is a whole number. *)
Definition two52 : float := 4503599627370496%float.

(** [np.rint]: to the nearest whole number, halves to the even one.  Below
    2^52 adding and subtracting 2^52 rounds exactly so; a zero result keeps
    the sign of [x]. *)
Definition rint (x : float) : float :=
  if (PrimFloat.abs x <? two52)%float then
    let r := if (0 <=? x)%float
             then ((x + two52) - two52)%float
             else ((x - two52) + two52)%float in
    if (r =? 0)%float then (x * 0)%float else r
  else x.

(** [np.round(x, decimals)]: multiply by 10^decimals, [rint], divide. *)
Definition np_round (decimals : nat) (x : float) : float :=
  let p := PrimFloat.of_uint63 (Uint63.of_Z (10 ^ Z.of_nat decimals)) in
  (rint (x * p) / p)%float.

(** [np.floor] *)
Definition np_floor (x : float) : float :=
  let r := rint x in
  if (x <? r)%float then (r - 1)%float else r.

(** The UInt8 value equal to a float, if there is one. *)
Definition uint8_of (x : float) : option Z :=
  List.find (fun n => (x =? PrimFloat.of_uint63 (Uint63.of_Z n))%float)
            (map Z.of_nat (seq 0 256)).

(** The same for a change of rows that can raise. *)
Fixpoint map_rows_res (f : Row -> res Row) (b : Body) : res Body :=
  match b with
  | [] => Ok []
  | lr :: b' =>
      match f (snd lr) with
      | Raise e => Raise e
      | Ok r =>
          match map_rows_res f b' with
          | Raise e => Raise e
          | Ok out => Ok ((fst lr, r) :: out)
          end
      end
  end.

Definition on_body_res (f : Body -> res Body) (df : DataFrame) : res DataFrame :=
  match f (body df) with
  | Ok b => Ok (mkDataFrame (dtypes df) b)
  | Raise e => Raise e
  end.

(** ** [df.replace("nan", np.NaN)] *)

Definition replace_num (c : num) : num :=
  match c with
  | NanText => NaN
  | _ => c
  end.

Definition replace_age (c : age_cell) : age_cell :=
  match c with
  | AgeNanText => AgeNaN
  | _ => c
  end.

Definition replace_txt (c : txt) : txt :=
  match c with
  | Text s => if String.eqb s "nan" then TNaN else c
  | TNaN => TNaN
  end.

Definition replace_nan (r : Row) : Row :=
  mkRow (replace_age (age r)) (replace_txt (email r)) (replace_txt (first_name r))
    (replace_txt (gender r)) (replace_num (id_ r)) (replace_txt (last_name r))
    (replace_num (q1 r)) (replace_num (q2 r)) (replace_num (q3 r))
    (replace_num (q4 r)) (replace_num (q5 r)) (score r).

Definition num_is_nan_text (c : num) : bool :=
  match c with NanText => true | _ => false end.

Definition txt_is_nan_text (c : txt) : bool :=
  match c with Text s => String.eqb s "nan" | TNaN => false end.

(** The cell of column [c] is the text "nan". *)
Definition is_nan_text (c : label) (r : Row) : bool :=
  match c with
  | L_age => match age r with AgeNanText => true | _ => false end
  | L_email => txt_is_nan_text (email r)
  | L_first_name => txt_is_nan_text (first_name r)
  | L_gender => txt_is_nan_text (gender r)
  | L_id => num_is_nan_text (id_ r)
  | L_last_name => txt_is_nan_text (last_name r)
  | L_q q => num_is_nan_text (get_q q r)
  end.

Definition txt_is_other_text (c : txt) : bool :=
  match c with Text s => negb (String.eqb s "nan") | TNaN => false end.

(** The cell of column [c] is a text other than "nan". *)
Definition is_other_text (c : label) (r : Row) : bool :=
  match c with
  | L_email => txt_is_other_text (email r)
  | L_first_name => txt_is_other_text (first_name r)
  | L_gender => txt_is_other_text (gender r)
  | L_last_name => txt_is_other_text (last_name r)
  | _ => false
  end.

(** The dtype of a column after [replace]: an object column in which a text
    was replaced and no text is left holds numbers and missing values only,
    and pandas makes it a float column; every other column keeps its
    dtype. *)
Definition replace_dtype (b : Body) (c : label) (d : option dtype) : option dtype :=
  match d with
  | Some Object =>
      if existsb (fun lr => is_nan_text c (snd lr)) b
         && negb (existsb (fun lr => is_other_text c (snd lr)) b)
      then Some Number
      else Some Object
  | _ => d
  end.

Definition replace (df : DataFrame) : DataFrame :=
  mkDataFrame
    (columns_of (fun c => replace_dtype (body df) c (dtype_of (dtypes df) c)))
    (map_rows replace_nan (body df)).

(** [isna] *)
Definition isna (c : num) : bool :=
  match c with
  | NaN => true
  | _ => false
  end.

Definition age_isna (c : age_cell) : bool :=
  match c with
  | AgeNaN => true
  | _ => false
  end.

(** The numbers among some cells, missing values skipped; text among numbers
    cannot be added up. *)
Fixpoint present (cells : list num) : res (list float) :=
  match cells with
  | [] => Ok []
  | Num x :: cells' =>
      match present cells' with
      | Ok l => Ok (x :: l)
      | Raise e => Raise e
      end
  | NaN :: cells' => present cells'
  | NanText :: _ => Raise TypeError
  end.

(** [np.mean(series)] over the values present *)
Definition np_mean (cells : list num) : res num :=
  match present cells with
  | Ok l => Ok (of_float (mean l))
  | Raise e => Raise e
  end.

(** ** show_age_distrib *)

(** The cell after [astype('float')]. *)
Definition age_to_float (c : age_cell) : age_cell :=
  match c with
  | Age x => Age x
  | AgeNanText => AgeNaN
  | AgeNaN => AgeNaN
  | Flag b => Age (if b then 1 else 0)
  end.

(** [df.astype({'age': 'float'})]: [KeyError] without the column. *)
Definition astype_age_float (df : DataFrame) : res DataFrame :=
  match getitem L_age df with
  | Ok _ =>
      Ok (mkDataFrame (set_dtype L_age (Some Number) (dtypes df))
            (map_rows (fun r => set_age (age_to_float (age r)) r) (body df)))
  | Raise e => Raise e
  end.

(** The number an age cell stands for in a comparison. *)
Definition age_value (c : age_cell) : option Q :=
  match c with
  | Age x => Some x
  | Flag b => Some (if b then 1 else 0)%Q
  | _ => None
  end.

(** Ascending, NaN last. *)
Definition age_le (a b : age_cell) : bool :=
  match age_value a, age_value b with
  | Some x, Some y => Qle_bool x y
  | _, None => true
  | None, Some _ => false
  end.

Fixpoint insert_by_age (x : nat * Row) (l : Body) : Body :=
  match l with
  | [] => [x]
  | y :: l' =>
      if age_le (age (snd x)) (age (snd y)) then x :: l
      else y :: insert_by_age x l'
  end.

(** [df.sort_values("age")] *)
Definition sort_values_age (b : Body) : Body :=
  fold_right insert_by_age [] b.

(** [bins.searchsorted(x, side="left")]: how many edges lie below [x] *)
Definition searchsorted_left (bins : list Q) (x : Q) : nat :=
  length (List.filter (fun b => Qltb b x) bins).

(** [pd.cut(x, bins, include_lowest=True)]: the interval number of a value,
    from 1, or nothing when it is NaN or falls outside. *)
Definition cut (bins : list Q) (c : age_cell) : option nat :=
  match age_value c with
  | None => None
  | Some x =>
      let ids := searchsorted_left bins x in
      let ids :=
        match bins with
        | b0 :: _ => if Qeq_bool x b0 then 1 else ids
        | [] => ids
        end in
      if Nat.eqb ids (length bins) || Nat.eqb ids 0 then None else Some ids
  end.

Definition count_in (bins : list Q) (k : nat) (values : list age_cell) : nat :=
  length (List.filter (fun c => match cut bins c with
                                | Some j => Nat.eqb j k
                                | None => false
                                end) values).

(** [series.value_counts(bins=bins, dropna=True).values]: one count per
    interval, in interval order; empty when every count is zero. *)
Definition value_counts_bins (bins : list Q) (values : list age_cell) : list nat :=
  let counts := map (fun k => count_in bins k values) (seq 1 (length bins - 1)) in
  if forallb (Nat.eqb 0) counts then [] else counts.

(** [range(start, stop, step)] for a positive step *)
Definition py_range (start stop step : Z) : list Z :=
  map (fun k => (start + step * Z.of_nat k)%Z)
      (seq 0 (Z.to_nat ((stop - start + step - 1) / step))).

(** One turn of the loop of lines 41-48.  [None] is a cell of [np.ndarray]
    that was never written; the indices used are within the arrays. *)
Definition age_loop_body (age_data : list age_cell)
    (st : list (option Z) * list (option Z) * nat) (age_edge : Z)
  : list (option Z) * list (option Z) * nat :=
  let '(hist, bins, i) := st in
  let bins := <[i := Some age_edge]> bins in
  let bins_here := [inject_Z age_edge; inject_Z (age_edge + 9)] in
  let counts := value_counts_bins bins_here age_data in
  let hist :=
    if Nat.ltb 0 (length counts) && Nat.ltb i 10
    then <[i := option_map Z.of_nat (head counts)]> hist
    else if Nat.ltb i 10 then <[i := Some 0%Z]> hist
    else hist in
  (hist, bins, S i).

Definition show_age_distrib (self : QuestionnaireAnalysis)
  : M (list (option Z) * list (option Z)) :=
  match data self with
  | None => raise KeyError
  | Some d =>
      df <- pd_DataFrame d ;;
      df <- derive_res astype_age_float df ;;
      df <- derive (on_body sort_values_age) df ;;
      sorted_df <- deref df ;;
      let age_data := map (fun lr => age (snd lr)) (body sorted_df) in
      let '(hist, bins, _) :=
        fold_left (age_loop_body age_data) (py_range 0 110 10)
                  (replicate 10 None, replicate 11 None, 0) in
      ret (hist, bins)
  end.

(** ** fill_na_with_mean *)

(** [list.remove(x)]: the first occurrence goes. *)
Fixpoint list_remove (q : qcol) (l : list qcol) : list qcol :=
  match l with
  | [] => []
  | x :: l' => if question_eqb x q then l' else x :: list_remove q l'
  end.

(** [df.iloc[index]]: the row at a position *)
Definition iloc (b : Body) (index : nat) : res Row :=
  match b !! index with
  | Some lr => Ok (snd lr)
  | None => Raise IndexError
  end.

(** [df[question][index] = v]: the cell of column [question] in the rows
    labelled [index] (the column of [df] is written through). *)
Definition setitem_label (q : qcol) (index : nat) (v : num) (b : Body) : Body :=
  map (fun lr => if Nat.eqb (fst lr) index then (fst lr, set_q q v (snd lr)) else lr) b.

(** [series.round(decimals)] on one cell *)
Definition round_num (decimals : nat) (c : num) : num :=
  match c with
  | Num x => of_float (np_round decimals x)
  | _ => c
  end.

(** [DataFrame.round] rounds the numeric columns and leaves the others. *)
Definition round_column (decimals : nat) (d : option dtype) (c : num) : num :=
  match d with
  | Some Number => round_num decimals c
  | _ => c
  end.

(** [df[questions].round(decimals)], row by row *)
Definition round_questions (decimals : nat) (cs : Columns) (r : Row) : Row :=
  mkRow (age r) (email r) (first_name r) (gender r) (id_ r) (last_name r)
    (round_column decimals (c_q1 cs) (q1 r)) (round_column decimals (c_q2 cs) (q2 r))
    (round_column decimals (c_q3 cs) (q3 r)) (round_column decimals (c_q4 cs) (q4 r))
    (round_column decimals (c_q5 cs) (q5 r)) (score r).

(** Line 91: [df[questions] = df[questions].round(decimals=2)] *)
Definition round_table (decimals : nat) (df : DataFrame) : res DataFrame :=
  match getitem_list (map L_q questions) df with
  | Ok _ => Ok (on_body (map_rows (round_questions decimals (dtypes df))) df)
  | Raise e => Raise e
  end.

(** The eleven columns of line 93. *)
Definition file_columns : list label :=
  [L_age; L_email; L_first_name; L_gender; L_id; L_last_name;
   L_q Q1; L_q Q2; L_q Q3; L_q Q4; L_q Q5].

(** [df[["age", ..., "q5"]]]: the eleven columns of the file, copied *)
Definition select_columns (df : DataFrame) : res DataFrame :=
  match getitem_list file_columns df with
  | Ok _ => Ok (on_body (map_rows (set_score None)) df)
  | Raise e => Raise e
  end.

Fixpoint insert_sorted (x : nat) (l : list nat) : list nat :=
  match l with
  | [] => [x]
  | y :: l' => if Nat.leb x y then x :: l else y :: insert_sorted x l'
  end.

(** [sorted(arr)] *)
Definition sorted (l : list nat) : list nat := fold_right insert_sorted [] l.

(** Equal neighbours collapse to one. *)
Fixpoint drop_repeats (l : list nat) : list nat :=
  match l with
  | [] => []
  | x :: l' =>
      match l' with
      | y :: _ => if Nat.eqb x y then drop_repeats l' else x :: drop_repeats l'
      | [] => [x]
      end
  end.

(** [np.unique(arr)]: sort, then keep one of each value *)
Definition np_unique (l : list nat) : list nat := drop_repeats (sorted l).

(** Lines 89-90: the rows of the mask, one after the other. *)
Definition fill_column (df : loc) (question : qcol) (this_list : list qcol)
    (indices : list nat) : M unit :=
  for_each indices (fun _ index =>
    cur <- deref df ;;
    lift (getitem_list (map L_q this_list) cur) ;;;
    row <- lift (iloc (body cur) index) ;;
    v <- lift (np_mean (map (fun q => get_q q row) this_list)) ;;
    lift (getitem (L_q question) cur) ;;;
    assign df (on_body (setitem_label question index v))) tt.

(** Lines 85-90: one turn of the loop over the questions. *)
Definition fill_question (df : loc) (arr : list nat) (question : qcol)
  : M (list nat) :=
  cur <- deref df ;;
  lift (getitem (L_q question) cur) ;;;
  let mask := fun r => isna (get_q question r) in
  let indices := map fst (getitem_mask mask (body cur)) in
  let arr := arr ++ indices in
  let this_list := list_remove question questions in
  fill_column df question this_list indices ;;;
  ret arr.

Definition fill_na_with_mean (self : QuestionnaireAnalysis) : M (loc * list nat) :=
  match data self with
  | None => raise AttributeError
  | Some d =>
      let arr := [] in
      df <- derive replace d ;;
      arr <- for_each questions (fill_question df) arr ;;
      assign_res df (round_table 2) ;;;
      assign df (fun cur => cur) ;;;
      out <- derive_res select_columns df ;;
      ret (out, np_unique (sorted arr))
  end.

(** ** score_subjects *)

Definition row_questions (r : Row) : list num :=
  map (fun q => get_q q r) questions.

(** Line 116 on one row of a float array: the mean of the values present. *)
Definition score_nanmean (r : Row) : res Row :=
  match present (row_questions r) with
  | Ok l => Ok (set_score (Some (SFloat (mean l))) r)
  | Raise e => Raise e
  end.

Definition is_number (d : option dtype) : bool :=
  match d with
  | Some Number => true
  | _ => false
  end.

(** Line 116: [df1["score"] = np.nanmean(df1[questions], axis=1)].  The five
    columns must exist; an object column among them makes the array an
    object array, whose None cannot be added to a float. *)
Definition nanmean_questions (df : DataFrame) : res DataFrame :=
  match getitem_list (map L_q questions) df with
  | Ok _ =>
      if forallb (fun q => is_number (dtype_of (dtypes df) (L_q q))) questions
      then on_body_res (map_rows_res score_nanmean) df
      else Raise TypeError
  | Raise e => Raise e
  end.

(** Line 117: [apply(np.floor)] on the float column *)
Definition score_floor (r : Row) : res Row :=
  match score r with
  | Some (SFloat x) => Ok (set_score (Some (SFloat (np_floor x))) r)
  | Some _ => Raise TypeError
  | None => Raise KeyError
  end.

(** [row[questions].count()]: the cells that are not NA *)
Definition count_present (r : Row) : nat :=
  length (List.filter (fun c => negb (isna c)) (row_questions r)).

(** Lines 118-120 *)
Definition score_threshold (maximal_nans_per_sub : Z) (r : Row) : res Row :=
  match score r with
  | None => Raise AttributeError
  | Some s =>
      if (Z.of_nat (count_present r)
          <? Z.of_nat (length questions) - maximal_nans_per_sub)%Z
      then Ok (set_score (Some SNA) r)
      else Ok r
  end.

(** Line 121: [astype('UInt8')].  NaN and [pd.NA] become the missing value; a
    number must be one of 0..255, any other is refused. *)
Definition score_astype_UInt8 (r : Row) : res Row :=
  match score r with
  | None => Raise KeyError
  | Some SNA => Ok r
  | Some (SFloat x) =>
      if PrimFloat.is_nan x then Ok (set_score (Some SNA) r)
      else match uint8_of x with
           | Some n => Ok (set_score (Some (SUInt8 n)) r)
           | None => Raise TypeError
           end
  | Some (SUInt8 n) => Ok r
  end.

Definition score_subjects (maximal_nans_per_sub : Z) (self : QuestionnaireAnalysis)
  : M loc :=
  match data self with
  | None => raise KeyError
  | Some d =>
      df <- pd_DataFrame d ;;
      df1 <- derive replace df ;;
      assign_res df1 nanmean_questions ;;;
      assign_res df1 (on_body_res (map_rows_res score_floor)) ;;;
      assign_res df1 (on_body_res (map_rows_res (score_threshold maximal_nans_per_sub))) ;;;
      assign_res df1 (on_body_res (map_rows_res score_astype_UInt8)) ;;;
      ret df1
  end.

(** ** correlate_gender_age *)

(** [df.dropna(subset=["age"]).reset_index(drop=True)] *)
Definition dropna_age (df : DataFrame) : res DataFrame :=
  match getitem L_age df with
  | Ok _ =>
      Ok (on_body (fun b => reset_index
                              (getitem_mask (fun r => negb (age_isna (age r))) b)) df)
  | Raise e => Raise e
  end.

(** Line 137 on one row: [False if x < 40 else True]; text cannot be
    compared. *)
Definition over_40 (r : Row) : res Row :=
  match age_value (age r) with
  | Some x => Ok (set_age (Flag (if Qltb x 40 then false else true)) r)
  | None => Raise TypeError
  end.

(** Line 137: [df1["age"] = df1["age"].apply(...)]; the column now holds
    bools (an empty column stays as it is). *)
Definition apply_over_40 (df : DataFrame) : res DataFrame :=
  match getitem L_age df with
  | Ok _ =>
      match map_rows_res over_40 (body df) with
      | Ok [] => Ok df
      | Ok b => Ok (mkDataFrame (set_dtype L_age (Some Boolean) (dtypes df)) b)
      | Raise e => Raise e
      end
  | Raise e => Raise e
  end.

(** A group key: the gender and the flag.  NaN in a key drops the row from
    every group. *)
Definition group_key (r : Row) : option (string * bool) :=
  match gender r, age r with
  | Text g, Flag b => Some (g, b)
  | _, _ => None
  end.

Definition key_eqb (a b : string * bool) : bool :=
  String.eqb (fst a) (fst b) && Bool.eqb (snd a) (snd b).

(** The order of the keys in the result: by gender, then False before True. *)
Definition key_ltb (a b : string * bool) : bool :=
  match String.compare (fst a) (fst b) with
  | Lt => true
  | Gt => false
  | Eq => negb (snd a) && snd b
  end.

Fixpoint insert_key (k : string * bool) (l : list (string * bool))
  : list (string * bool) :=
  match l with
  | [] => [k]
  | k' :: l' =>
      if key_eqb k k' then l
      else if key_ltb k k' then k :: l
      else k' :: insert_key k l'
  end.

(** The keys that occur, each once, in order. *)
Definition group_keys (b : Body) : list (string * bool) :=
  fold_right (fun lr acc =>
                match group_key (snd lr) with
                | Some k => insert_key k acc
                | None => acc
                end) [] b.

Definition in_group (k : string * bool) (r : Row) : bool :=
  match group_key r with
  | Some k' => key_eqb k k'
  | None => false
  end.

(** One step of the compensated sum of the group mean. *)
Definition kahan_add (st : float * float) (val : float) : float * float :=
  let '(sumx, compensation) := st in
  let y := (val - compensation)%float in
  let t := (sumx + y)%float in
  (t, ((t - sumx) - y)%float).

(** The mean pandas computes for the values of a column present in a group:
    the compensated sum over their number; NaN when none is present. *)
Definition kahan_mean (vals : list float) : float :=
  (fst (fold_left kahan_add vals (0, 0)%float) / float_of_nat (length vals))%float.

(** The mean of one column over a group, rounded. *)
Definition group_mean (decimals : nat) (members : list Row) (q : qcol)
  : res num :=
  match present (map (get_q q) members) with
  | Ok l => Ok (round_num decimals (of_float (kahan_mean l)))
  | Raise e => Raise e
  end.

Fixpoint sequence_res {A} (l : list (res A)) : res (list A) :=
  match l with
  | [] => Ok []
  | Raise e :: _ => Raise e
  | Ok a :: l' =>
      match sequence_res l' with
      | Ok out => Ok (a :: out)
      | Raise e => Raise e
      end
  end.

(** Line 138: [set_index(['gender', 'age'])] needs the two columns;
    [groupby(...).mean()] keeps the numeric columns only, so [[questions]]
    finds the five only when each is numeric; then one row per key, holding
    the five means rounded. *)
Definition groupby_mean (df : DataFrame)
  : res (list ((string * bool) * list num)) :=
  match getitem_list [L_gender; L_age] df with
  | Raise e => Raise e
  | Ok _ =>
      if forallb (fun q => is_number (dtype_of (dtypes df) (L_q q))) questions
      then
        sequence_res
          (map (fun k =>
                  let members := List.filter (in_group k) (map snd (body df)) in
                  match sequence_res (map (group_mean 8 members) questions) with
                  | Ok means => Ok (k, means)
                  | Raise e => Raise e
                  end)
               (group_keys (body df)))
      else Raise KeyError
  end.

Definition correlate_gender_age (self : QuestionnaireAnalysis)
  : M (list ((string * bool) * list num)) :=
  match data self with
  | None => raise KeyError
  | Some d =>
      df <- pd_DataFrame d ;;
      df1 <- derive replace df ;;
      df1 <- derive_res dropna_age df1 ;;
      assign_res df1 apply_over_40 ;;;
      cur <- deref df1 ;;
      lift (groupby_mean cur)
  end.

(** ** Running a method on a loaded dataset *)

(** A file system with one file, [path], holding [records]. *)
Definition one_file (path : string) (records : list json_object) : filesystem :=
  fun p => if String.eqb p path then Some (RegularFile (Some records)) else None.

Definition data_json : string := "data.json".

(** [QuestionnaireAnalysis(path)], then [read_data()]. *)
Definition load (records : list json_object) : M QuestionnaireAnalysis :=
  self <- init (one_file data_json records) data_json ;;
  read_data (one_file data_json records) self.

(** The value a method returns on the loaded dataset, and the store after. *)
Definition run {A} (records : list json_object)
    (method : QuestionnaireAnalysis -> M A) : res A * store :=
  (self <- load records ;; method self) [].

(** The same when the method returns a table: the table itself. *)
Definition run_table (records : list json_object)
    (method : QuestionnaireAnalysis -> M loc) : res DataFrame :=
  match run records method with
  | (Ok l, h) =>
      match h !! l with
      | Some df => Ok df
      | None => Raise AttributeError
      end
  | (Raise e, _) => Raise e
  end.

(** * The methods in terms of rows

    What each method computes, written as functions on the rows of the file,
    and the conditions on the file under which it returns; the statements
    below relate the methods to these. *)

(** ** Loading *)

(** The rows of the table [read_data] builds. *)
Definition rows_of (records : list json_object) : list Row := map row_of records.

(** The table behind [self.data] after a method has run on a loaded dataset. *)
Definition data_after {A} (records : list json_object)
    (method : QuestionnaireAnalysis -> M A) : option DataFrame :=
  match load records [] with
  | (Ok self, h) =>
      match data self with
      | Some d => snd (method self h) !! d
      | None => None
      end
  | (Raise _, _) => None
  end.

(** The loaded table has the column: some object of the file has the key. *)
Definition has_column (c : label) (records : list json_object) : bool :=
  match dtype_of (dtypes (DataFrame_of records)) c with
  | Some _ => true
  | None => false
  end.

(** The loaded table has the eleven columns. *)
Definition has_columns (records : list json_object) : bool :=
  forallb (fun c => has_column c records) file_columns.

(** The email column of the loaded table is an object column. *)
Definition email_strings (records : list json_object) : bool :=
  match c_email (dtypes (DataFrame_of records)) with
  | Some Object => true
  | _ => false
  end.

(** Once "nan" is replaced, the five question columns are numeric. *)
Definition numeric_answers (records : list json_object) : bool :=
  forallb (fun q => is_number (dtype_of (dtypes (replace (DataFrame_of records))) (L_q q)))
          questions.

(** The table has the five question columns. *)
Definition has_questions (cs : Columns) : Prop :=
  forall q, dtype_of cs (L_q q) <> None.

(** The table has the five question columns, and they are numeric. *)
Definition numeric_questions (cs : Columns) : Prop :=
  forall q, dtype_of cs (L_q q) = Some Number.

(** The table has the eleven columns of the file. *)
Definition has_file_columns (cs : Columns) : Prop :=
  Forall (fun c => dtype_of cs c <> None) file_columns.

(** ** remove_rows_without_mail *)

(** The six tests of lines 61-66, in the order the code applies them. *)
Definition kept (r : Row) : bool :=
  str_contains "@" (email r)
  && str_contains "\." (email r)
  && negb (str_contains "@\." (email r))
  && negb (str_startswith "@" (email r))
  && negb (str_startswith "\." (email r))
  && eq_count (str_count "@" (email r)) 1.

(** The rows the method returns for the rows [b] behind [self.data]. *)
Definition valid_rows (b : Body) : Body :=
  reset_index (getitem_mask kept b).

(** How often the character occurs in the string. *)
Fixpoint count_char (c : ascii) (s : string) : nat :=
  match s with
  | EmptyString => 0
  | String d s' => (if Ascii.eqb c d then 1 else 0) + count_char c s'
  end.

(** [p] occurs in [s] as a run of consecutive characters. *)
Fixpoint has_substring (p s : string) : bool :=
  String.prefix p s ||
  match s with
  | EmptyString => false
  | String _ s' => has_substring p s'
  end.

(** An object of the file. *)
Definition participant (a : Q) (e g : string) (c1 c2 c3 c4 c5 : jnum float)
  : json_object :=
  mkObject (JNumber a) (JText e) (JText "Ada") (JText g) (JNumber 1%float)
           (JText "Lee") c1 c2 c3 c4 c5.

(** An answer given as a number. *)
Definition answer (x : float) : jnum float := JNumber x.

(** A dataset whose only address starts with a dot. *)
Definition leading_dot : json_object :=
  participant 30 ".a@b.com" "Female" (answer 3) (answer 4) (answer 5) (answer 2) (answer 1).

(** ** show_age_distrib *)

(** The age lies in the inclusive range from [lo] to [lo + 9]. *)
Definition in_range (lo : Z) (c : age_cell) : bool :=
  match age_value c with
  | Some x => Qle_bool (inject_Z lo) x && Qle_bool x (inject_Z (lo + 9))
  | None => false
  end.

(** Bin [k] is the range from [10 k] to [10 k + 9]. *)
Definition in_bin (k : nat) (c : age_cell) : bool :=
  in_range (10 * Z.of_nat k) c.

(** The age lies in one of the ten bins. *)
Definition binned (c : age_cell) : bool :=
  existsb (fun k => in_bin k c) (seq 0 10).

(** The age is not missing. *)
Definition has_age (c : age_cell) : bool :=
  match age_value c with
  | Some _ => true
  | None => false
  end.

(** How many elements pass the test. *)
Definition count {A} (p : A -> bool) (l : list A) : nat :=
  length (List.filter p l).

(** The ages in the order of the file. *)
Definition ages (records : list json_object) : list age_cell :=
  map age (rows_of records).

(** The sum of the counts of the histogram. *)
Definition hist_total (hist : list (option Z)) : Z :=
  fold_right (fun o acc => (match o with Some c => c | None => 0 end + acc)%Z) 0%Z hist.

(** 1 for true, 0 for false. *)
Definition indicator (b : bool) : nat := if b then 1 else 0.

(** The histogram of a list of ages. *)
Definition histogram (values : list age_cell) : list (option Z) * list (option Z) :=
  (map (fun k => Some (Z.of_nat (count (in_bin k) values))) (seq 0 10),
   map Some (py_range 0 110 10)).

(** A participant aged 100. *)
Definition centenarian : json_object :=
  participant 100 "old@age.org" "Female" (answer 1) (answer 2) (answer 3) (answer 4) (answer 5).

(** ** fill_na_with_mean *)

(** The numbers among some cells: the fields that are present. *)
Fixpoint numbers (cells : list num) : list float :=
  match cells with
  | [] => []
  | Num x :: cells' => x :: numbers cells'
  | _ :: cells' => numbers cells'
  end.

(** The mean of the other question fields of the row that are present; NaN
    when none is. *)
Definition others_mean (q : qcol) (r : Row) : num :=
  of_float (mean (numbers (map (fun q' => get_q q' r) (list_remove q questions)))).

(** Field [q] of the row receives the mean of the others. *)
Definition fill (q : qcol) (r : Row) : Row := set_q q (others_mean q r) r.

(** The same, for a row in which field [q] is missing. *)
Definition impute (q : qcol) (r : Row) : Row :=
  if isna (get_q q r) then fill q r else r.

(** One full pass over the rows for field [q]. *)
Definition impute_column (q : qcol) (rows : list Row) : list Row :=
  map (impute q) rows.

(** No question field holds text. *)
Definition clean (r : Row) : Prop := forall q, get_q q r <> NanText.

(** The labels [df[mask].index] of a table indexed 0..n-1. *)
Definition masked (q : qcol) (rows : list Row) : list nat :=
  map fst (getitem_mask (fun r => isna (get_q q r)) (range_index rows)).

(** The rows after the loop of lines 89-90 has run over [indices]. *)
Definition filled (q : qcol) (indices : list nat) (rows : list Row) : list Row :=
  fold_left (fun rs i => alter (fill q) i rs) indices rows.

(** One turn of the loop of line 84, on the rows and on [arr]. *)
Definition pass (st : list Row * list nat) (q : qcol) : list Row * list nat :=
  (impute_column q (fst st), snd st ++ masked q (fst st)).

(** The five passes, q1 first, over the rows after [replace]. *)
Definition passes (rows : list Row) : list Row * list nat :=
  fold_left pass questions (map replace_nan rows, []).

(** The five question fields of a row rounded. *)
Definition rounded (decimals : nat) (r : Row) : Row :=
  mkRow (age r) (email r) (first_name r) (gender r) (id_ r) (last_name r)
    (round_num decimals (q1 r)) (round_num decimals (q2 r))
    (round_num decimals (q3 r)) (round_num decimals (q4 r))
    (round_num decimals (q5 r)) (score r).

(** A row after [replace], the five imputations in the order q1..q5, the
    rounding and the selection of the columns. *)
Definition impute_row (r : Row) : Row :=
  set_score None
    (rounded 2
       (impute Q5 (impute Q4 (impute Q3 (impute Q2 (impute Q1 (replace_nan r))))))).

(** The array the method returns. *)
Definition imputed_indices (rows : list Row) : list nat :=
  np_unique (sorted (snd (passes rows))).


(** ** score_subjects *)

(** The mean of the question fields present, rounded down. *)
Definition floor_mean (r : Row) : float :=
  np_floor (mean (numbers (row_questions r))).

(** The score of a row in which "nan" has been replaced: missing below the
    threshold and when the mean is NaN, otherwise the floored mean as a UInt8
    value; a floored mean that is no UInt8 value is left as it is. *)
Definition subject_score (maximal_nans_per_sub : Z) (r : Row) : score_cell :=
  if (Z.of_nat (count_present r) <? 5 - maximal_nans_per_sub)%Z then SNA
  else if PrimFloat.is_nan (floor_mean r) then SNA
  else match uint8_of (floor_mean r) with
       | Some n => SUInt8 n
       | None => SFloat (floor_mean r)
       end.

(** The score of the row fits the UInt8 column. *)
Definition storable (maximal_nans_per_sub : Z) (r : Row) : bool :=
  match subject_score maximal_nans_per_sub r with
  | SFloat _ => false
  | _ => true
  end.

(** The row of the returned table. *)
Definition scored (maximal_nans_per_sub : Z) (r : Row) : Row :=
  set_score (Some (subject_score maximal_nans_per_sub (replace_nan r))) (replace_nan r).

(** The row after line 116, after line 117 and after lines 118-120. *)
Definition with_mean (r : Row) : Row :=
  set_score (Some (SFloat (mean (numbers (row_questions r))))) r.

Definition with_floor (r : Row) : Row :=
  set_score (Some (SFloat (floor_mean r))) r.

Definition with_threshold (k : Z) (r : Row) : Row :=
  if (Z.of_nat (count_present r) <? 5 - k)%Z
  then set_score (Some SNA) r
  else with_floor r.

(** A participant with the five answers given. *)
Definition subject (c1 c2 c3 c4 c5 : jnum float) : json_object :=
  participant 25 "sub@ject.org" "Male" c1 c2 c3 c4 c5.

(** A participant who answered nothing. *)
Definition blank : json_object := subject JNull JNull JNull JNull JNull.


(** ** correlate_gender_age *)

(** The order of the keys, as a relation. *)
Definition key_lt (a b : string * bool) : Prop := key_ltb a b = true.

(** The row after line 137. *)
Definition flagged (r : Row) : Row :=
  match age_value (age r) with
  | Some x => set_age (Flag (if Qltb x 40 then false else true)) r
  | None => r
  end.

(** The row belongs to the group of key [k]: its gender is the key's, its age
    is present, and the key's flag says whether the age is at least 40. *)
Definition member (k : string * bool) (r : Row) : bool :=
  match gender r, age_value (age r) with
  | Text g, Some x => String.eqb (fst k) g && Bool.eqb (snd k) (Qle_bool 40 x)
  | _, _ => false
  end.

(** The rows of a group, "nan" replaced, in the order of the file. *)
Definition members (k : string * bool) (rows : list Row) : list Row :=
  List.filter (member k) (map replace_nan rows).

(** The five means of a group: over the values present, rounded to 8
    decimals; NaN when a column has no value in the group. *)
Definition group_means (rs : list Row) : list num :=
  map (fun q => round_num 8 (of_float (kahan_mean (numbers (map (get_q q) rs))))) questions.

(** The rows that reach the grouping. *)
Definition grouped_rows (rows : list Row) : list Row :=
  map flagged (List.filter (fun r => negb (age_isna (age r))) (map replace_nan rows)).

(** The groups of a table, from its rows: one entry per key that occurs, in
    the order of the keys, with the five means of the group. *)
Definition groups (rows : list Row) : list ((string * bool) * list num) :=
  map (fun k => (k, group_means (members k rows)))
      (group_keys (range_index (grouped_rows rows))).

(** The table can be grouped: it has the columns age and gender, and its
    question columns are numeric once "nan" is replaced. *)
Definition groupable (records : list json_object) : bool :=
  has_column L_age records && has_column L_gender records && numeric_answers records.

(** ** Further definitions for the statements *)

(** The file lets [fill_na_with_mean] run to its end: the table has the
    eleven columns, and the question columns are numeric once "nan" is
    replaced. *)
Definition fillable (records : list json_object) : bool :=
  has_columns records && numeric_answers records.

(** What [fill_na_with_mean] returns on the loaded dataset: the table itself
    and the array. *)
Definition run_fill (records : list json_object) : res (DataFrame * list nat) :=
  match run records fill_na_with_mean with
  | (Ok (l, arr), h) =>
      match h !! l with
      | Some t => Ok (t, arr)
      | None => Raise AttributeError
      end
  | (Raise e, _) => Raise e
  end.


(** A file of three participants: one who left out q1, one with the text
    "nan" for q3, q4 and q5, and one who answered nothing. *)
Definition sample : list json_object :=
  [subject JNull (answer 2) (answer 4) (answer 6) (answer 8);
   subject (answer 1) (answer 4.35) JNan JNan JNan;
   blank].


(** The three rows of the documentation of [score_subjects] and a row with
    every answer given. *)
Definition graded : list json_object :=
  [subject (answer 3) (answer 4) (answer 5) JNan JNan;
   subject (answer 3) (answer 4) (answer 5) (answer 6) JNan;
   subject (answer 1) (answer 2) (answer 3) (answer 4) (answer 5)].


(** Two histograms added bin by bin. *)
Definition add_counts (hist1 hist2 : list (option Z)) : list (option Z) :=
  zip_with (fun a b => match a, b with
                       | Some x, Some y => Some (x + y)%Z
                       | _, _ => None
                       end) hist1 hist2.

(** A participant whose age is the text "nan". *)
Definition ageless : json_object :=
  mkObject JNan (JText "no@age.org") (JText "Ada") (JText "Female") (JNumber 1%float)
           (JText "Lee") (answer 1) (answer 2) (answer 3) (answer 4) (answer 5).

(** Two participants who both hold null under q5. *)
Definition unanswered : list json_object :=
  [subject (answer 3) (answer 4) (answer 5) JNan JNull;
   subject (answer 3) (answer 4) (answer 5) (answer 6) JNull].

(** The five queries, as values. *)
Inductive query :=
  | ShowAgeDistrib
  | RemoveRowsWithoutMail
  | FillNaWithMean
  | ScoreSubjects (maximal_nans_per_sub : Z)
  | CorrelateGenderAge.

(** What the caller of a query gets back: the value returned or the exception
    raised, a returned table being given by its content. *)
Inductive outcome :=
  | Histogram (r : res (list (option Z) * list (option Z)))
  | Table (r : res DataFrame)
  | TableAndIndices (r : res (DataFrame * list nat))
  | Groups (r : res (list ((string * bool) * list num))).

(** The table behind a reference. *)
Definition table_at (h : store) (l : loc) : res DataFrame :=
  match h !! l with
  | Some t => Ok t
  | None => Raise AttributeError
  end.

(** One call of a query on the object, with the store it leaves. *)
Definition call (q : query) (self : QuestionnaireAnalysis) (h : store)
  : outcome * store :=
  match q with
  | ShowAgeDistrib =>
      let '(r, h') := show_age_distrib self h in (Histogram r, h')
  | RemoveRowsWithoutMail =>
      let '(r, h') := remove_rows_without_mail self h in
      (Table match r with
             | Ok l => table_at h' l
             | Raise e => Raise e
             end, h')
  | FillNaWithMean =>
      let '(r, h') := fill_na_with_mean self h in
      (TableAndIndices match r with
                       | Ok (l, arr) =>
                           match table_at h' l with
                           | Ok t => Ok (t, arr)
                           | Raise e => Raise e
                           end
                       | Raise e => Raise e
                       end, h')
  | ScoreSubjects k =>
      let '(r, h') := score_subjects k self h in
      (Table match r with
             | Ok l => table_at h' l
             | Raise e => Raise e
             end, h')
  | CorrelateGenderAge =>
      let '(r, h') := correlate_gender_age self h in (Groups r, h')
  end.

(** The store after a series of calls, the caller going on after an
    exception. *)
Definition calls (qs : list query) (self : QuestionnaireAnalysis) (h : store) : store :=
  fold_left (fun h' q => snd (call q self h')) qs h.

(** Load the file, make the calls [qs], then call [q]: what [q] gives. *)
Definition session (records : list json_object) (qs : list query) (q : query)
  : option outcome :=
  match load records [] with
  | (Ok self, h) => Some (fst (call q self (calls qs self h)))
  | (Raise _, _) => None
  end.

(** * Properties *)

(** ** Which objects a method can change

    [frame n P m]: run in a store that holds at least [n] objects, [m] leaves
    the first [n] as they are, and a value it returns satisfies [P]. *)

Section Frame.
Variable n : nat.

Definition frame {A} (P : A -> Prop) (m : M A) : Prop :=
  forall h, n <= length h ->
    n <= length (snd (m h))
    /\ (forall l, l < n -> snd (m h) !! l = h !! l)
    /\ (forall a, fst (m h) = Ok a -> P a).

Lemma frame_weaken {A} (P Q : A -> Prop) m :
  frame P m -> (forall a, P a -> Q a) -> frame Q m.
Proof.
  intros Hm HPQ h Hh. destruct (Hm h Hh) as (H1 & H2 & H3). auto.
Qed.

Lemma frame_ret {A} (P : A -> Prop) a : P a -> frame P (ret a).
Proof.
  intros HP h Hh. cbn. repeat split; auto. intros b [= <-]. exact HP.
Qed.

Lemma frame_raise {A} (P : A -> Prop) e : frame P (raise e).
Proof. intros h Hh. cbn. repeat split; auto. discriminate. Qed.

Lemma frame_lift {A} (r : res A) : frame (fun _ => True) (lift r).
Proof. intros h Hh. cbn. repeat split; auto. Qed.

Lemma frame_bind {A B} (P : A -> Prop) (Q : B -> Prop) m k :
  frame P m -> (forall a, P a -> frame Q (k a)) -> frame Q (bind m k).
Proof.
  intros Hm Hk h Hh. destruct (Hm h Hh) as (H1 & H2 & H3).
  unfold bind. destruct (m h) as [[a | e] h'] eqn:E; cbn in *.
  - destruct (Hk a (H3 a eq_refl) h' H1) as (K1 & K2 & K3).
    repeat split; auto. intros l Hl. rewrite K2, H2; auto.
  - repeat split; auto. discriminate.
Qed.

Lemma frame_alloc df : frame (fun l => n <= l) (alloc df).
Proof.
  intros h Hh. unfold alloc. cbn. rewrite length_app. cbn.
  split; [lia |]. split.
  - intros l Hl. apply lookup_app_l. lia.
  - intros a [= <-]. exact Hh.
Qed.

Lemma frame_deref l : frame (fun _ => True) (deref l).
Proof.
  intros h Hh. unfold deref. case_match; cbn; repeat split; auto.
Qed.

Lemma frame_assign l f : n <= l -> frame (fun _ => True) (assign l f).
Proof.
  intros Hl h Hh. unfold assign. case_match; simpl; [| repeat split; auto].
  rewrite length_insert. repeat split; auto.
  intros l' Hl'. apply list_lookup_insert_ne. lia.
Qed.

Lemma frame_derive f l : frame (fun l' => n <= l') (derive f l).
Proof.
  unfold derive. eapply frame_bind; [apply frame_deref |].
  intros df _. apply frame_alloc.
Qed.

Lemma frame_derive_res f l : frame (fun l' => n <= l') (derive_res f l).
Proof.
  unfold derive_res. eapply frame_bind; [apply frame_deref |].
  intros df _. destruct (f df); [apply frame_alloc | apply frame_raise].
Qed.

Lemma frame_assign_res l f : n <= l -> frame (fun _ => True) (assign_res l f).
Proof.
  intros Hl. unfold assign_res.
  eapply frame_bind; [apply frame_deref |]. intros cur _.
  eapply frame_bind; [apply frame_lift |]. intros out _.
  apply frame_assign, Hl.
Qed.

Lemma frame_for_each {A S} (xs : list A) (body : S -> A -> M S) s :
  (forall s x, frame (fun _ => True) (body s x)) ->
  frame (fun _ => True) (for_each xs body s).
Proof.
  intros Hbody. revert s. induction xs as [| x xs IH]; intros s; cbn.
  - apply frame_ret. exact I.
  - eapply frame_bind; [apply Hbody |]. intros s' _. apply IH.
Qed.

Lemma frame_fill_column df question this_list indices :
  n <= df -> frame (fun _ => True) (fill_column df question this_list indices).
Proof.
  intros Hdf. unfold fill_column. apply frame_for_each. intros _ index.
  eapply frame_bind; [apply frame_deref |]. intros cur _.
  eapply frame_bind; [apply frame_lift |]. intros _ _.
  eapply frame_bind; [apply frame_lift |]. intros row _.
  eapply frame_bind; [apply frame_lift |]. intros v _.
  eapply frame_bind; [apply frame_lift |]. intros _ _.
  apply frame_assign, Hdf.
Qed.

Lemma frame_show_age_distrib self : frame (fun _ => True) (show_age_distrib self).
Proof.
  unfold show_age_distrib. destruct (data self) as [d |]; [| apply frame_raise].
  unfold pd_DataFrame.
  eapply frame_bind; [apply frame_ret with (P := fun _ => True); exact I |].
  intros df _. eapply frame_bind; [apply frame_derive_res |].
  intros df2 _. eapply frame_bind; [apply frame_derive |].
  intros df3 _. eapply frame_bind; [apply frame_deref |].
  intros cur _.
  destruct (fold_left _ _ _) as [[hist bins] i]. apply frame_ret. exact I.
Qed.

Lemma frame_remove_rows_without_mail self :
  frame (fun _ => True) (remove_rows_without_mail self).
Proof.
  unfold remove_rows_without_mail.
  destruct (data self) as [d |]; [| apply frame_raise].
  unfold pd_DataFrame.
  eapply frame_bind; [apply frame_ret with (P := fun _ => True); exact I |].
  intros df _.
  do 6 (eapply frame_bind; [apply frame_derive_res |]; intros ? _).
  eapply frame_weaken; [apply frame_derive | auto].
Qed.

Lemma frame_fill_na_with_mean self :
  frame (fun _ => True) (fill_na_with_mean self).
Proof.
  unfold fill_na_with_mean.
  destruct (data self) as [d |]; [| apply frame_raise].
  eapply frame_bind; [apply frame_derive |]. intros df Hdf.
  eapply frame_bind.
  { apply frame_for_each. intros arr question. unfold fill_question.
    eapply frame_bind; [apply frame_deref |]. intros cur _.
    eapply frame_bind; [apply frame_lift |]. intros _ _.
    eapply frame_bind; [apply frame_fill_column, Hdf |]. intros _ _.
    apply frame_ret. exact I. }
  intros arr _.
  eapply frame_bind; [apply frame_assign_res, Hdf |]. intros _ _.
  eapply frame_bind; [apply frame_assign, Hdf |]. intros _ _.
  eapply frame_bind; [apply frame_derive_res |]. intros out _.
  apply frame_ret. exact I.
Qed.

Lemma frame_score_subjects k self :
  frame (fun _ => True) (score_subjects k self).
Proof.
  unfold score_subjects.
  destruct (data self) as [d |]; [| apply frame_raise].
  unfold pd_DataFrame.
  eapply frame_bind; [apply frame_ret with (P := fun _ => True); exact I |].
  intros df _. eapply frame_bind; [apply frame_derive |]. intros df1 Hdf1.
  do 4 (eapply frame_bind; [apply frame_assign_res, Hdf1 |]; intros _ _).
  apply frame_ret. exact I.
Qed.

Lemma frame_correlate_gender_age self :
  frame (fun _ => True) (correlate_gender_age self).
Proof.
  unfold correlate_gender_age.
  destruct (data self) as [d |]; [| apply frame_raise].
  unfold pd_DataFrame.
  eapply frame_bind; [apply frame_ret with (P := fun _ => True); exact I |].
  intros df _. eapply frame_bind; [apply frame_derive |]. intros df1 _.
  eapply frame_bind; [apply frame_derive_res |]. intros df2 Hdf2.
  eapply frame_bind; [apply frame_assign_res, Hdf2 |]. intros _ _.
  eapply frame_bind; [apply frame_deref |]. intros cur _.
  apply frame_lift.
Qed.
End Frame.

(** ** Construction and loading *)

Lemma is_file_one_file path records : is_file (one_file path records) path = true.
Proof. unfold is_file, one_file. rewrite String.eqb_refl. reflexivity. Qed.

Lemma load_run records :
  load records [] = (Ok (mkQA data_json (Some 0)), [DataFrame_of records]).
Proof. reflexivity. Qed.

Lemma range_index_rows rows : map snd (range_index rows) = rows.
Proof.
  unfold range_index. generalize 0. induction rows as [| r rows IH]; intros k.
  - reflexivity.
  - cbn. f_equal. apply IH.
Qed.

Lemma range_index_labels rows : map fst (range_index rows) = seq 0 (length rows).
Proof.
  unfold range_index. generalize 0. induction rows as [| r rows IH]; intros k.
  - reflexivity.
  - cbn. f_equal. apply IH.
Qed.

Lemma range_index_length rows : length (range_index rows) = length rows.
Proof. rewrite <- (length_map snd), range_index_rows. reflexivity. Qed.

(** C7. Constructing the object on a path that is not an existing regular
    file raises the error of the constructor (the built-in [ValueError]) at
    once and allocates nothing; on a regular file it returns an object whose
    [data] is unset, and again nothing is read or allocated. *)
Theorem init_checks_path (fs : filesystem) (path : string) (h : store) :
  init fs path h =
    if is_file fs path
    then (Ok (mkQA path None), h)
    else (Raise ValueError, h).
Proof. unfold init. destruct (is_file fs path); reflexivity. Qed.

(** ** The loaded table is never written *)

Lemma frame_data_after {A} (records : list json_object)
    (method : QuestionnaireAnalysis -> M A) :
  (forall n self, frame n (fun _ => True) (method self)) ->
  data_after records method = Some (DataFrame_of records).
Proof.
  intros Hframe. unfold data_after. rewrite load_run. cbn [data].
  destruct (Hframe 1 (mkQA data_json (Some 0)) [DataFrame_of records])
    as (_ & H & _); [cbn; lia |].
  rewrite H by lia. reflexivity.
Qed.

(** C8. After [read_data], each of the five queries, whatever it returns or
    raises, leaves the table behind [self.data] exactly as loaded: the same
    columns and the same rows, in the same order, under the same labels. *)
Theorem queries_leave_data_unchanged (records : list json_object) :
  data_after records show_age_distrib = Some (DataFrame_of records)
  /\ data_after records remove_rows_without_mail = Some (DataFrame_of records)
  /\ data_after records fill_na_with_mean = Some (DataFrame_of records)
  /\ (forall maximal_nans_per_sub,
        data_after records (score_subjects maximal_nans_per_sub)
        = Some (DataFrame_of records))
  /\ data_after records correlate_gender_age = Some (DataFrame_of records)
  /\ map snd (body (DataFrame_of records)) = rows_of records.
Proof.
  split_and!.
  - apply frame_data_after. intros n self. apply frame_show_age_distrib.
  - apply frame_data_after. intros n self. apply frame_remove_rows_without_mail.
  - apply frame_data_after. intros n self. apply frame_fill_na_with_mean.
  - intros k. apply frame_data_after. intros n self. apply frame_score_subjects.
  - apply frame_data_after. intros n self. apply frame_correlate_gender_age.
  - apply range_index_rows.
Qed.

(** ** Running the steps of a method *)

Lemma lookup_snoc (h : store) (t : DataFrame) : (h ++ [t]) !! length h = Some t.
Proof. rewrite lookup_app_r by lia. rewrite Nat.sub_diag. reflexivity. Qed.

Lemma deref_run (l : loc) (h : store) (t : DataFrame) :
  h !! l = Some t -> deref l h = (Ok t, h).
Proof. intros H. unfold deref. rewrite H. reflexivity. Qed.

Lemma assign_run (l : loc) f (h : store) (t : DataFrame) :
  h !! l = Some t -> assign l f h = (Ok tt, <[l := f t]> h).
Proof. intros H. unfold assign. rewrite H. reflexivity. Qed.

Lemma derive_run f (l : loc) (h : store) (t : DataFrame) :
  h !! l = Some t -> derive f l h = (Ok (length h), h ++ [f t]).
Proof. intros H. unfold derive, bind, deref, alloc. rewrite H. reflexivity. Qed.

Lemma derive_res_run f (l : loc) (h : store) (t t' : DataFrame) :
  h !! l = Some t -> f t = Ok t' -> derive_res f l h = (Ok (length h), h ++ [t']).
Proof.
  intros H Hf. unfold derive_res, bind. rewrite (deref_run _ _ _ H), Hf. reflexivity.
Qed.

Lemma derive_res_raise f (l : loc) (h : store) (t : DataFrame) e :
  h !! l = Some t -> f t = Raise e -> derive_res f l h = (Raise e, h).
Proof.
  intros H Hf. unfold derive_res, bind. rewrite (deref_run _ _ _ H), Hf. reflexivity.
Qed.

Lemma bind_derive_run {B} f (k : loc -> M B) (l : loc) (h : store) (t : DataFrame) :
  h !! l = Some t -> bind (derive f l) k h = k (length h) (h ++ [f t]).
Proof. intros H. unfold bind at 1. rewrite (derive_run _ _ _ _ H). reflexivity. Qed.

Lemma bind_derive_res_run {B} f (k : loc -> M B) (l : loc) (h : store)
    (t t' : DataFrame) :
  h !! l = Some t -> f t = Ok t' ->
  bind (derive_res f l) k h = k (length h) (h ++ [t']).
Proof.
  intros H Hf. unfold bind at 1. rewrite (derive_res_run _ _ _ _ _ H Hf). reflexivity.
Qed.

Lemma bind_derive_res_raise {B} f (k : loc -> M B) (l : loc) (h : store)
    (t : DataFrame) e :
  h !! l = Some t -> f t = Raise e ->
  bind (derive_res f l) k h = (Raise e, h).
Proof.
  intros H Hf. unfold bind at 1. rewrite (derive_res_raise _ _ _ _ _ H Hf). reflexivity.
Qed.

Lemma assign_res_run (l : loc) f (h : store) (t t' : DataFrame) :
  h !! l = Some t -> f t = Ok t' -> assign_res l f h = (Ok tt, <[l := t']> h).
Proof.
  intros Hl Hf. unfold assign_res, bind, lift. rewrite (deref_run _ _ _ Hl), Hf.
  apply (assign_run _ _ _ _ Hl).
Qed.

Lemma assign_res_raise (l : loc) f (h : store) (t : DataFrame) e :
  h !! l = Some t -> f t = Raise e -> assign_res l f h = (Raise e, h).
Proof.
  intros Hl Hf. unfold assign_res, bind, lift. rewrite (deref_run _ _ _ Hl), Hf.
  reflexivity.
Qed.

Lemma run_unfold {A} records (method : QuestionnaireAnalysis -> M A) :
  run records method = method (mkQA data_json (Some 0)) [DataFrame_of records].
Proof. unfold run, bind. rewrite load_run. reflexivity. Qed.

(** Looking up columns. *)

Lemma question_eqb_eq a b : question_eqb a b = true <-> a = b.
Proof. destruct a, b; cbn; split; congruence. Qed.

Lemma label_eqb_eq a b : label_eqb a b = true <-> a = b.
Proof.
  destruct a, b; cbn; try (split; congruence).
  rewrite question_eqb_eq. split; congruence.
Qed.

Lemma dtype_of_columns_of f c : dtype_of (columns_of f) c = f c.
Proof. destruct c as [| | | | | | []]; reflexivity. Qed.

Lemma getitem_list_ok cs (df : DataFrame) :
  Forall (fun c => dtype_of (dtypes df) c <> None) cs -> getitem_list cs df = Ok tt.
Proof.
  induction 1 as [| c cs Hc _ IH]; [reflexivity |].
  cbn [getitem_list]. unfold getitem.
  destruct (dtype_of (dtypes df) c); [exact IH | contradiction].
Qed.

Lemma getitem_list_raise cs (df : DataFrame) :
  Exists (fun c => dtype_of (dtypes df) c = None) cs -> getitem_list cs df = Raise KeyError.
Proof.
  induction 1 as [c cs Hc | c cs _ IH]; cbn [getitem_list]; unfold getitem.
  - rewrite Hc. reflexivity.
  - destruct (dtype_of (dtypes df) c); [exact IH | reflexivity].
Qed.

(** ** remove_rows_without_mail *)

Lemma getitem_mask_compose p q (b : Body) :
  getitem_mask q (getitem_mask p b) = getitem_mask (fun r => p r && q r) b.
Proof.
  unfold getitem_mask. induction b as [| lr b IH]; cbn; [reflexivity |].
  destruct (p (snd lr)); cbn; [destruct (q (snd lr)) |]; rewrite IH; reflexivity.
Qed.

Lemma getitem_mask_ext p q (b : Body) :
  (forall r, p r = q r) -> getitem_mask p b = getitem_mask q b.
Proof.
  intros H. unfold getitem_mask. induction b as [| lr b IH]; cbn; [reflexivity |].
  rewrite H, IH. reflexivity.
Qed.

Lemma getitem_mask_rows p (b : Body) :
  map snd (getitem_mask p b) = List.filter p (map snd b).
Proof.
  unfold getitem_mask. induction b as [| lr b IH]; cbn; [reflexivity |].
  destruct (p (snd lr)); cbn; rewrite IH; reflexivity.
Qed.

Lemma filter_email_ok test (t : DataFrame) :
  c_email (dtypes t) = Some Object ->
  filter_email test t = Ok (on_body (getitem_mask (fun r => test (email r))) t).
Proof. intros H. unfold filter_email. rewrite H. reflexivity. Qed.

Lemma filter_email_raise test (t : DataFrame) :
  c_email (dtypes t) <> Some Object -> filter_email test t = Raise AttributeError.
Proof.
  intros H. unfold filter_email. destruct (c_email (dtypes t)) as [[] |]; congruence.
Qed.

Lemma bind_filter_email {B} test (k : loc -> M B) (h : store) (t : DataFrame) :
  c_email (dtypes t) = Some Object ->
  bind (derive_res (filter_email test) (length h)) k (h ++ [t])
  = k (length (h ++ [t]))
      ((h ++ [t]) ++ [on_body (getitem_mask (fun r => test (email r))) t]).
Proof.
  intros He. apply (bind_derive_res_run _ _ _ _ _ _ (lookup_snoc _ _)).
  apply filter_email_ok, He.
Qed.

Lemma remove_rows_without_mail_run name (d : loc) (h : store) (t : DataFrame) :
  h !! d = Some t ->
  c_email (dtypes t) = Some Object ->
  exists h',
    remove_rows_without_mail (mkQA name (Some d)) h = (Ok (length h + 6), h')
    /\ h' !! (length h + 6) = Some (on_body valid_rows t)
    /\ length h' = length h + 7.
Proof.
  intros Hd He. unfold remove_rows_without_mail, pd_DataFrame. cbn [data].
  unfold bind at 1. cbn [ret].
  rewrite (bind_derive_res_run _ _ _ _ _ _ Hd (filter_email_ok _ t He)).
  rewrite !bind_filter_email by exact He.
  rewrite (derive_run _ _ _ _ (lookup_snoc _ _)).
  match goal with |- context [Ok (length ?x)] => set (h6 := x) end.
  assert (L6 : length h6 = length h + 6).
  { subst h6. rewrite !length_app. cbn. lia. }
  rewrite L6. eexists. split; [reflexivity |]. split.
  - rewrite <- L6, lookup_snoc. f_equal. unfold on_body, valid_rows. cbn [dtypes body].
    f_equal. f_equal.
    rewrite !getitem_mask_compose. apply getitem_mask_ext.
    intros r. unfold kept. rewrite !andb_assoc. reflexivity.
  - rewrite length_app. cbn. lia.
Qed.

Lemma remove_rows_without_mail_raise name (d : loc) (h : store) (t : DataFrame) :
  h !! d = Some t ->
  c_email (dtypes t) <> Some Object ->
  remove_rows_without_mail (mkQA name (Some d)) h = (Raise AttributeError, h).
Proof.
  intros Hd He. unfold remove_rows_without_mail, pd_DataFrame. cbn [data].
  unfold bind at 1. cbn [ret].
  apply (bind_derive_res_raise _ _ _ _ _ _ Hd (filter_email_raise _ t He)).
Qed.

Lemma re_count_char c s : re_count_from [Lit c] s 0 = count_char c s.
Proof.
  induction s as [| d s IH]; [reflexivity |].
  cbn. rewrite andb_true_r. destruct (Ascii.eqb c d); cbn; rewrite IH; reflexivity.
Qed.

Lemma re_search_char c s : re_search [Lit c] s = negb (Nat.eqb (count_char c s) 0).
Proof.
  induction s as [| d s IH]; [reflexivity |].
  cbn. rewrite andb_true_r. destruct (Ascii.eqb c d); cbn; [reflexivity | exact IH].
Qed.

Lemma re_match_two a b s :
  re_match [Lit a; Lit b] s = String.prefix (String a (String b EmptyString)) s.
Proof.
  destruct s as [| c [| d s]]; cbn.
  - reflexivity.
  - rewrite andb_false_r. destruct (ascii_dec a c); reflexivity.
  - rewrite andb_true_r.
    destruct (ascii_dec a c) as [-> | Hac].
    + rewrite Ascii.eqb_refl. cbn.
      destruct (ascii_dec b d) as [-> | Hbd].
      * rewrite Ascii.eqb_refl. destruct s; reflexivity.
      * apply Ascii.eqb_neq in Hbd. rewrite Hbd. reflexivity.
    + apply Ascii.eqb_neq in Hac. rewrite Hac. reflexivity.
Qed.

Lemma re_search_two a b s :
  re_search [Lit a; Lit b] s = has_substring (String a (String b EmptyString)) s.
Proof.
  induction s as [| c s IH].
  - reflexivity.
  - cbn [re_search has_substring]. rewrite re_match_two, IH. reflexivity.
Qed.

(** The part of C1 that the code does enforce: a row that passes the six
    tests has an address with exactly one "@", at least one ".", no "@." and
    no leading "@".  (A leading "." is not among them: line 65 looks for a
    leading backslash-dot.) *)
Lemma kept_email (r : Row) :
  kept r = true ->
  exists s, email r = Text s
    /\ count_char "@" s = 1
    /\ 1 <= count_char "." s
    /\ has_substring "@." s = false
    /\ String.prefix "@" s = false
    /\ String.prefix "\." s = false.
Proof.
  unfold kept. rewrite !andb_true_iff, !negb_true_iff.
  intros [[[[[H1 H2] H3] H4] H5] H6].
  destruct (email r) as [s |]; [| discriminate].
  exists s. cbn in *.
  change (re_compile "@") with [Lit "@"%char] in *.
  change (re_compile "\.") with [Lit "."%char] in *.
  change (re_compile "@\.") with [Lit "@"%char; Lit "."%char] in *.
  rewrite re_count_char in H6. rewrite re_search_char in H2.
  rewrite re_search_two in H3.
  apply Nat.eqb_eq in H6. apply negb_true_iff, Nat.eqb_neq in H2.
  repeat split; auto. lia.
Qed.

(** The four addresses of the documentation: the first passes the tests, the
    others fail on "@.", on the leading "@" and on the missing ".". *)
Example kept_addresses :
  map (fun s => kept (mkRow AgeNaN (Text s) TNaN TNaN NaN TNaN NaN NaN NaN NaN NaN None))
      ["a.b@c.com"; "a@.com"; "@abc.com"; "abc@com"]
  = [true; false; false; false].
Proof. reflexivity. Qed.

Lemma Forall_range_index (P : Row -> Prop) rows :
  Forall P rows -> Forall (fun lr => P (snd lr)) (range_index rows).
Proof.
  rewrite !List.Forall_forall. intros H [k r] Hin.
  apply in_combine_r in Hin. apply H, Hin.
Qed.

Lemma valid_rows_eq (b : Body) :
  valid_rows b = range_index (List.filter kept (map snd b)).
Proof. unfold valid_rows, reset_index. rewrite getitem_mask_rows. reflexivity. Qed.

Lemma valid_rows_idem (b : Body) : valid_rows (valid_rows b) = valid_rows b.
Proof.
  rewrite !valid_rows_eq, range_index_rows. f_equal.
  induction (map snd b) as [| r l IH]; cbn; [reflexivity |].
  destruct (kept r) eqn:E; cbn; rewrite ?E, IH; reflexivity.
Qed.

(** C1, at the input that breaks it.  The address ".a@b.com" starts with a
    dot, and the method returns its row: the test of line 65 asks for a
    leading backslash followed by a dot, which no such address has. *)
Theorem remove_rows_without_mail_keeps_leading_dot :
  run_table [leading_dot] remove_rows_without_mail
  = Ok (mkDataFrame (dtypes (DataFrame_of [leading_dot])) [(0, row_of leading_dot)])
  /\ email (row_of leading_dot) = Text ".a@b.com"
  /\ String.prefix "." ".a@b.com" = true
  /\ str_startswith "\." (email (row_of leading_dot)) = false.
Proof. vm_compute. repeat split; reflexivity. Qed.

(** C9. On a file whose email column holds strings (or nulls only), the
    method returns a table; the table has only rows that pass the six tests,
    and calling the method again on an object whose [data] is that table
    returns the same table. *)
Theorem remove_rows_without_mail_idempotent (records : list json_object) :
  email_strings records = true ->
  exists (out : loc) (h : store) (t : DataFrame),
    run records remove_rows_without_mail = (Ok out, h)
    /\ h !! out = Some t
    /\ Forall (fun lr => kept (snd lr) = true) (body t)
    /\ exists (out2 : loc) (h2 : store),
         remove_rows_without_mail (mkQA data_json (Some out)) h = (Ok out2, h2)
         /\ h2 !! out2 = Some t.
Proof.
  intros He. rewrite run_unfold.
  assert (He' : c_email (dtypes (DataFrame_of records)) = Some Object).
  { unfold email_strings in He.
    destruct (c_email (dtypes (DataFrame_of records))) as [[] |]; congruence. }
  destruct (remove_rows_without_mail_run data_json 0 [DataFrame_of records]
              (DataFrame_of records) eq_refl He') as (h & Hrun & Hout & Hlen).
  exists (length [DataFrame_of records] + 6), h, (on_body valid_rows (DataFrame_of records)).
  split; [exact Hrun |]. split; [exact Hout |]. split.
  - cbn [on_body body]. rewrite valid_rows_eq.
    apply (Forall_range_index (fun r => kept r = true)).
    apply List.Forall_forall. intros r Hr. apply List.filter_In in Hr. tauto.
  - destruct (remove_rows_without_mail_run data_json _ h _ Hout He')
      as (h2 & Hrun2 & Hout2 & _).
    exists (length h + 6), h2. split; [exact Hrun2 |].
    rewrite Hout2. unfold on_body. cbn [dtypes body]. rewrite valid_rows_idem.
    reflexivity.
Qed.

Lemma remove_rows_without_mail_idempotent_witness :
  email_strings [leading_dot; centenarian; blank] = true
  /\ exists (out : loc) (h : store) (t : DataFrame),
       run [leading_dot; centenarian; blank] remove_rows_without_mail = (Ok out, h)
       /\ h !! out = Some t
       /\ Forall (fun lr => kept (snd lr) = true) (body t)
       /\ exists (out2 : loc) (h2 : store),
            remove_rows_without_mail (mkQA data_json (Some out)) h = (Ok out2, h2)
            /\ h2 !! out2 = Some t.
Proof.
  split; [reflexivity |].
  apply (remove_rows_without_mail_idempotent [leading_dot; centenarian; blank]).
  reflexivity.
Defined.

(** ** show_age_distrib *)

Lemma Qltb_lt x y : Qltb x y = true <-> (x < y)%Q.
Proof.
  unfold Qltb. rewrite negb_true_iff. split.
  - intros H. apply Qnot_le_lt. intros Hle.
    apply Qle_bool_iff in Hle. congruence.
  - intros H. destruct (Qle_bool y x) eqn:E; [| reflexivity].
    apply Qle_bool_iff in E. lra.
Qed.

Lemma Qltb_ge x y : Qltb x y = false <-> (y <= x)%Q.
Proof.
  unfold Qltb. rewrite negb_false_iff. apply Qle_bool_iff.
Qed.

Lemma Qle_bool_gt x y : Qle_bool x y = false <-> (y < x)%Q.
Proof.
  rewrite <- Qltb_lt. unfold Qltb. rewrite negb_true_iff. reflexivity.
Qed.

(** [pd.cut] with the two edges of one bin keeps exactly the range. *)
Lemma cut_one_bin (lo : Z) (c : age_cell) :
  cut [inject_Z lo; inject_Z (lo + 9)] c = if in_range lo c then Some 1 else None.
Proof.
  unfold cut, in_range. destruct (age_value c) as [x |]; [| reflexivity].
  assert (Hlohi : (inject_Z lo <= inject_Z (lo + 9))%Q).
  { rewrite <- Zle_Qle. lia. }
  unfold searchsorted_left. cbn [List.filter].
  destruct (Qltb (inject_Z lo) x) eqn:E1;
    destruct (Qltb (inject_Z (lo + 9)) x) eqn:E2;
    destruct (Qeq_bool x (inject_Z lo)) eqn:E3;
    destruct (Qle_bool (inject_Z lo) x) eqn:E4;
    destruct (Qle_bool x (inject_Z (lo + 9))) eqn:E5;
    try reflexivity; exfalso;
    rewrite ?Qltb_lt, ?Qltb_ge, ?Qle_bool_iff, ?Qle_bool_gt, ?Qeq_bool_iff in *;
    try (apply Qeq_bool_neq in E3); lra.
Qed.

Lemma count_in_one_bin (lo : Z) (values : list age_cell) :
  count_in [inject_Z lo; inject_Z (lo + 9)] 1 values = count (in_range lo) values.
Proof.
  unfold count_in, count. induction values as [| c values IH]; [reflexivity |].
  cbn [List.filter]. rewrite cut_one_bin.
  destruct (in_range lo c); cbn; rewrite IH; reflexivity.
Qed.

(** One turn of the loop writes the count of its bin, whichever branch runs. *)
Lemma age_loop_body_bin age_data hist bins i (age_edge : Z) :
  i < 10 ->
  age_loop_body age_data (hist, bins, i) age_edge
  = (<[i := Some (Z.of_nat (count (in_range age_edge) age_data))]> hist,
     <[i := Some age_edge]> bins, S i).
Proof.
  intros Hi. unfold age_loop_body.
  apply Nat.ltb_lt in Hi. rewrite Hi.
  unfold value_counts_bins. cbn [length Nat.sub seq map forallb].
  rewrite count_in_one_bin.
  destruct (count (in_range age_edge) age_data) as [| c]; reflexivity.
Qed.

Lemma age_loop_body_last age_data hist bins (age_edge : Z) :
  age_loop_body age_data (hist, bins, 10) age_edge
  = (hist, <[10 := Some age_edge]> bins, 11).
Proof.
  unfold age_loop_body. change (Nat.ltb 10 10) with false.
  rewrite andb_false_r. reflexivity.
Qed.

Lemma age_loop_run age_data :
  fold_left (age_loop_body age_data) (py_range 0 110 10)
            (replicate 10 None, replicate 11 None, 0)
  = (map (fun k => Some (Z.of_nat (count (in_bin k) age_data))) (seq 0 10),
     map Some (py_range 0 110 10), 11).
Proof.
  change (py_range 0 110 10) with [0; 10; 20; 30; 40; 50; 60; 70; 80; 90; 100]%Z.
  cbn [fold_left].
  rewrite !age_loop_body_bin by lia. rewrite age_loop_body_last.
  reflexivity.
Qed.

(** Sorting moves rows around and changes no count. *)
Lemma count_insert_by_age (p : nat * Row -> bool) x l :
  count p (insert_by_age x l) = count p (x :: l).
Proof.
  unfold count. induction l as [| y l IH]; [reflexivity |].
  cbn [insert_by_age]. destruct (age_le _ _); [reflexivity |].
  cbn [List.filter] in *.
  destruct (p y), (p x); cbn [length] in *; rewrite IH; reflexivity.
Qed.

Lemma count_sort_values_age (p : nat * Row -> bool) df :
  count p (sort_values_age df) = count p df.
Proof.
  induction df as [| x df IH]; [reflexivity |].
  change (sort_values_age (x :: df)) with (insert_by_age x (sort_values_age df)).
  rewrite count_insert_by_age.
  unfold count in *. cbn [List.filter]. destruct (p x); cbn [length]; rewrite IH; reflexivity.
Qed.

Lemma count_map {A B} (f : A -> B) (p : B -> bool) l :
  count p (map f l) = count (fun a => p (f a)) l.
Proof.
  unfold count. induction l as [| a l IH]; [reflexivity |].
  cbn. destruct (p (f a)); cbn; rewrite IH; reflexivity.
Qed.

Lemma count_ext {A} (p q : A -> bool) l :
  (forall a, p a = q a) -> count p l = count q l.
Proof.
  intros H. unfold count. induction l as [| a l IH]; [reflexivity |].
  cbn. rewrite H. destruct (q a); cbn; rewrite IH; reflexivity.
Qed.

Lemma age_value_to_float c : age_value (age_to_float c) = age_value c.
Proof. destruct c as [x | | | b]; reflexivity. Qed.

Lemma count_range_index (p : Row -> bool) rows :
  count (fun lr => p (snd lr)) (range_index rows) = count p rows.
Proof.
  rewrite <- (count_map snd p), range_index_rows. reflexivity.
Qed.

Lemma astype_age_float_ok (t : DataFrame) :
  c_age (dtypes t) <> None ->
  astype_age_float t
  = Ok (mkDataFrame (set_dtype L_age (Some Number) (dtypes t))
          (map_rows (fun r => set_age (age_to_float (age r)) r) (body t))).
Proof.
  intros H. unfold astype_age_float, getitem. cbn [dtype_of].
  destruct (c_age (dtypes t)); [reflexivity | contradiction].
Qed.

Lemma astype_age_float_raise (t : DataFrame) :
  c_age (dtypes t) = None -> astype_age_float t = Raise KeyError.
Proof.
  intros H. unfold astype_age_float, getitem. cbn [dtype_of]. rewrite H. reflexivity.
Qed.

(** What the method returns for the table behind [self.data], in any store. *)
Lemma show_age_distrib_at name (d : loc) (h : store) (t : DataFrame) :
  h !! d = Some t ->
  fst (show_age_distrib (mkQA name (Some d)) h)
  = match c_age (dtypes t) with
    | Some _ => Ok (histogram (map (fun lr => age (snd lr)) (body t)))
    | None => Raise KeyError
    end.
Proof.
  intros Hd. unfold show_age_distrib, pd_DataFrame. cbn [data].
  unfold bind at 1. cbn [ret].
  destruct (c_age (dtypes t)) as [dt |] eqn:Eage.
  - rewrite (bind_derive_res_run _ _ _ _ _ _ Hd
               (astype_age_float_ok t ltac:(rewrite Eage; discriminate))).
    rewrite (bind_derive_run _ _ _ _ _ (lookup_snoc _ _)).
    unfold bind, deref. rewrite lookup_snoc.
    rewrite age_loop_run. cbn [ret fst]. unfold histogram. f_equal. f_equal.
    apply map_ext. intros k. do 2 f_equal.
    cbn [on_body body].
    rewrite count_map, count_sort_values_age.
    unfold map_rows. rewrite !count_map.
    apply count_ext. intros [l r]. cbn.
    unfold in_bin, in_range. rewrite age_value_to_float. reflexivity.
  - rewrite (bind_derive_res_raise _ _ _ _ _ _ Hd (astype_age_float_raise t Eage)).
    reflexivity.
Qed.

Lemma body_ages records :
  map (fun lr => age (snd lr)) (body (DataFrame_of records)) = ages records.
Proof.
  cbn [DataFrame_of body]. unfold ages, rows_of.
  rewrite <- (map_map snd age), range_index_rows. reflexivity.
Qed.

Lemma has_column_dtype c records :
  has_column c records = true <-> dtype_of (dtypes (DataFrame_of records)) c <> None.
Proof.
  unfold has_column. destruct (dtype_of _ c); split; congruence.
Qed.

Lemma show_age_distrib_run records :
  fst (run records show_age_distrib)
  = if has_column L_age records then Ok (histogram (ages records)) else Raise KeyError.
Proof.
  rewrite run_unfold.
  rewrite (show_age_distrib_at data_json 0 [DataFrame_of records] _ eq_refl).
  rewrite body_ages. unfold has_column. cbn [dtype_of].
  destruct (c_age (dtypes (DataFrame_of records))); reflexivity.
Qed.

Lemma in_bin_disjoint j k c : in_bin j c = true -> in_bin k c = true -> j = k.
Proof.
  unfold in_bin, in_range. destruct (age_value c) as [x |]; [| discriminate].
  rewrite !andb_true_iff, !Qle_bool_iff. intros [Hj1 Hj2] [Hk1 Hk2].
  assert (H1 : (inject_Z (10 * Z.of_nat j) <= inject_Z (10 * Z.of_nat k + 9))%Q) by lra.
  assert (H2 : (inject_Z (10 * Z.of_nat k) <= inject_Z (10 * Z.of_nat j + 9))%Q) by lra.
  rewrite <- Zle_Qle in H1, H2. lia.
Qed.

Lemma binned_has_age c : binned c = true -> has_age c = true.
Proof.
  unfold binned. rewrite existsb_exists. intros (k & _ & Hk).
  unfold in_bin, in_range, has_age in *. destruct (age_value c); [reflexivity | discriminate].
Qed.

Lemma list_sum_cons x l : list_sum (x :: l) = x + list_sum l.
Proof. reflexivity. Qed.

Lemma indicator_sum c ks :
  List.NoDup ks ->
  list_sum (map (fun k => indicator (in_bin k c)) ks)
  = indicator (existsb (fun k => in_bin k c) ks).
Proof.
  induction 1 as [| k ks Hk Hnd IH]; [reflexivity |].
  cbn [map existsb]. rewrite list_sum_cons, IH.
  destruct (in_bin k c) eqn:Ek; [| reflexivity].
  destruct (existsb _ ks) eqn:Ex; [| reflexivity].
  apply existsb_exists in Ex. destruct Ex as (j & Hj & Ej).
  rewrite (in_bin_disjoint _ _ _ Ek Ej) in Hk. contradiction.
Qed.

Lemma count_cons {A} (p : A -> bool) a l :
  count p (a :: l) = indicator (p a) + count p l.
Proof. unfold count. cbn. destruct (p a); reflexivity. Qed.

Lemma list_sum_plus {A} (f g : A -> nat) l :
  list_sum (map (fun a => f a + g a) l) = list_sum (map f l) + list_sum (map g l).
Proof.
  induction l as [| a l IH]; [reflexivity |].
  cbn [map]. rewrite !list_sum_cons, IH. lia.
Qed.

Lemma list_sum_zero {A} (l : list A) : list_sum (map (fun _ => 0) l) = 0.
Proof. induction l as [| a l IH]; cbn; auto. Qed.

(** Every age is counted in at most one bin: the counts add up to the number
    of ages that lie in some bin. *)
Lemma bin_counts_sum values :
  list_sum (map (fun k => count (in_bin k) values) (seq 0 10)) = count binned values.
Proof.
  induction values as [| c values IH].
  - apply list_sum_zero.
  - rewrite count_cons, <- IH. unfold binned.
    rewrite <- (indicator_sum c (seq 0 10)) by apply List.seq_NoDup.
    rewrite <- list_sum_plus. f_equal. apply map_ext. intros k. apply count_cons.
Qed.

Lemma hist_total_counts (counts : list nat) :
  hist_total (map (fun c => Some (Z.of_nat c)) counts) = Z.of_nat (list_sum counts).
Proof.
  induction counts as [| c counts IH]; [reflexivity |].
  cbn [map]. rewrite list_sum_cons.
  change (hist_total (Some (Z.of_nat c) :: ?l)) with (Z.of_nat c + hist_total l)%Z.
  rewrite IH. lia.
Qed.

Lemma count_binned_all values :
  Forall (fun c => has_age c = true -> binned c = true) values ->
  count binned values = count has_age values.
Proof.
  induction 1 as [| c l Hc _ IH]; [reflexivity |].
  rewrite !count_cons, IH. f_equal.
  pose proof (binned_has_age c) as Hb.
  destruct (binned c) eqn:Eb, (has_age c) eqn:Eh; try reflexivity.
  - specialize (Hb eq_refl). discriminate.
  - specialize (Hc eq_refl). discriminate.
Qed.

Lemma count_app {A} (p : A -> bool) l1 l2 :
  count p (l1 ++ l2) = count p l1 + count p l2.
Proof. unfold count. rewrite List.filter_app, length_app. reflexivity. Qed.

Lemma count_le_length {A} (p : A -> bool) l : count p l <= length l.
Proof. unfold count. apply List.filter_length_le. Qed.

Lemma count_Permutation {A} (p : A -> bool) l1 l2 :
  Permutation l1 l2 -> count p l1 = count p l2.
Proof.
  induction 1 as [| a l1 l2 _ IH | a b l | l1 l2 l3 _ IH1 _ IH2].
  - reflexivity.
  - rewrite !count_cons, IH. reflexivity.
  - rewrite !count_cons. lia.
  - congruence.
Qed.

(** C2, as the code has it.  On a file that gives the table an age column,
    the histogram holds, for each of the ten bins, the number of rows whose
    age lies in the inclusive range from 10k to 10k + 9; the bins are
    disjoint, so the ten counts sum to the number of rows with a non-missing
    age that lies in one of these ranges.  Rows with a missing age are counted
    in none, and neither are ages between two ranges or outside 0..99; when
    every non-missing age lies in a range, the sum is the number of rows with
    a non-missing age. *)
Theorem show_age_distrib_counts (records : list json_object) :
  has_column L_age records = true ->
  exists hist bins,
    fst (run records show_age_distrib) = Ok (hist, bins)
    /\ hist = map (fun k => Some (Z.of_nat (count (in_bin k) (ages records)))) (seq 0 10)
    /\ bins = map Some [0; 10; 20; 30; 40; 50; 60; 70; 80; 90; 100]%Z
    /\ hist_total hist = Z.of_nat (count binned (ages records))
    /\ (forall c, binned c = true -> has_age c = true)
    /\ (forall j k c, in_bin j c = true -> in_bin k c = true -> j = k)
    /\ (Forall (fun c => has_age c = true -> binned c = true) (ages records) ->
        hist_total hist = Z.of_nat (count has_age (ages records))).
Proof.
  intros Hage. eexists _, _. split.
  { rewrite show_age_distrib_run, Hage. reflexivity. }
  assert (Htotal :
    hist_total (map (fun k => Some (Z.of_nat (count (in_bin k) (ages records)))) (seq 0 10))
    = Z.of_nat (count binned (ages records))).
  { rewrite <- bin_counts_sum, <- hist_total_counts, map_map. reflexivity. }
  split_and!; try reflexivity.
  - exact Htotal.
  - exact binned_has_age.
  - exact in_bin_disjoint.
  - intros Hall. rewrite Htotal, (count_binned_all _ Hall). reflexivity.
Qed.

Lemma show_age_distrib_counts_witness :
  has_column L_age [centenarian; leading_dot; blank] = true
  /\ exists hist bins,
       fst (run [centenarian; leading_dot; blank] show_age_distrib) = Ok (hist, bins)
       /\ hist = map (fun k => Some (Z.of_nat
                   (count (in_bin k) (ages [centenarian; leading_dot; blank])))) (seq 0 10)
       /\ bins = map Some [0; 10; 20; 30; 40; 50; 60; 70; 80; 90; 100]%Z
       /\ hist_total hist
          = Z.of_nat (count binned (ages [centenarian; leading_dot; blank]))
       /\ (forall c, binned c = true -> has_age c = true)
       /\ (forall j k c, in_bin j c = true -> in_bin k c = true -> j = k)
       /\ (Forall (fun c => has_age c = true -> binned c = true)
                  (ages [centenarian; leading_dot; blank]) ->
           hist_total hist
           = Z.of_nat (count has_age (ages [centenarian; leading_dot; blank]))).
Proof.
  split; [reflexivity |].
  apply (show_age_distrib_counts [centenarian; leading_dot; blank]). reflexivity.
Defined.

(** C2 as stated fails: the age 100 is not missing, yet no bin counts it. *)
Lemma show_age_distrib_skips_age_100 :
  exists hist bins,
    fst (run [centenarian] show_age_distrib) = Ok (hist, bins)
    /\ hist_total hist = 0%Z
    /\ count has_age (ages [centenarian]) = 1
    /\ hist_total hist <> Z.of_nat (count has_age (ages [centenarian])).
Proof.
  eexists _, _. split; [vm_compute; reflexivity |].
  split; [reflexivity |]. split; [reflexivity |]. discriminate.
Qed.

(** ** fill_na_with_mean *)

Lemma get_set_q q q' v r :
  get_q q' (set_q q v r) = if question_eqb q q' then v else get_q q' r.
Proof. destruct q, q'; reflexivity. Qed.

Lemma set_set_q q v w r : set_q q v (set_q q w r) = set_q q v r.
Proof. destruct q; reflexivity. Qed.

Lemma others_mean_set_q q v r : others_mean q (set_q q v r) = others_mean q r.
Proof. destruct q; reflexivity. Qed.

Lemma fill_fill q r : fill q (fill q r) = fill q r.
Proof. unfold fill. rewrite others_mean_set_q, set_set_q. reflexivity. Qed.

Lemma of_float_not_text x : of_float x <> NanText.
Proof. unfold of_float. destruct (PrimFloat.is_nan x); discriminate. Qed.

Lemma clean_replace_nan r : clean (replace_nan r).
Proof. intros q. destruct q, r as [a e f g i l [] [] [] [] [] s]; discriminate. Qed.

Lemma clean_fill q r : clean r -> clean (fill q r).
Proof.
  intros H q'. unfold fill. rewrite get_set_q.
  destruct (question_eqb q q'); [apply of_float_not_text | apply H].
Qed.

Lemma clean_impute q r : clean r -> clean (impute q r).
Proof. intros H. unfold impute. destruct (isna _); [apply clean_fill |]; exact H. Qed.

Lemma present_numbers cells :
  Forall (fun c => c <> NanText) cells -> present cells = Ok (numbers cells).
Proof.
  induction 1 as [| c cells Hc _ IH]; [reflexivity |].
  destruct c; cbn; rewrite ?IH; [reflexivity | contradiction | reflexivity].
Qed.

Lemma np_mean_clean r qs :
  clean r ->
  np_mean (map (fun q => get_q q r) qs)
  = Ok (of_float (mean (numbers (map (fun q => get_q q r) qs)))).
Proof.
  intros H. unfold np_mean. rewrite present_numbers; [reflexivity |].
  apply List.Forall_forall. intros c Hc. apply in_map_iff in Hc.
  destruct Hc as (q & <- & _). apply H.
Qed.

(** On a table indexed 0..n-1 the label of a row is its position. *)
Lemma range_index_lookup rows i :
  range_index rows !! i = (fun r => (i, r)) <$> rows !! i.
Proof.
  unfold range_index.
  assert (H : forall k, combine (seq k (length rows)) rows !! i
                        = (fun r => (k + i, r)) <$> rows !! i).
  { revert i. induction rows as [| r rows IH]; intros i k; [reflexivity |].
    destruct i as [| i]; cbn.
    - rewrite Nat.add_0_r. reflexivity.
    - rewrite IH. replace (S k + i) with (k + S i) by lia. reflexivity. }
  apply (H 0).
Qed.

Lemma range_index_map (f : Row -> Row) rows :
  map_rows f (range_index rows) = range_index (map f rows).
Proof.
  apply list_eq. intros i. unfold map_rows.
  rewrite list_lookup_fmap, !range_index_lookup, list_lookup_fmap.
  destruct (rows !! i); reflexivity.
Qed.

Lemma setitem_label_range_index q i v rows :
  setitem_label q i v (range_index rows) = range_index (alter (set_q q v) i rows).
Proof.
  apply list_eq. intros j. unfold setitem_label.
  rewrite list_lookup_fmap, !range_index_lookup.
  destruct (decide (i = j)) as [<- | Hne].
  - rewrite list_lookup_alter_eq. destruct (rows !! i); cbn; [| reflexivity].
    rewrite Nat.eqb_refl. reflexivity.
  - rewrite list_lookup_alter_ne by exact Hne.
    destruct (rows !! j); cbn; [| reflexivity].
    destruct (Nat.eqb_spec j i); [congruence | reflexivity].
Qed.

Lemma elem_of_masked q rows i :
  In i (masked q rows) <-> exists r, rows !! i = Some r /\ isna (get_q q r) = true.
Proof.
  unfold masked, getitem_mask. rewrite in_map_iff. split.
  - intros ([l r] & <- & Hin). apply List.filter_In in Hin. destruct Hin as [Hin Hm].
    apply list_elem_of_In, list_elem_of_lookup in Hin. destruct Hin as [j Hj].
    rewrite range_index_lookup in Hj. destruct (rows !! j) as [r' |] eqn:E; [| discriminate].
    cbn in Hj. injection Hj as <- <-. eauto.
  - intros (r & Hr & Hm). exists (i, r). split; [reflexivity |].
    apply List.filter_In. split; [| exact Hm].
    apply list_elem_of_In, list_elem_of_lookup. exists i.
    rewrite range_index_lookup, Hr. reflexivity.
Qed.

Lemma masked_bound q rows : Forall (fun i => i < length rows) (masked q rows).
Proof.
  apply List.Forall_forall. intros i Hi. apply elem_of_masked in Hi.
  destruct Hi as (r & Hr & _). eapply lookup_lt_Some, Hr.
Qed.

Lemma filled_lookup q indices rows j :
  filled q indices rows !! j
  = (fun r => if decide (j ∈ indices) then fill q r else r) <$> rows !! j.
Proof.
  unfold filled. revert rows. induction indices as [| i indices IH]; intros rows.
  - cbn. destruct (rows !! j); reflexivity.
  - cbn [fold_left]. rewrite IH.
    destruct (decide (i = j)) as [<- | Hne].
    + rewrite list_lookup_alter_eq. destruct (rows !! i) as [r |]; cbn; [| reflexivity].
      f_equal. destruct (decide (i ∈ indices)), (decide (i ∈ i :: indices)) as [| Hn];
        try rewrite fill_fill; try reflexivity; exfalso; apply Hn; left.
    + rewrite list_lookup_alter_ne by exact Hne.
      destruct (rows !! j) as [r |]; cbn; [| reflexivity].
      f_equal.
      destruct (decide (j ∈ indices)) as [Hin | Hout],
               (decide (j ∈ i :: indices)) as [Hin' | Hout']; try reflexivity.
      * exfalso. apply Hout'. right. exact Hin.
      * exfalso. apply elem_of_cons in Hin'. destruct Hin'; [congruence | tauto].
Qed.

Lemma filled_masked q rows : filled q (masked q rows) rows = impute_column q rows.
Proof.
  apply list_eq. intros j. unfold impute_column.
  rewrite filled_lookup, list_lookup_fmap.
  destruct (rows !! j) as [r |] eqn:E; cbn; [| reflexivity].
  f_equal. unfold impute. destruct (decide (j ∈ masked q rows)) as [Hin | Hout].
  - apply list_elem_of_In, elem_of_masked in Hin. destruct Hin as (r' & Hr' & Hm).
    rewrite E in Hr'. injection Hr' as <-. rewrite Hm. reflexivity.
  - destruct (isna (get_q q r)) eqn:Hm; [| reflexivity].
    exfalso. apply Hout, list_elem_of_In, elem_of_masked. eauto.
Qed.

Lemma getitem_questions cs (b : Body) qs :
  has_questions cs -> getitem_list (map L_q qs) (mkDataFrame cs b) = Ok tt.
Proof.
  intros H. apply getitem_list_ok, List.Forall_map, List.Forall_forall.
  intros q _. apply H.
Qed.

Lemma fill_column_run (df : loc) q indices cs : forall (h : store) rows,
  h !! df = Some (mkDataFrame cs (range_index rows)) ->
  has_questions cs ->
  Forall clean rows ->
  Forall (fun i => i < length rows) indices ->
  fill_column df q (list_remove q questions) indices h
  = (Ok tt, <[df := mkDataFrame cs (range_index (filled q indices rows))]> h).
Proof.
  unfold fill_column.
  induction indices as [| i indices IH]; intros h rows Hdf Hcs Hclean Hbound.
  - cbn. rewrite list_insert_id by exact Hdf. reflexivity.
  - apply Forall_cons in Hbound. destruct Hbound as [Hi Hbound].
    apply lookup_lt_is_Some in Hi. destruct Hi as [r Hr].
    cbn [for_each]. unfold bind at 1. unfold bind at 1.
    rewrite (deref_run _ _ _ Hdf).
    unfold bind at 1, lift at 1. rewrite (getitem_questions cs _ _ Hcs).
    unfold bind at 1, lift at 1, iloc. cbn [body].
    rewrite range_index_lookup, Hr. cbn [fmap option_fmap option_map snd].
    unfold bind at 1, lift at 1.
    rewrite (np_mean_clean r _ (proj1 (List.Forall_forall _ _) Hclean r
               (proj1 (list_elem_of_In _ _) (list_elem_of_lookup_2 _ _ _ Hr)))).
    unfold bind at 1, lift at 1, getitem. cbn [dtypes].
    destruct (dtype_of cs (L_q q)) as [dq |] eqn:Eq; [| exfalso; exact (Hcs q Eq)].
    rewrite (assign_run _ _ _ _ Hdf). unfold on_body. cbn [dtypes body].
    rewrite setitem_label_range_index.
    fold (others_mean q r).
    assert (Halter : alter (set_q q (others_mean q r)) i rows = alter (fill q) i rows).
    { apply list_eq. intros j. destruct (decide (i = j)) as [<- | Hne].
      - rewrite !list_lookup_alter_eq, Hr. reflexivity.
      - rewrite !list_lookup_alter_ne by exact Hne. reflexivity. }
    rewrite Halter.
    rewrite (IH _ (alter (fill q) i rows)).
    + rewrite list_insert_insert_eq. reflexivity.
    + apply list_lookup_insert_eq. eapply lookup_lt_Some, Hdf.
    + exact Hcs.
    + apply Forall_alter; [exact Hclean |]. intros r' _ Hr'. apply clean_fill, Hr'.
    + rewrite length_alter. exact Hbound.
Qed.

Lemma fill_question_run (df : loc) arr q cs (h : store) rows :
  h !! df = Some (mkDataFrame cs (range_index rows)) ->
  has_questions cs ->
  Forall clean rows ->
  fill_question df arr q h
  = (Ok (arr ++ masked q rows),
     <[df := mkDataFrame cs (range_index (impute_column q rows))]> h).
Proof.
  intros Hdf Hcs Hclean. unfold fill_question.
  unfold bind at 1. rewrite (deref_run _ _ _ Hdf).
  unfold bind at 1, lift at 1, getitem. cbn [dtypes body].
  destruct (dtype_of cs (L_q q)) as [dq |] eqn:Eq; [| exfalso; exact (Hcs q Eq)].
  fold (masked q rows). unfold bind at 1.
  rewrite (fill_column_run df q (masked q rows) cs h rows Hdf Hcs Hclean
             (masked_bound q rows)).
  rewrite filled_masked. reflexivity.
Qed.

Lemma clean_impute_column q rows : Forall clean rows -> Forall clean (impute_column q rows).
Proof.
  intros H. unfold impute_column. apply List.Forall_map.
  eapply List.Forall_impl; [| exact H]. intros r. apply clean_impute.
Qed.

Lemma for_each_fill_question (df : loc) cs qs : forall (h : store) rows arr,
  h !! df = Some (mkDataFrame cs (range_index rows)) ->
  has_questions cs ->
  Forall clean rows ->
  for_each qs (fill_question df) arr h
  = (Ok (snd (fold_left pass qs (rows, arr))),
     <[df := mkDataFrame cs (range_index (fst (fold_left pass qs (rows, arr))))]> h).
Proof.
  induction qs as [| q qs IH]; intros h rows arr Hdf Hcs Hclean.
  - cbn. rewrite list_insert_id by exact Hdf. reflexivity.
  - cbn [for_each fold_left]. unfold bind at 1.
    rewrite (fill_question_run df arr q cs h rows Hdf Hcs Hclean).
    rewrite (IH _ (impute_column q rows)).
    + rewrite list_insert_insert_eq. reflexivity.
    + apply list_lookup_insert_eq. eapply lookup_lt_Some, Hdf.
    + exact Hcs.
    + apply clean_impute_column, Hclean.
Qed.

Lemma numeric_has_questions cs : numeric_questions cs -> has_questions cs.
Proof. intros H q. rewrite H. discriminate. Qed.

Lemma round_questions_numeric d cs r :
  numeric_questions cs -> round_questions d cs r = rounded d r.
Proof.
  intros H. unfold round_questions, rounded.
  pose proof (H Q1) as H1. pose proof (H Q2) as H2. pose proof (H Q3) as H3.
  pose proof (H Q4) as H4. pose proof (H Q5) as H5. cbn [dtype_of] in *.
  rewrite H1, H2, H3, H4, H5. reflexivity.
Qed.

Lemma round_table_numeric d cs (b : Body) :
  numeric_questions cs ->
  round_table d (mkDataFrame cs b) = Ok (mkDataFrame cs (map_rows (rounded d) b)).
Proof.
  intros H. unfold round_table.
  rewrite (getitem_questions cs b questions (numeric_has_questions cs H)).
  unfold on_body. cbn [dtypes body]. do 2 f_equal. unfold map_rows.
  apply map_ext. intros lr. rewrite (round_questions_numeric d cs _ H). reflexivity.
Qed.

Lemma select_columns_ok cs (b : Body) :
  has_file_columns cs ->
  select_columns (mkDataFrame cs b) = Ok (mkDataFrame cs (map_rows (set_score None) b)).
Proof.
  intros H. unfold select_columns.
  rewrite (getitem_list_ok file_columns (mkDataFrame cs b) H). reflexivity.
Qed.

Lemma passes_rows rows :
  fst (passes rows)
  = impute_column Q5 (impute_column Q4 (impute_column Q3
      (impute_column Q2 (impute_column Q1 (map replace_nan rows))))).
Proof. reflexivity. Qed.

Lemma passes_arr rows :
  snd (passes rows)
  = masked Q1 (map replace_nan rows)
    ++ masked Q2 (impute_column Q1 (map replace_nan rows))
    ++ masked Q3 (impute_column Q2 (impute_column Q1 (map replace_nan rows)))
    ++ masked Q4 (impute_column Q3 (impute_column Q2
                   (impute_column Q1 (map replace_nan rows))))
    ++ masked Q5 (impute_column Q4 (impute_column Q3 (impute_column Q2
                   (impute_column Q1 (map replace_nan rows))))).
Proof. unfold passes. cbn. rewrite <- !app_assoc. reflexivity. Qed.

Lemma impute_row_passes rows :
  map (set_score None) (map (rounded 2) (fst (passes rows))) = map impute_row rows.
Proof.
  rewrite passes_rows. unfold impute_column. rewrite !map_map. reflexivity.
Qed.

(** What the method returns for the table behind [self.data], in any store,
    when the table after [replace] has the eleven columns and numeric question
    columns. *)
Lemma fill_na_with_mean_at name (d : loc) (h : store) (t : DataFrame) rows :
  h !! d = Some t ->
  body t = range_index rows ->
  has_file_columns (dtypes (replace t)) ->
  numeric_questions (dtypes (replace t)) ->
  fill_na_with_mean (mkQA name (Some d)) h
  = (Ok (length h + 1, imputed_indices rows),
     h ++ [mkDataFrame (dtypes (replace t))
             (range_index (map (rounded 2) (fst (passes rows))));
           mkDataFrame (dtypes (replace t)) (range_index (map impute_row rows))]).
Proof.
  intros Hd Hbody Hcols Hnum. unfold fill_na_with_mean. cbn [data].
  rewrite (bind_derive_run _ _ _ _ _ Hd).
  set (cs := dtypes (replace t)) in *.
  assert (Ht1 : replace t = mkDataFrame cs (range_index (map replace_nan rows))).
  { unfold cs, replace. cbn [dtypes]. rewrite Hbody, range_index_map. reflexivity. }
  rewrite Ht1.
  unfold bind at 1.
  rewrite (for_each_fill_question (length h) cs questions
             (h ++ [mkDataFrame cs (range_index (map replace_nan rows))])
             (map replace_nan rows) [] (lookup_snoc _ _)
             (numeric_has_questions cs Hnum)).
  2:{ apply List.Forall_map, List.Forall_forall. intros r _. apply clean_replace_nan. }
  fold (passes rows).
  assert (Hins : forall (x y : DataFrame), <[length h := y]> (h ++ [x]) = h ++ [y]).
  { intros x y. rewrite insert_app_r_alt by lia. rewrite Nat.sub_diag. reflexivity. }
  rewrite Hins.
  unfold bind at 1.
  rewrite (assign_res_run _ _ _ _ _ (lookup_snoc _ _) (round_table_numeric 2 cs _ Hnum)).
  rewrite Hins, range_index_map.
  unfold bind at 1. rewrite (assign_run _ _ _ _ (lookup_snoc _ _)). rewrite Hins.
  unfold bind at 1.
  rewrite (derive_res_run _ _ _ _ _ (lookup_snoc _ _) (select_columns_ok cs _ Hcols)).
  rewrite range_index_map, impute_row_passes.
  unfold ret. rewrite length_app. cbn [length]. rewrite <- app_assoc. reflexivity.
Qed.


Lemma impute_other q q' r : q' <> q -> get_q q' (impute q r) = get_q q' r.
Proof.
  intros Hne. unfold impute, fill. destruct (isna (get_q q r)); [| reflexivity].
  rewrite get_set_q. destruct (question_eqb q q') eqn:E; [| reflexivity].
  apply question_eqb_eq in E. congruence.
Qed.

Lemma impute_present q r : isna (get_q q r) = false -> impute q r = r.
Proof. intros H. unfold impute. rewrite H. reflexivity. Qed.

Lemma replace_dtype_None b c d : replace_dtype b c d = None <-> d = None.
Proof.
  unfold replace_dtype. destruct d as [[] |]; try (split; congruence).
  destruct (_ && _); split; congruence.
Qed.

Lemma dtype_of_replace (t : DataFrame) c :
  dtype_of (dtypes (replace t)) c = replace_dtype (body t) c (dtype_of (dtypes t) c).
Proof. unfold replace. cbn [dtypes]. apply dtype_of_columns_of. Qed.

Lemma has_columns_replace records :
  has_columns records = true ->
  has_file_columns (dtypes (replace (DataFrame_of records))).
Proof.
  unfold has_columns, has_file_columns. rewrite forallb_forall, List.Forall_forall.
  intros H c Hc. rewrite dtype_of_replace, replace_dtype_None.
  apply has_column_dtype, H, Hc.
Qed.

Lemma numeric_answers_replace records :
  numeric_answers records = true ->
  numeric_questions (dtypes (replace (DataFrame_of records))).
Proof.
  unfold numeric_answers, numeric_questions. rewrite forallb_forall.
  intros H q. specialize (H q).
  destruct (dtype_of _ (L_q q)) as [[] |]; try reflexivity;
    (discriminate H; destruct q; cbn; auto 10).
Qed.

Lemma fillable_columns records :
  fillable records = true ->
  has_file_columns (dtypes (replace (DataFrame_of records)))
  /\ numeric_questions (dtypes (replace (DataFrame_of records))).
Proof.
  unfold fillable. rewrite andb_true_iff. intros [H1 H2].
  split; [apply has_columns_replace, H1 | apply numeric_answers_replace, H2].
Qed.

Lemma fill_na_with_mean_run records :
  fillable records = true ->
  run records fill_na_with_mean
  = (Ok (2, imputed_indices (rows_of records)),
     [DataFrame_of records;
      mkDataFrame (dtypes (replace (DataFrame_of records)))
        (range_index (map (rounded 2) (fst (passes (rows_of records)))));
      mkDataFrame (dtypes (replace (DataFrame_of records)))
        (range_index (map impute_row (rows_of records)))]).
Proof.
  intros H. destruct (fillable_columns records H) as [Hcols Hnum].
  rewrite run_unfold.
  apply (fill_na_with_mean_at data_json 0 [DataFrame_of records] (DataFrame_of records)
           (rows_of records) eq_refl eq_refl Hcols Hnum).
Qed.

Lemma run_fill_table records :
  fillable records = true ->
  run_fill records
  = Ok (mkDataFrame (dtypes (replace (DataFrame_of records)))
          (range_index (map impute_row (rows_of records))),
        imputed_indices (rows_of records)).
Proof.
  intros H. unfold run_fill. rewrite (fill_na_with_mean_run records H). reflexivity.
Qed.


(** ** The index array *)

Lemma In_insert_sorted x y l : In x (insert_sorted y l) <-> x = y \/ In x l.
Proof.
  induction l as [| z l IH]; cbn; [intuition |].
  destruct (Nat.leb y z); cbn; [intuition |]. rewrite IH. intuition.
Qed.

Lemma In_sorted x l : In x (sorted l) <-> In x l.
Proof.
  induction l as [| y l IH]; [reflexivity |].
  cbn [sorted fold_right]. fold (sorted l). rewrite In_insert_sorted, IH.
  cbn. intuition.
Qed.

Lemma insert_sorted_sorted x l :
  StronglySorted le l -> StronglySorted le (insert_sorted x l).
Proof.
  induction 1 as [| y l Hl IH Hy]; cbn.
  - repeat constructor.
  - destruct (Nat.leb_spec x y) as [Hxy | Hyx].
    + constructor; [constructor; assumption |].
      constructor; [exact Hxy |].
      eapply List.Forall_impl; [| exact Hy]. intros z Hz. lia.
    + constructor; [exact IH |].
      apply List.Forall_forall. intros z Hz.
      apply (proj1 (In_insert_sorted _ _ _)) in Hz.
      destruct Hz as [-> | Hz]; [lia |].
      exact (proj1 (List.Forall_forall _ _) Hy z Hz).
Qed.

Lemma sorted_sorted l : StronglySorted le (sorted l).
Proof.
  induction l as [| x l IH]; [constructor |].
  cbn [sorted fold_right]. apply insert_sorted_sorted, IH.
Qed.

Lemma In_drop_repeats x l : In x (drop_repeats l) <-> In x l.
Proof.
  induction l as [| y l IH]; [reflexivity |].
  cbn [drop_repeats]. destruct l as [| z l]; [reflexivity |].
  destruct (Nat.eqb_spec y z) as [-> | Hne].
  - rewrite IH. cbn. intuition.
  - cbn [In] in *. rewrite IH. reflexivity.
Qed.

Lemma drop_repeats_sorted l :
  StronglySorted le l -> StronglySorted lt (drop_repeats l).
Proof.
  induction 1 as [| y l Hl IH Hy]; [constructor |].
  cbn [drop_repeats]. destruct l as [| z l]; [repeat constructor |].
  destruct (Nat.eqb_spec y z) as [-> | Hne]; [exact IH |].
  constructor; [exact IH |].
  apply List.Forall_forall. intros w Hw.
  apply (proj1 (In_drop_repeats _ _)) in Hw.
  pose proof (proj1 (List.Forall_forall _ _) Hy) as Hle.
  pose proof (Hle z (or_introl eq_refl)) as Hyz.
  apply in_inv in Hw. destruct Hw as [<- | Hw]; [lia |].
  inversion Hl as [| ? ? _ Hz]; subst.
  pose proof (proj1 (List.Forall_forall _ _) Hz w Hw). lia.
Qed.

Lemma strictly_sorted_NoDup l : StronglySorted lt l -> List.NoDup l.
Proof.
  induction 1 as [| x l Hl IH Hx]; constructor; [| exact IH].
  intros Hin. pose proof (proj1 (List.Forall_forall _ _) Hx x Hin). lia.
Qed.

Lemma np_unique_sorted l : StronglySorted lt (np_unique l).
Proof. apply drop_repeats_sorted, sorted_sorted. Qed.

Lemma In_np_unique x l : In x (np_unique l) <-> In x l.
Proof. unfold np_unique. rewrite In_drop_repeats. apply In_sorted. Qed.

(** The rows recorded in [arr] are those with a missing question field. *)
Lemma masked_impute_column q q' rows i :
  q <> q' -> In i (masked q (impute_column q' rows)) <-> In i (masked q rows).
Proof.
  intros Hne. rewrite !elem_of_masked. unfold impute_column.
  rewrite list_lookup_fmap. split.
  - intros (r & Hr & Hm). destruct (rows !! i) as [r0 |]; [| discriminate].
    cbn in Hr. injection Hr as <-. rewrite impute_other in Hm by exact Hne. eauto.
  - intros (r & Hr & Hm). rewrite Hr. exists (impute q' r). split; [reflexivity |].
    rewrite impute_other by exact Hne. exact Hm.
Qed.

Lemma masked_replace_nan q rows i :
  In i (masked q (map replace_nan rows))
  <-> exists r, rows !! i = Some r /\ isna (get_q q (replace_nan r)) = true.
Proof.
  rewrite elem_of_masked, list_lookup_fmap. split.
  - intros (r & Hr & Hm). destruct (rows !! i) as [r0 |]; [| discriminate].
    cbn in Hr. injection Hr as <-. eauto.
  - intros (r & Hr & Hm). rewrite Hr. eauto.
Qed.

Lemma recorded_iff rows i :
  In i (snd (passes rows))
  <-> exists r, rows !! i = Some r
        /\ exists q, isna (get_q q (replace_nan r)) = true.
Proof.
  rewrite passes_arr, !in_app_iff.
  rewrite !masked_impute_column by discriminate.
  rewrite !masked_replace_nan. split.
  - intros [H | [H | [H | [H | H]]]]; destruct H as (r & Hr & Hm); eauto.
  - intros (r & Hr & [[] Hm]); eauto 10.
Qed.

Lemma In_imputed_indices rows i :
  In i (imputed_indices rows)
  <-> exists r, rows !! i = Some r
        /\ exists q, isna (get_q q (replace_nan r)) = true.
Proof. unfold imputed_indices. rewrite In_np_unique, In_sorted. apply recorded_iff. Qed.



Lemma mean_nil : mean [] = PrimFloat.nan.
Proof. reflexivity. Qed.




(** ** score_subjects *)

Lemma map_rows_res_total f g (b : Body) :
  Forall (fun lr => f (snd lr) = Ok (g (snd lr))) b ->
  map_rows_res f b = Ok (map_rows g b).
Proof.
  induction 1 as [| lr b Hlr _ IH]; [reflexivity |].
  cbn [map_rows_res]. rewrite Hlr, IH. reflexivity.
Qed.

Lemma map_rows_res_after f w (p : Row -> bool) g e (b : Body) :
  Forall (fun lr => f (w (snd lr)) = if p (snd lr) then Ok (g (snd lr)) else Raise e) b ->
  map_rows_res f (map_rows w b)
  = if forallb p (map snd b) then Ok (map_rows g b) else Raise e.
Proof.
  induction 1 as [| lr b Hlr _ IH]; [reflexivity |].
  cbn [map_rows map map_rows_res forallb snd fst]. fold (map_rows w b).
  rewrite Hlr, IH. destruct (p (snd lr)); [| reflexivity].
  destruct (forallb p (map snd b)); reflexivity.
Qed.

Lemma forallb_true {A} (l : list A) : forallb (fun _ => true) l = true.
Proof. induction l; cbn; auto. Qed.

Lemma clean_row_questions r : clean r -> Forall (fun c => c <> NanText) (row_questions r).
Proof.
  intros H. apply List.Forall_forall. intros c Hc. unfold row_questions in Hc.
  apply in_map_iff in Hc. destruct Hc as (q & <- & _). apply H.
Qed.

Lemma score_nanmean_clean r : clean r -> score_nanmean r = Ok (with_mean r).
Proof.
  intros H. unfold score_nanmean. rewrite (present_numbers _ (clean_row_questions r H)).
  reflexivity.
Qed.

Lemma score_floor_with_mean r : score_floor (with_mean r) = Ok (with_floor r).
Proof. destruct r; reflexivity. Qed.

Lemma score_threshold_with_floor k r :
  score_threshold k (with_floor r) = Ok (with_threshold k r).
Proof.
  unfold score_threshold, with_threshold.
  change (score (with_floor r)) with (Some (SFloat (floor_mean r))).
  change (count_present (with_floor r)) with (count_present r).
  change (Z.of_nat (length questions)) with 5%Z.
  destruct (Z.of_nat (count_present r) <? 5 - k)%Z; destruct r; reflexivity.
Qed.

Lemma score_astype_with_threshold k r :
  score_astype_UInt8 (with_threshold k r)
  = if storable k r then Ok (set_score (Some (subject_score k r)) r) else Raise TypeError.
Proof.
  unfold with_threshold, storable, subject_score, score_astype_UInt8.
  destruct (Z.of_nat (count_present r) <? 5 - k)%Z.
  - destruct r; reflexivity.
  - change (score (with_floor r)) with (Some (SFloat (floor_mean r))).
    cbv beta iota.
    destruct (PrimFloat.is_nan (floor_mean r)); [destruct r; reflexivity |].
    destruct (uint8_of (floor_mean r)); destruct r; reflexivity.
Qed.

Lemma nanmean_questions_numeric cs (b : Body) :
  numeric_questions cs ->
  Forall (fun lr => clean (snd lr)) b ->
  nanmean_questions (mkDataFrame cs b) = Ok (mkDataFrame cs (map_rows with_mean b)).
Proof.
  intros Hnum Hclean. unfold nanmean_questions.
  rewrite (getitem_questions cs b questions (numeric_has_questions cs Hnum)).
  cbn [dtypes].
  assert (Hall : forallb (fun q => is_number (dtype_of cs (L_q q))) questions = true).
  { apply forallb_forall. intros q _. rewrite Hnum. reflexivity. }
  rewrite Hall. unfold on_body_res. cbn [body dtypes].
  rewrite (map_rows_res_total score_nanmean with_mean); [reflexivity |].
  eapply List.Forall_impl; [| exact Hclean]. intros lr. apply score_nanmean_clean.
Qed.

(** What the method does for the table behind [self.data], in any store,
    when the question columns of the table after [replace] are numeric. *)
Lemma score_subjects_at k name (d : loc) (h : store) (t : DataFrame) rows :
  h !! d = Some t ->
  body t = range_index rows ->
  numeric_questions (dtypes (replace t)) ->
  if forallb (storable k) (map replace_nan rows)
  then score_subjects k (mkQA name (Some d)) h
       = (Ok (length h),
          h ++ [mkDataFrame (dtypes (replace t)) (range_index (map (scored k) rows))])
  else fst (score_subjects k (mkQA name (Some d)) h) = Raise TypeError.
Proof.
  intros Hd Hbody Hnum.
  set (cs := dtypes (replace t)) in *.
  assert (Ht1 : replace t = mkDataFrame cs (range_index (map replace_nan rows))).
  { unfold cs, replace. cbn [dtypes]. rewrite Hbody, range_index_map. reflexivity. }
  set (b1 := range_index (map replace_nan rows)) in *.
  assert (Hclean : Forall (fun lr => clean (snd lr)) b1).
  { apply (Forall_range_index clean), List.Forall_map, List.Forall_forall.
    intros r _. apply clean_replace_nan. }
  assert (Hins : forall (x y : DataFrame), <[length h := y]> (h ++ [x]) = h ++ [y]).
  { intros x y. rewrite insert_app_r_alt by lia. rewrite Nat.sub_diag. reflexivity. }
  assert (H2 : on_body_res (map_rows_res score_floor) (mkDataFrame cs (map_rows with_mean b1))
               = Ok (mkDataFrame cs (map_rows with_floor b1))).
  { unfold on_body_res. cbn [body dtypes].
    rewrite (map_rows_res_after _ _ (fun _ => true) with_floor TypeError).
    - rewrite forallb_true. reflexivity.
    - apply List.Forall_forall. intros lr _. apply score_floor_with_mean. }
  assert (H3 : on_body_res (map_rows_res (score_threshold k))
                 (mkDataFrame cs (map_rows with_floor b1))
               = Ok (mkDataFrame cs (map_rows (with_threshold k) b1))).
  { unfold on_body_res. cbn [body dtypes].
    rewrite (map_rows_res_after _ _ (fun _ => true) (with_threshold k) TypeError).
    - rewrite forallb_true. reflexivity.
    - apply List.Forall_forall. intros lr _. apply score_threshold_with_floor. }
  assert (H4 : on_body_res (map_rows_res score_astype_UInt8)
                 (mkDataFrame cs (map_rows (with_threshold k) b1))
               = if forallb (storable k) (map replace_nan rows)
                 then Ok (mkDataFrame cs (range_index (map (scored k) rows)))
                 else Raise TypeError).
  { unfold on_body_res. cbn [body dtypes].
    rewrite (map_rows_res_after _ _ (storable k)
               (fun r => set_score (Some (subject_score k r)) r) TypeError).
    - unfold b1. rewrite range_index_rows.
      destruct (forallb (storable k) (map replace_nan rows)); [| reflexivity].
      rewrite range_index_map, map_map. reflexivity.
    - apply List.Forall_forall. intros lr _. apply score_astype_with_threshold. }
  assert (Hsteps : forall step4,
    on_body_res (map_rows_res score_astype_UInt8)
      (mkDataFrame cs (map_rows (with_threshold k) b1)) = step4 ->
    score_subjects k (mkQA name (Some d)) h
    = match step4 with
      | Ok t4 => (Ok (length h), h ++ [t4])
      | Raise e => (Raise e, h ++ [mkDataFrame cs (map_rows (with_threshold k) b1)])
      end).
  { intros step4 Hstep4.
    unfold score_subjects, pd_DataFrame. cbn [data].
    unfold bind at 1. cbn [ret].
    rewrite (bind_derive_run _ _ _ _ _ Hd), Ht1. fold b1.
    unfold bind at 1.
    rewrite (assign_res_run _ _ _ _ _ (lookup_snoc _ _)
               (nanmean_questions_numeric cs b1 Hnum Hclean)), Hins.
    unfold bind at 1. rewrite (assign_res_run _ _ _ _ _ (lookup_snoc _ _) H2), Hins.
    unfold bind at 1. rewrite (assign_res_run _ _ _ _ _ (lookup_snoc _ _) H3), Hins.
    unfold bind at 1.
    destruct step4 as [t4 | e].
    - rewrite (assign_res_run _ _ _ _ _ (lookup_snoc _ _) Hstep4), Hins. reflexivity.
    - rewrite (assign_res_raise _ _ _ _ _ (lookup_snoc _ _) Hstep4). reflexivity. }
  rewrite (Hsteps _ H4).
  destruct (forallb (storable k) (map replace_nan rows)); reflexivity.
Qed.

Lemma score_subjects_run k records :
  numeric_answers records = true ->
  run_table records (score_subjects k)
  = if forallb (storable k) (map replace_nan (rows_of records))
    then Ok (mkDataFrame (dtypes (replace (DataFrame_of records)))
               (range_index (map (scored k) (rows_of records))))
    else Raise TypeError.
Proof.
  intros H. unfold run_table. rewrite run_unfold.
  pose proof (score_subjects_at k data_json 0 [DataFrame_of records]
                (DataFrame_of records) (rows_of records) eq_refl eq_refl
                (numeric_answers_replace records H)) as Hat.
  destruct (forallb (storable k) (map replace_nan (rows_of records))).
  - rewrite Hat. reflexivity.
  - destruct (score_subjects k _ _) as [[l | e] h']; cbn in Hat; [discriminate |].
    injection Hat as ->. reflexivity.
Qed.







Lemma scored_lookup k rows i r :
  rows !! i = Some r -> range_index (map (scored k) rows) !! i = Some (i, scored k r).
Proof.
  intros Hr. rewrite range_index_lookup, list_lookup_fmap, Hr. reflexivity.
Qed.

Lemma scored_lookup_inv k rows i r' :
  range_index (map (scored k) rows) !! i = Some (i, r') ->
  exists r, rows !! i = Some r /\ r' = scored k r.
Proof.
  rewrite range_index_lookup, list_lookup_fmap.
  destruct (rows !! i) as [r |]; [| discriminate].
  cbn. intros [= <-]. eauto.
Qed.




(** ** correlate_gender_age *)

Lemma key_eqb_eq a b : key_eqb a b = true <-> a = b.
Proof.
  destruct a as [g1 b1], b as [g2 b2]. unfold key_eqb. cbn [fst snd].
  rewrite andb_true_iff, String.eqb_eq, Bool.eqb_true_iff.
  split; [intros [-> ->]; reflexivity | intros [= -> ->]; auto].
Qed.

Lemma string_compare_refl s : String.compare s s = Eq.
Proof.
  pose proof (String.compare_antisym s s) as H.
  destruct (String.compare s s); [reflexivity | discriminate | discriminate].
Qed.

Lemma string_compare_trans a b c :
  String.compare a b = Lt -> String.compare b c = Lt -> String.compare a c = Lt.
Proof.
  intros H1 H2. apply String_as_OT.cmp_lt.
  apply (String_as_OT.lt_trans a b c); apply String_as_OT.cmp_lt; assumption.
Qed.


Lemma key_lt_trans a b c : key_lt a b -> key_lt b c -> key_lt a c.
Proof.
  destruct a as [g1 b1], b as [g2 b2], c as [g3 b3]. unfold key_lt, key_ltb.
  cbn [fst snd].
  destruct (String.compare g1 g2) eqn:E12; try discriminate;
    destruct (String.compare g2 g3) eqn:E23; try discriminate; intros H1 H2.
  - apply String.compare_eq_iff in E12, E23. subst. rewrite string_compare_refl.
    destruct b1, b2, b3; try discriminate; reflexivity.
  - apply String.compare_eq_iff in E12. subst. rewrite E23. reflexivity.
  - apply String.compare_eq_iff in E23. subst. rewrite E12. reflexivity.
  - rewrite (string_compare_trans _ _ _ E12 E23). reflexivity.
Qed.

Lemma key_lt_total a b : key_eqb a b = false -> key_ltb a b = false -> key_lt b a.
Proof.
  destruct a as [g1 b1], b as [g2 b2]. unfold key_lt, key_ltb, key_eqb.
  cbn [fst snd]. rewrite (String.compare_antisym g2 g1).
  destruct (String.compare g1 g2) eqn:E; cbn [CompOpp]; intros H1 H2.
  - apply String.compare_eq_iff in E. subst. rewrite String.eqb_refl in H1.
    destruct b1, b2; try discriminate; reflexivity.
  - discriminate.
  - reflexivity.
Qed.

Lemma In_insert_key x k l : In x (insert_key k l) <-> x = k \/ In x l.
Proof.
  induction l as [| k' l IH]; cbn [insert_key]; [cbn; intuition |].
  destruct (key_eqb k k') eqn:E.
  - apply key_eqb_eq in E. subst. cbn. intuition.
  - destruct (key_ltb k k'); [cbn; intuition |].
    cbn [In]. rewrite IH. intuition.
Qed.

Lemma insert_key_sorted k l :
  StronglySorted key_lt l -> StronglySorted key_lt (insert_key k l).
Proof.
  induction 1 as [| k' l Hl IH Hk']; cbn [insert_key].
  - repeat constructor.
  - destruct (key_eqb k k') eqn:E; [constructor; assumption |].
    destruct (key_ltb k k') eqn:L.
    + constructor; [constructor; assumption |].
      constructor; [exact L |].
      eapply List.Forall_impl; [| exact Hk']. intros z Hz.
      exact (key_lt_trans _ _ _ L Hz).
    + constructor; [exact IH |].
      apply List.Forall_forall. intros z Hz.
      apply (proj1 (In_insert_key _ _ _)) in Hz.
      destruct Hz as [-> | Hz]; [exact (key_lt_total _ _ E L) |].
      exact (proj1 (List.Forall_forall _ _) Hk' z Hz).
Qed.

Lemma group_keys_sorted (df : Body) : StronglySorted key_lt (group_keys df).
Proof.
  induction df as [| lr df IH]; [constructor |].
  cbn [group_keys fold_right]. fold (group_keys df).
  destruct (group_key (snd lr)); [apply insert_key_sorted |]; exact IH.
Qed.


Lemma In_group_keys k (df : Body) :
  In k (group_keys df) <-> exists r, In r (map snd df) /\ group_key r = Some k.
Proof.
  induction df as [| lr df IH].
  - cbn. split; [contradiction | intros (r & [] & _)].
  - cbn [group_keys fold_right]. fold (group_keys df). cbn [map In].
    destruct (group_key (snd lr)) as [k' |] eqn:E.
    + rewrite In_insert_key, IH. split.
      * intros [-> | (r & Hr & Hk)]; eauto.
      * intros (r & [<- | Hr] & Hk); [left; congruence | eauto].
    + rewrite IH. split.
      * intros (r & Hr & Hk). eauto.
      * intros (r & [<- | Hr] & Hk); [congruence | eauto].
Qed.

Lemma age_value_replaced r :
  age_isna (age (replace_nan r)) = false ->
  exists x, age_value (age (replace_nan r)) = Some x.
Proof. destruct r as [[x | | | b] ? ? ? ? ? ? ? ? ? ? ?]; cbn; intros; eauto; discriminate. Qed.

Lemma over_40_flagged r :
  age_isna (age (replace_nan r)) = false ->
  over_40 (replace_nan r) = Ok (flagged (replace_nan r)).
Proof.
  intros H. destruct (age_value_replaced r H) as [x Hx].
  unfold over_40, flagged. rewrite Hx. reflexivity.
Qed.

Lemma Qltb_40 x : (if Qltb x 40 then false else true) = Qle_bool 40 x.
Proof. unfold Qltb. destruct (Qle_bool 40 x); reflexivity. Qed.

Lemma group_key_flagged r :
  group_key (flagged r)
  = match gender r, age_value (age r) with
    | Text g, Some x => Some (g, Qle_bool 40 x)
    | Text g, None => group_key r
    | TNaN, _ => None
    end.
Proof.
  unfold flagged, group_key. destruct (age_value (age r)) as [x |] eqn:E.
  - rewrite <- Qltb_40. destruct r as [a [] ? [] ? ? ? ? ? ? ? ?]; reflexivity.
  - destruct (gender r); reflexivity.
Qed.

Lemma in_group_flagged k r :
  (exists x, age_value (age r) = Some x) -> in_group k (flagged r) = member k r.
Proof.
  intros [x Hx]. unfold in_group, member. rewrite group_key_flagged, Hx.
  destruct (gender r); reflexivity.
Qed.

Lemma get_q_flagged q r : get_q q (flagged r) = get_q q r.
Proof. unfold flagged. destruct (age_value (age r)); destruct q; reflexivity. Qed.

Lemma clean_flagged r : clean r -> clean (flagged r).
Proof. intros H q. rewrite get_q_flagged. apply H. Qed.

Lemma sequence_res_ok {A B} (f : A -> B) l :
  sequence_res (map (fun a => Ok (f a)) l) = Ok (map f l).
Proof. induction l as [| a l IH]; cbn; [| rewrite IH]; reflexivity. Qed.

Lemma group_mean_clean rs q :
  Forall clean rs ->
  group_mean 8 rs q
  = Ok (round_num 8 (of_float (kahan_mean (numbers (map (get_q q) rs))))).
Proof.
  intros H. unfold group_mean. rewrite present_numbers; [reflexivity |].
  apply List.Forall_map. eapply List.Forall_impl; [| exact H]. intros r Hr. apply Hr.
Qed.

Lemma groupby_mean_clean cs (b : Body) :
  dtype_of cs L_gender <> None ->
  dtype_of cs L_age <> None ->
  numeric_questions cs ->
  Forall clean (map snd b) ->
  groupby_mean (mkDataFrame cs b)
  = Ok (map (fun k => (k, group_means (List.filter (in_group k) (map snd b))))
            (group_keys b)).
Proof.
  intros Hg Ha Hnum H. unfold groupby_mean.
  rewrite (getitem_list_ok [L_gender; L_age] (mkDataFrame cs b)
             ltac:(repeat constructor; assumption)).
  cbn [dtypes body].
  assert (Hall : forallb (fun q => is_number (dtype_of cs (L_q q))) questions = true).
  { apply forallb_forall. intros q _. rewrite Hnum. reflexivity. }
  rewrite Hall, <- sequence_res_ok. f_equal.
  apply map_ext. intros k.
  assert (Hm : Forall clean (List.filter (in_group k) (map snd b))).
  { apply List.Forall_forall. intros r Hr. apply List.filter_In in Hr.
    exact (proj1 (List.Forall_forall _ _) H r (proj1 Hr)). }
  rewrite (map_ext (group_mean 8 _) _ (fun q => group_mean_clean _ q Hm)).
  rewrite sequence_res_ok. reflexivity.
Qed.

Lemma dtype_of_set_dtype c d cs c' :
  dtype_of (set_dtype c d cs) c' = if label_eqb c c' then d else dtype_of cs c'.
Proof. unfold set_dtype. apply dtype_of_columns_of. Qed.

Lemma dropna_age_ok cs (b : Body) :
  dtype_of cs L_age <> None ->
  dropna_age (mkDataFrame cs b)
  = Ok (mkDataFrame cs
          (range_index (List.filter (fun r => negb (age_isna (age r))) (map snd b)))).
Proof.
  intros Ha. unfold dropna_age, getitem. cbn [dtypes].
  destruct (dtype_of cs L_age); [| contradiction].
  unfold on_body, reset_index. cbn [dtypes body]. rewrite getitem_mask_rows. reflexivity.
Qed.

Lemma apply_over_40_ok cs rows :
  dtype_of cs L_age <> None ->
  Forall (fun r => over_40 r = Ok (flagged r)) rows ->
  exists cs',
    apply_over_40 (mkDataFrame cs (range_index rows))
    = Ok (mkDataFrame cs' (range_index (map flagged rows)))
    /\ dtype_of cs' L_age <> None
    /\ (forall c, c <> L_age -> dtype_of cs' c = dtype_of cs c).
Proof.
  intros Ha Hover. unfold apply_over_40, getitem. cbn [dtypes body].
  destruct (dtype_of cs L_age) as [da |] eqn:Ea; [| contradiction].
  rewrite (map_rows_res_total over_40 flagged)
    by (apply (Forall_range_index (fun r => over_40 r = Ok (flagged r))), Hover).
  rewrite range_index_map.
  destruct rows as [| r rows].
  - exists cs. split; [reflexivity |]. split; [rewrite Ea; discriminate | reflexivity].
  - exists (set_dtype L_age (Some Boolean) cs). split; [reflexivity |]. split.
    + rewrite dtype_of_set_dtype. cbn. discriminate.
    + intros c Hc. rewrite dtype_of_set_dtype.
      destruct (label_eqb L_age c) eqn:E; [| reflexivity].
      apply label_eqb_eq in E. congruence.
Qed.

Lemma filter_map_commute {A B} (f : A -> B) (p : B -> bool) (q : A -> bool) l :
  (forall a, In a l -> p (f a) = q a) ->
  List.filter p (map f l) = map f (List.filter q l).
Proof.
  induction l as [| a l IH]; intros H; [reflexivity |].
  cbn. rewrite (H a (or_introl eq_refl)), IH by (intros b Hb; apply H; right; exact Hb).
  destruct (q a); reflexivity.
Qed.

Lemma filter_absorb {A} (p q : A -> bool) l :
  (forall a, q a = true -> p a = true) ->
  List.filter q (List.filter p l) = List.filter q l.
Proof.
  intros H. induction l as [| a l IH]; [reflexivity |].
  cbn. destruct (p a) eqn:Ep; cbn; rewrite IH; [reflexivity |].
  destruct (q a) eqn:Eq; [| reflexivity].
  rewrite (H a Eq) in Ep. discriminate.
Qed.

Lemma group_means_flagged rs : group_means (map flagged rs) = group_means rs.
Proof.
  unfold group_means. apply map_ext. intros q. rewrite map_map.
  rewrite (map_ext (fun r => get_q q (flagged r)) (get_q q) (get_q_flagged q)).
  reflexivity.
Qed.

Lemma member_has_age k r : member k r = true -> negb (age_isna (age r)) = true.
Proof.
  unfold member. destruct (gender r); [| discriminate].
  destruct (age r); cbn; intros; try reflexivity; discriminate.
Qed.

Lemma grouped_members k rows :
  group_means (List.filter (in_group k) (grouped_rows rows))
  = group_means (members k rows).
Proof.
  unfold grouped_rows, members.
  rewrite (filter_map_commute flagged (in_group k) (member k)).
  - rewrite group_means_flagged, filter_absorb; [reflexivity |].
    intros r. apply member_has_age.
  - intros r Hr. apply List.filter_In in Hr. destruct Hr as [Hin Hage].
    apply in_map_iff in Hin. destruct Hin as (r0 & <- & _).
    apply in_group_flagged, age_value_replaced, negb_true_iff, Hage.
Qed.

(** What the method returns for the table behind [self.data], in any store,
    when the table after [replace] has the columns age and gender and numeric
    question columns. *)
Lemma correlate_gender_age_at name (d : loc) (h : store) (t : DataFrame) rows :
  h !! d = Some t ->
  body t = range_index rows ->
  dtype_of (dtypes (replace t)) L_age <> None ->
  dtype_of (dtypes (replace t)) L_gender <> None ->
  numeric_questions (dtypes (replace t)) ->
  fst (correlate_gender_age (mkQA name (Some d)) h) = Ok (groups rows).
Proof.
  intros Hd Hbody Ha Hg Hnum.
  set (cs := dtypes (replace t)) in *.
  assert (Ht1 : replace t = mkDataFrame cs (range_index (map replace_nan rows))).
  { unfold cs, replace. cbn [dtypes]. rewrite Hbody, range_index_map. reflexivity. }
  set (kept_rows := List.filter (fun r => negb (age_isna (age r))) (map replace_nan rows)).
  assert (Hover : Forall (fun r => over_40 r = Ok (flagged r)) kept_rows).
  { apply List.Forall_forall. intros r Hr. apply List.filter_In in Hr.
    destruct Hr as [Hin Hage]. apply in_map_iff in Hin. destruct Hin as (r0 & <- & _).
    apply over_40_flagged. apply negb_true_iff. exact Hage. }
  destruct (apply_over_40_ok cs kept_rows Ha Hover) as (cs' & Happly & Ha' & Hsame).
  assert (Hins : forall (h0 : store) (x y : DataFrame),
            <[length h0 := y]> (h0 ++ [x]) = h0 ++ [y]).
  { intros h0 x y. rewrite insert_app_r_alt by lia. rewrite Nat.sub_diag. reflexivity. }
  unfold correlate_gender_age, pd_DataFrame. cbn [data].
  unfold bind at 1. cbn [ret].
  rewrite (bind_derive_run _ _ _ _ _ Hd), Ht1.
  rewrite (bind_derive_res_run _ _ _ _ _ _ (lookup_snoc _ _) (dropna_age_ok cs _ Ha)).
  rewrite range_index_rows. fold kept_rows.
  unfold bind at 1.
  rewrite (assign_res_run _ _ _ _ _ (lookup_snoc _ _) Happly), Hins.
  unfold bind, deref, lift. rewrite lookup_snoc. cbn [fst].
  rewrite groupby_mean_clean.
  - rewrite range_index_rows. unfold groups.
    change (map flagged kept_rows) with (grouped_rows rows).
    f_equal. apply map_ext. intros k. rewrite grouped_members. reflexivity.
  - rewrite Hsame by discriminate. exact Hg.
  - exact Ha'.
  - intros q. rewrite Hsame by discriminate. apply Hnum.
  - rewrite range_index_rows. apply List.Forall_map, List.Forall_forall. intros r Hr.
    apply List.filter_In in Hr. destruct Hr as [Hin _].
    apply in_map_iff in Hin. destruct Hin as (r0 & <- & _).
    apply clean_flagged, clean_replace_nan.
Qed.

Lemma groupable_columns records :
  groupable records = true ->
  dtype_of (dtypes (replace (DataFrame_of records))) L_age <> None
  /\ dtype_of (dtypes (replace (DataFrame_of records))) L_gender <> None
  /\ numeric_questions (dtypes (replace (DataFrame_of records))).
Proof.
  unfold groupable. rewrite !andb_true_iff. intros [[Ha Hg] Hn].
  rewrite !dtype_of_replace, !replace_dtype_None.
  split; [apply has_column_dtype, Ha |].
  split; [apply has_column_dtype, Hg | apply numeric_answers_replace, Hn].
Qed.

Lemma correlate_gender_age_run records :
  groupable records = true ->
  fst (run records correlate_gender_age) = Ok (groups (rows_of records)).
Proof.
  intros H. destruct (groupable_columns records H) as (Ha & Hg & Hn).
  rewrite run_unfold.
  apply (correlate_gender_age_at data_json 0 [DataFrame_of records] _ _
           eq_refl eq_refl Ha Hg Hn).
Qed.

Lemma In_grouped_keys rows g b :
  In (g, b) (group_keys (range_index (grouped_rows rows)))
  <-> exists r x,
        In r rows
        /\ gender (replace_nan r) = Text g
        /\ age_value (age (replace_nan r)) = Some x
        /\ b = Qle_bool 40 x.
Proof.
  rewrite In_group_keys, range_index_rows. unfold grouped_rows. split.
  - intros (r' & Hr' & Hk). apply in_map_iff in Hr'. destruct Hr' as (r1 & <- & Hr1).
    apply List.filter_In in Hr1. destruct Hr1 as [Hin Hage].
    apply in_map_iff in Hin. destruct Hin as (r & <- & Hr).
    apply negb_true_iff in Hage. destruct (age_value_replaced r Hage) as [x Hx].
    rewrite group_key_flagged, Hx in Hk.
    destruct (gender (replace_nan r)) as [g' |] eqn:Eg; [| discriminate].
    injection Hk as <- <-. exists r, x. auto.
  - intros (r & x & Hr & Hg & Hx & ->). exists (flagged (replace_nan r)). split.
    + apply in_map, List.filter_In. split; [apply in_map, Hr |].
      destruct (age (replace_nan r)); cbn in *; try reflexivity; discriminate.
    + rewrite group_key_flagged, Hg, Hx. reflexivity.
Qed.

Lemma groups_keys rows :
  map fst (groups rows) = group_keys (range_index (grouped_rows rows)).
Proof. unfold groups. rewrite map_map. apply map_id. Qed.




(** * Further properties of the methods *)

(** ** show_age_distrib, further *)

Lemma forallb_Permutation {A} (p : A -> bool) l1 l2 :
  Permutation l1 l2 -> forallb p l1 = forallb p l2.
Proof.
  induction 1 as [| a l1 l2 _ IH | a b l | l1 l2 l3 _ IH1 _ IH2]; cbn.
  - reflexivity.
  - rewrite IH. reflexivity.
  - destruct (p a), (p b); reflexivity.
  - congruence.
Qed.

Lemma existsb_Permutation {A} (p : A -> bool) l1 l2 :
  Permutation l1 l2 -> existsb p l1 = existsb p l2.
Proof.
  induction 1 as [| a l1 l2 _ IH | a b l | l1 l2 l3 _ IH1 _ IH2]; cbn.
  - reflexivity.
  - rewrite IH. reflexivity.
  - destruct (p a), (p b); reflexivity.
  - congruence.
Qed.

Lemma infer_dtype_Permutation kinds kinds' :
  Permutation kinds kinds' -> infer_dtype kinds = infer_dtype kinds'.
Proof.
  intros H. unfold infer_dtype.
  rewrite (forallb_Permutation is_absent _ _ H), (existsb_Permutation is_string _ _ H),
    (forallb_Permutation is_null _ _ H).
  reflexivity.
Qed.

Lemma has_column_Permutation c records records' :
  Permutation records records' -> has_column c records = has_column c records'.
Proof.
  intros H. unfold has_column, DataFrame_of. cbn [dtypes].
  rewrite !dtype_of_columns_of.
  rewrite (infer_dtype_Permutation (map (kind_of c) records) (map (kind_of c) records'))
    by (apply Permutation_map, H).
  reflexivity.
Qed.

(** X4. The histogram does not depend on the order of the rows in the file
    (the sort of line 38 has no effect on what is returned). *)
Theorem show_age_distrib_order (records records' : list json_object) :
  Permutation records records' ->
  fst (run records show_age_distrib) = fst (run records' show_age_distrib).
Proof.
  intros Hperm. rewrite !show_age_distrib_run.
  rewrite (has_column_Permutation L_age records records' Hperm).
  destruct (has_column L_age records'); [| reflexivity].
  unfold histogram. do 2 f_equal.
  apply map_ext. intros k. do 2 f_equal.
  apply count_Permutation. unfold ages, rows_of. apply Permutation_map, Permutation_map, Hperm.
Qed.

Lemma show_age_distrib_order_witness :
  Permutation [centenarian; blank; leading_dot] [blank; leading_dot; centenarian]
  /\ fst (run [centenarian; blank; leading_dot] show_age_distrib)
     = fst (run [blank; leading_dot; centenarian] show_age_distrib).
Proof.
  assert (H : Permutation [centenarian; blank; leading_dot]
                          [blank; leading_dot; centenarian]).
  { apply (Permutation_cons_append [blank; leading_dot] centenarian). }
  split; [exact H |].
  apply (show_age_distrib_order _ _ H).
Defined.


Lemma add_counts_map (f1 f2 : nat -> nat) ks :
  add_counts (map (fun k => Some (Z.of_nat (f1 k))) ks)
             (map (fun k => Some (Z.of_nat (f2 k))) ks)
  = map (fun k => Some (Z.of_nat (f1 k + f2 k))) ks.
Proof.
  unfold add_counts. induction ks as [| k ks IH]; [reflexivity |].
  cbn [map zip_with]. rewrite IH, Nat2Z.inj_add. reflexivity.
Qed.

Lemma infer_dtype_app kinds1 kinds2 :
  infer_dtype kinds1 <> None -> infer_dtype (kinds1 ++ kinds2) <> None.
Proof.
  unfold infer_dtype. rewrite forallb_app.
  destruct (forallb is_absent kinds1); [congruence |]. cbn [andb]. intros _.
  destruct (existsb is_string (kinds1 ++ kinds2)); [discriminate |].
  destruct (forallb is_null (kinds1 ++ kinds2)); discriminate.
Qed.

Lemma has_column_app c records1 records2 :
  has_column c records1 = true -> has_column c (records1 ++ records2) = true.
Proof.
  unfold has_column, DataFrame_of. cbn [dtypes]. rewrite !dtype_of_columns_of, map_app.
  intros H.
  pose proof (infer_dtype_app (map (kind_of c) records1) (map (kind_of c) records2)) as Happ.
  destruct (infer_dtype (map (kind_of c) records1)); [| discriminate].
  destruct (infer_dtype (map (kind_of c) records1 ++ map (kind_of c) records2));
    [reflexivity | exfalso; apply Happ; [discriminate | reflexivity]].
Qed.

(** X3. The histogram of two files put together, each with an age column, is
    the sum, bin by bin, of their histograms; the bin edges are the same for
    every file. *)
Theorem show_age_distrib_append (records1 records2 : list json_object) :
  has_column L_age records1 = true ->
  has_column L_age records2 = true ->
  exists hist1 hist2 bins,
    fst (run records1 show_age_distrib) = Ok (hist1, bins)
    /\ fst (run records2 show_age_distrib) = Ok (hist2, bins)
    /\ fst (run (records1 ++ records2) show_age_distrib)
       = Ok (add_counts hist1 hist2, bins).
Proof.
  intros H1 H2. eexists _, _, _. rewrite !show_age_distrib_run.
  rewrite H1, H2, (has_column_app L_age records1 records2 H1).
  split; [reflexivity |]. split; [reflexivity |].
  unfold histogram. rewrite add_counts_map. do 2 f_equal. apply map_ext. intros k.
  unfold ages, rows_of. rewrite !map_app, count_app. reflexivity.
Qed.

Lemma show_age_distrib_append_witness :
  has_column L_age [centenarian; blank] = true
  /\ has_column L_age [leading_dot] = true
  /\ exists hist1 hist2 bins,
       fst (run [centenarian; blank] show_age_distrib) = Ok (hist1, bins)
       /\ fst (run [leading_dot] show_age_distrib) = Ok (hist2, bins)
       /\ fst (run ([centenarian; blank] ++ [leading_dot]) show_age_distrib)
          = Ok (add_counts hist1 hist2, bins).
Proof.
  split; [reflexivity |]. split; [reflexivity |].
  apply (show_age_distrib_append [centenarian; blank] [leading_dot]); reflexivity.
Defined.

(** X5. On a file with an age column, no bin counts more rows than the file
    has, and the ten counts together never exceed the number of rows with a
    non-missing age. *)
Theorem show_age_distrib_bounds (records : list json_object) :
  has_column L_age records = true ->
  exists hist bins,
    fst (run records show_age_distrib) = Ok (hist, bins)
    /\ length hist = 10
    /\ length bins = 11
    /\ Forall (fun o => exists c, o = Some c /\ (0 <= c <= Z.of_nat (length records))%Z) hist
    /\ (hist_total hist <= Z.of_nat (count has_age (ages records)))%Z
    /\ count has_age (ages records) <= length records.
Proof.
  intros Hage. eexists _, _. split; [rewrite show_age_distrib_run, Hage; reflexivity |].
  assert (Hlen : length (ages records) = length records).
  { unfold ages, rows_of. rewrite !length_map. reflexivity. }
  split; [reflexivity |]. split; [reflexivity |]. split_and!.
  - apply List.Forall_map, List.Forall_forall. intros k _. eexists. split; [reflexivity |].
    pose proof (count_le_length (in_bin k) (ages records)) as H. lia.
  - rewrite <- (map_map (fun k => count (in_bin k) (ages records))
                        (fun c => Some (Z.of_nat c))).
    rewrite hist_total_counts, bin_counts_sum. apply inj_le.
    clear Hlen. unfold count. induction (ages records) as [| c l IH]; [reflexivity |].
    cbn [List.filter]. pose proof (binned_has_age c) as Hb.
    destruct (binned c) eqn:Eb.
    + rewrite (Hb eq_refl). cbn [length]. lia.
    + destruct (has_age c); cbn [length]; lia.
  - pose proof (count_le_length has_age (ages records)) as H. lia.
Qed.

Lemma show_age_distrib_bounds_witness :
  has_column L_age [centenarian; leading_dot; blank] = true
  /\ exists hist bins,
       fst (run [centenarian; leading_dot; blank] show_age_distrib) = Ok (hist, bins)
       /\ length hist = 10
       /\ length bins = 11
       /\ Forall (fun o => exists c, o = Some c
                    /\ (0 <= c <= Z.of_nat (length [centenarian; leading_dot; blank]))%Z) hist
       /\ (hist_total hist
           <= Z.of_nat (count has_age (ages [centenarian; leading_dot; blank])))%Z
       /\ count has_age (ages [centenarian; leading_dot; blank])
          <= length [centenarian; leading_dot; blank].
Proof.
  split; [reflexivity |].
  apply (show_age_distrib_bounds [centenarian; leading_dot; blank]). reflexivity.
Defined.
(** ** remove_rows_without_mail, further *)

(** X7. The six tests, in terms of the characters of the address: a row is
    kept exactly when its address is a string with one "@", at least one ".",
    no "@." anywhere, no "@" in front and no backslash-dot in front. *)
Theorem kept_iff (r : Row) :
  kept r = true
  <-> exists s, email r = Text s
        /\ count_char "@" s = 1
        /\ 1 <= count_char "." s
        /\ has_substring "@." s = false
        /\ String.prefix "@" s = false
        /\ String.prefix "\." s = false.
Proof.
  split; [apply kept_email |].
  intros (s & Hs & H1 & H2 & H3 & H4 & H5).
  unfold kept. rewrite Hs. cbn [str_contains str_startswith str_count eq_count].
  change (re_compile "@") with [Lit "@"%char].
  change (re_compile "\.") with [Lit "."%char].
  change (re_compile "@\.") with [Lit "@"%char; Lit "."%char].
  rewrite re_count_char, !re_search_char, re_search_two, H1, H3, H4, H5.
  destruct (count_char "." s); [lia | reflexivity].
Qed.

Lemma remove_rows_without_mail_table records :
  email_strings records = true ->
  run_table records remove_rows_without_mail
  = Ok (mkDataFrame (dtypes (DataFrame_of records))
          (range_index (List.filter kept (rows_of records)))).
Proof.
  intros He. unfold run_table. rewrite run_unfold.
  assert (He' : c_email (dtypes (DataFrame_of records)) = Some Object).
  { unfold email_strings in He.
    destruct (c_email (dtypes (DataFrame_of records))) as [[] |]; congruence. }
  destruct (remove_rows_without_mail_run data_json 0 [DataFrame_of records]
              (DataFrame_of records) eq_refl He') as (h & Hrun & Hout & _).
  rewrite Hrun, Hout. unfold on_body. rewrite valid_rows_eq. cbn [body DataFrame_of].
  rewrite range_index_rows. reflexivity.
Qed.

Lemma filter_all {A} (p : A -> bool) l :
  Forall (fun a => p a = true) l -> List.filter p l = l.
Proof.
  induction 1 as [| a l Ha _ IH]; [reflexivity |]. cbn. rewrite Ha, IH. reflexivity.
Qed.

(** X6. When the email column of the loaded table holds strings, the table
    returned holds exactly the rows that pass the six tests, in their order in
    the file and with their cells untouched, under the labels 0..n-1; when
    every row passes, it equals the loaded table. *)
Theorem remove_rows_without_mail_result (records : list json_object) :
  email_strings records = true ->
  exists t,
    run_table records remove_rows_without_mail = Ok t
    /\ dtypes t = dtypes (DataFrame_of records)
    /\ map snd (body t) = List.filter kept (rows_of records)
    /\ map fst (body t) = seq 0 (length (body t))
    /\ length (body t) <= length records
    /\ (forall r, In r (map snd (body t)) <-> In r (rows_of records) /\ kept r = true)
    /\ (Forall (fun r => kept r = true) (rows_of records) -> t = DataFrame_of records).
Proof.
  intros He. eexists. split; [apply (remove_rows_without_mail_table records He) |].
  cbn [dtypes body].
  split; [reflexivity |].
  split; [apply range_index_rows |].
  split; [rewrite range_index_labels, range_index_length; reflexivity |].
  split.
  { rewrite range_index_length. etransitivity; [apply List.filter_length_le |].
    unfold rows_of. rewrite length_map. reflexivity. }
  split.
  - intros r. rewrite range_index_rows. apply List.filter_In.
  - intros Hall. rewrite (filter_all kept _ Hall). reflexivity.
Qed.

Lemma remove_rows_without_mail_result_witness :
  email_strings [leading_dot; centenarian; blank] = true
  /\ exists t,
       run_table [leading_dot; centenarian; blank] remove_rows_without_mail = Ok t
       /\ dtypes t = dtypes (DataFrame_of [leading_dot; centenarian; blank])
       /\ map snd (body t) = List.filter kept (rows_of [leading_dot; centenarian; blank])
       /\ map fst (body t) = seq 0 (length (body t))
       /\ length (body t) <= length [leading_dot; centenarian; blank]
       /\ (forall r, In r (map snd (body t))
                     <-> In r (rows_of [leading_dot; centenarian; blank]) /\ kept r = true)
       /\ (Forall (fun r => kept r = true) (rows_of [leading_dot; centenarian; blank]) ->
           t = DataFrame_of [leading_dot; centenarian; blank]).
Proof.
  split; [reflexivity |].
  apply (remove_rows_without_mail_result [leading_dot; centenarian; blank]). reflexivity.
Defined.

(** ** fill_na_with_mean, further *)

Lemma get_q_impute_present q q' r :
  isna (get_q q r) = false -> get_q q (impute q' r) = get_q q r.
Proof.
  intros H. destruct (question_eqb q' q) eqn:E.
  - apply question_eqb_eq in E. subst q'. rewrite (impute_present q r H). reflexivity.
  - apply impute_other. intros ->. destruct q'; discriminate.
Qed.

Lemma get_q_rounded d q r : get_q q (rounded d r) = round_num d (get_q q r).
Proof. destruct q; reflexivity. Qed.

Lemma get_q_set_score q s r : get_q q (set_score s r) = get_q q r.
Proof. destruct q; reflexivity. Qed.

Lemma get_q_impute_row_present q r x :
  get_q q (replace_nan r) = Num x -> get_q q (impute_row r) = round_num 2 (Num x).
Proof.
  intros H. unfold impute_row.
  rewrite get_q_set_score, get_q_rounded.
  assert (Hq : forall r', get_q q r' = Num x -> forall q', get_q q (impute q' r') = Num x).
  { intros r' Hr' q'. rewrite get_q_impute_present; [exact Hr' |]. rewrite Hr'. reflexivity. }
  rewrite (Hq _ (Hq _ (Hq _ (Hq _ (Hq _ H Q1) Q2) Q3) Q4) Q5). reflexivity.
Qed.

Lemma run_fill_lookup records i r :
  rows_of records !! i = Some r ->
  body (mkDataFrame (dtypes (replace (DataFrame_of records)))
          (range_index (map impute_row (rows_of records)))) !! i
  = Some (i, impute_row r).
Proof.
  intros Hr. cbn [body]. rewrite range_index_lookup, list_lookup_fmap, Hr. reflexivity.
Qed.

(** X8. An answer that is present is never replaced: in the returned table it
    is the answer of the file rounded to 2 decimals, whatever the other fields
    of the row are.  The rounding is numpy's, on the float: 1.015 becomes
    1.01, and 2.675 becomes 2.68. *)
Theorem fill_na_with_mean_keeps_answers (records : list json_object) :
  fillable records = true ->
  exists (t : DataFrame) (arr : list nat),
    run_fill records = Ok (t, arr)
    /\ (forall i r q x,
          rows_of records !! i = Some r ->
          get_q q (replace_nan r) = Num x ->
          exists r', body t !! i = Some (i, r')
                     /\ get_q q r' = of_float (np_round 2 x))
    /\ of_float (np_round 2 1.015) = Num 1.01
    /\ of_float (np_round 2 2.675) = Num 2.68.
Proof.
  intros H. eexists _, _. split; [apply (run_fill_table records H) |].
  split; [| split; vm_compute; reflexivity].
  intros i r q x Hr Hx. exists (impute_row r).
  split; [apply run_fill_lookup, Hr | apply get_q_impute_row_present, Hx].
Qed.

Lemma fill_na_with_mean_keeps_answers_witness :
  fillable sample = true
  /\ exists (t : DataFrame) (arr : list nat),
       run_fill sample = Ok (t, arr)
       /\ (forall i r q x,
             rows_of sample !! i = Some r ->
             get_q q (replace_nan r) = Num x ->
             exists r', body t !! i = Some (i, r')
                        /\ get_q q r' = of_float (np_round 2 x))
       /\ of_float (np_round 2 1.015) = Num 1.01
       /\ of_float (np_round 2 2.675) = Num 2.68.
Proof.
  split; [reflexivity |].
  apply (fill_na_with_mean_keeps_answers sample). reflexivity.
Defined.

Lemma impute_columns q r :
  age (impute q r) = age r /\ email (impute q r) = email r
  /\ first_name (impute q r) = first_name r /\ gender (impute q r) = gender r
  /\ id_ (impute q r) = id_ r /\ last_name (impute q r) = last_name r
  /\ score (impute q r) = score r.
Proof.
  unfold impute, fill. destruct (isna (get_q q r)); destruct q; repeat split.
Qed.

Lemma impute_row_columns r :
  age (impute_row r) = replace_age (age r)
  /\ email (impute_row r) = replace_txt (email r)
  /\ first_name (impute_row r) = replace_txt (first_name r)
  /\ gender (impute_row r) = replace_txt (gender r)
  /\ id_ (impute_row r) = replace_num (id_ r)
  /\ last_name (impute_row r) = replace_txt (last_name r)
  /\ score (impute_row r) = None.
Proof.
  unfold impute_row.
  set (r1 := impute Q1 (replace_nan r)). set (r2 := impute Q2 r1).
  set (r3 := impute Q3 r2). set (r4 := impute Q4 r3). set (r5 := impute Q5 r4).
  destruct (impute_columns Q1 (replace_nan r)) as (A1 & B1 & C1 & D1 & E1 & F1 & _).
  destruct (impute_columns Q2 r1) as (A2 & B2 & C2 & D2 & E2 & F2 & _).
  destruct (impute_columns Q3 r2) as (A3 & B3 & C3 & D3 & E3 & F3 & _).
  destruct (impute_columns Q4 r3) as (A4 & B4 & C4 & D4 & E4 & F4 & _).
  destruct (impute_columns Q5 r4) as (A5 & B5 & C5 & D5 & E5 & F5 & _).
  fold r1 in A1, B1, C1, D1, E1, F1. fold r2 in A2, B2, C2, D2, E2, F2.
  fold r3 in A3, B3, C3, D3, E3, F3. fold r4 in A4, B4, C4, D4, E4, F4.
  fold r5 in A5, B5, C5, D5, E5, F5.
  cbn [set_score rounded age email first_name gender id_ last_name score].
  rewrite A5, A4, A3, A2, A1, B5, B4, B3, B2, B1, C5, C4, C3, C2, C1,
    D5, D4, D3, D2, D1, E5, E4, E3, E2, E1, F5, F4, F3, F2, F1.
  repeat split.
Qed.

(** X9. On a file that gives the table its eleven columns, the question
    columns numeric, the returned table has one row per object of the file,
    under the labels 0..n-1, and outside q1..q5 a row differs from the file
    only by the replacement of the text "nan" with the missing value; it has
    no [score] column. *)
Theorem fill_na_with_mean_other_columns (records : list json_object) :
  fillable records = true ->
  exists (t : DataFrame) (arr : list nat),
    run_fill records = Ok (t, arr)
    /\ map fst (body t) = seq 0 (length records)
    /\ (forall i r,
          rows_of records !! i = Some r ->
          exists r',
            body t !! i = Some (i, r')
            /\ age r' = replace_age (age r)
            /\ email r' = replace_txt (email r)
            /\ first_name r' = replace_txt (first_name r)
            /\ gender r' = replace_txt (gender r)
            /\ id_ r' = replace_num (id_ r)
            /\ last_name r' = replace_txt (last_name r)
            /\ score r' = None).
Proof.
  intros H. eexists _, _. split; [apply (run_fill_table records H) |].
  split.
  { cbn [body]. unfold rows_of. rewrite range_index_labels, !length_map. reflexivity. }
  intros i r Hr. exists (impute_row r).
  split; [apply run_fill_lookup, Hr | apply impute_row_columns].
Qed.

Lemma fill_na_with_mean_other_columns_witness :
  fillable sample = true
  /\ exists (t : DataFrame) (arr : list nat),
       run_fill sample = Ok (t, arr)
       /\ map fst (body t) = seq 0 (length sample)
       /\ (forall i r,
             rows_of sample !! i = Some r ->
             exists r',
               body t !! i = Some (i, r')
               /\ age r' = replace_age (age r)
               /\ email r' = replace_txt (email r)
               /\ first_name r' = replace_txt (first_name r)
               /\ gender r' = replace_txt (gender r)
               /\ id_ r' = replace_num (id_ r)
               /\ last_name r' = replace_txt (last_name r)
               /\ score r' = None).
Proof.
  split; [reflexivity |].
  apply (fill_na_with_mean_other_columns sample). reflexivity.
Defined.

(** X11. Every entry of the returned array is the position of a row of the
    file, so the array is no longer than the file; it is empty when no
    question field is missing. *)
Theorem fill_na_with_mean_index_bounds (records : list json_object) :
  fillable records = true ->
  exists (t : DataFrame) (arr : list nat),
    run_fill records = Ok (t, arr)
    /\ Forall (fun i => i < length records) arr
    /\ length arr <= length records
    /\ (Forall (fun r => forall q, isna (get_q q (replace_nan r)) = false)
               (rows_of records) ->
        arr = []).
Proof.
  intros H. eexists _, _. split; [apply (run_fill_table records H) |].
  assert (Hlen : length (rows_of records) = length records)
    by (unfold rows_of; apply length_map).
  assert (Hbound : Forall (fun i => i < length records)
                          (imputed_indices (rows_of records))).
  { apply List.Forall_forall. intros i Hi.
    apply (proj1 (In_imputed_indices _ i)) in Hi. destruct Hi as (r & Hr & _).
    rewrite <- Hlen. eapply lookup_lt_Some, Hr. }
  split; [exact Hbound |]. split.
  - apply (Nat.le_trans _ (length (seq 0 (length records))));
      [| rewrite List.length_seq; reflexivity].
    apply List.NoDup_incl_length.
    + apply strictly_sorted_NoDup, np_unique_sorted.
    + intros i Hi. apply in_seq.
      pose proof (proj1 (List.Forall_forall _ _) Hbound i Hi) as Hlt.
      cbn beta in Hlt. lia.
  - intros Hall. destruct (imputed_indices (rows_of records)) as [| i l] eqn:E;
      [reflexivity |].
    assert (Hi : In i (imputed_indices (rows_of records)))
      by (rewrite E; left; reflexivity).
    apply (proj1 (In_imputed_indices _ i)) in Hi.
    destruct Hi as (r & Hr & q & Hq).
    apply list_elem_of_lookup_2, list_elem_of_In in Hr.
    rewrite (proj1 (List.Forall_forall _ _) Hall r Hr q) in Hq. discriminate.
Qed.

Lemma fill_na_with_mean_index_bounds_witness :
  fillable sample = true
  /\ exists (t : DataFrame) (arr : list nat),
       run_fill sample = Ok (t, arr)
       /\ Forall (fun i => i < length sample) arr
       /\ length arr <= length sample
       /\ (Forall (fun r => forall q, isna (get_q q (replace_nan r)) = false)
                  (rows_of sample) ->
           arr = []).
Proof.
  split; [reflexivity |].
  apply (fill_na_with_mean_index_bounds sample). reflexivity.
Defined.

(** ** score_subjects, further *)

Lemma subject_score_mono k k' r :
  (k <= k')%Z ->
  subject_score k r = SNA \/ subject_score k r = subject_score k' r.
Proof.
  intros Hk. unfold subject_score.
  destruct (Z.ltb_spec (Z.of_nat (count_present r)) (5 - k)) as [H | H];
    [left; reflexivity |].
  right. destruct (Z.ltb_spec (Z.of_nat (count_present r)) (5 - k')) as [H' | H'];
    [lia | reflexivity].
Qed.

Lemma storable_mono k k' r : (k <= k')%Z -> storable k' r = true -> storable k r = true.
Proof.
  intros Hk. unfold storable. destruct (subject_score_mono k k' r Hk) as [-> | ->]; auto.
Qed.

(** X12. Allowing more missing answers only fills in scores: on a file whose
    question columns are numeric, when the method returns with a threshold it
    also returns with every smaller one, on the same rows, and each score of
    the smaller threshold is either missing or the score of the larger one. *)
Theorem score_subjects_threshold_monotone (k k' : Z) (records : list json_object)
    (t' : DataFrame) :
  (k <= k')%Z ->
  numeric_answers records = true ->
  run_table records (score_subjects k') = Ok t' ->
  exists t,
    run_table records (score_subjects k) = Ok t
    /\ length (body t) = length (body t')
    /\ (forall i r,
          body t !! i = Some (i, r) ->
          exists r',
            body t' !! i = Some (i, r')
            /\ set_score None r = set_score None r'
            /\ (score r = Some SNA \/ score r = score r')).
Proof.
  intros Hk Hnum. rewrite !(score_subjects_run _ records Hnum).
  destruct (forallb (storable k') (map replace_nan (rows_of records))) eqn:E';
    [| discriminate].
  intros [= <-].
  assert (E : forallb (storable k) (map replace_nan (rows_of records)) = true).
  { rewrite forallb_forall in *. intros r Hr. apply (storable_mono k k' r Hk), E', Hr. }
  rewrite E. eexists. split; [reflexivity |]. cbn [body].
  split; [rewrite !range_index_length, !length_map; reflexivity |].
  intros i r Hi. apply scored_lookup_inv in Hi. destruct Hi as (r0 & Hr0 & ->).
  exists (scored k' r0). split; [apply scored_lookup, Hr0 |].
  split; [destruct r0; reflexivity |].
  unfold scored.
  destruct (subject_score_mono k k' (replace_nan r0) Hk) as [-> | ->];
    [left | right]; destruct r0; reflexivity.
Qed.

Lemma score_subjects_threshold_monotone_witness :
  (0 <= 1)%Z
  /\ numeric_answers graded = true
  /\ run_table graded (score_subjects 1)
     = Ok (mkDataFrame (dtypes (replace (DataFrame_of graded)))
             (range_index (map (scored 1) (rows_of graded))))
  /\ exists t,
       run_table graded (score_subjects 0) = Ok t
       /\ length (body t)
          = length (body (mkDataFrame (dtypes (replace (DataFrame_of graded)))
                            (range_index (map (scored 1) (rows_of graded)))))
       /\ (forall i r,
             body t !! i = Some (i, r) ->
             exists r',
               body (mkDataFrame (dtypes (replace (DataFrame_of graded)))
                       (range_index (map (scored 1) (rows_of graded)))) !! i
               = Some (i, r')
               /\ set_score None r = set_score None r'
               /\ (score r = Some SNA \/ score r = score r')).
Proof.
  split; [lia |]. split; [reflexivity |]. split; [vm_compute; reflexivity |].
  apply (score_subjects_threshold_monotone 0 1 graded); [lia | reflexivity |].
  vm_compute. reflexivity.
Defined.

Lemma count_present_le r : count_present r <= 5.
Proof.
  unfold count_present.
  apply (Nat.le_trans _ (length (row_questions r))); [apply List.filter_length_le |].
  reflexivity.
Qed.

(** X13. With a negative threshold no row has enough answers: on a file
    whose question columns are numeric the method returns the table with
    every score missing, whatever the answers are. *)
Theorem score_subjects_negative_threshold (k : Z) (records : list json_object) :
  (k < 0)%Z ->
  numeric_answers records = true ->
  run_table records (score_subjects k)
  = Ok (mkDataFrame (dtypes (replace (DataFrame_of records)))
          (range_index (map (fun r => set_score (Some SNA) (replace_nan r))
                            (rows_of records)))).
Proof.
  intros Hk Hnum. rewrite (score_subjects_run _ records Hnum).
  assert (Hna : forall r, subject_score k r = SNA).
  { intros r. unfold subject_score.
    pose proof (count_present_le r).
    destruct (Z.ltb_spec (Z.of_nat (count_present r)) (5 - k)); [reflexivity | lia]. }
  assert (E : forallb (storable k) (map replace_nan (rows_of records)) = true).
  { apply forallb_forall. intros r _. unfold storable. rewrite Hna. reflexivity. }
  rewrite E. do 3 f_equal. apply map_ext. intros r. unfold scored. rewrite Hna.
  reflexivity.
Qed.

Lemma score_subjects_negative_threshold_witness :
  (-1 < 0)%Z
  /\ numeric_answers graded = true
  /\ run_table graded (score_subjects (-1))
     = Ok (mkDataFrame (dtypes (replace (DataFrame_of graded)))
             (range_index (map (fun r => set_score (Some SNA) (replace_nan r))
                               (rows_of graded)))).
Proof.
  split; [lia |]. split; [reflexivity |].
  apply (score_subjects_negative_threshold (-1) graded); [lia | reflexivity].
Defined.

(** ** correlate_gender_age, further *)

Lemma key_lt_iff a b :
  key_lt a b
  <-> String.compare (fst a) (fst b) = Lt
      \/ (fst a = fst b /\ snd a = false /\ snd b = true).
Proof.
  unfold key_lt, key_ltb. destruct (String.compare (fst a) (fst b)) eqn:E.
  - apply String.compare_eq_iff in E. rewrite andb_true_iff, negb_true_iff. split.
    + intros [Ha Hb]. right. auto.
    + intros [H | (_ & Ha & Hb)]; [discriminate | auto].
  - split; auto.
  - split; [discriminate |]. intros [H | (Hab & _)]; [discriminate |].
    rewrite Hab, string_compare_refl in E. discriminate.
Qed.

(** X15. On a file that gives the table the columns age and gender, the
    question columns numeric, the rows of the result are in strictly
    increasing order of their keys: by gender, compared as strings, and for
    one gender the flag False before True. *)
Theorem correlate_gender_age_sorted (records : list json_object) :
  groupable records = true ->
  exists out,
    fst (run records correlate_gender_age) = Ok out
    /\ StronglySorted key_lt (map fst out)
    /\ (forall a b,
          key_lt a b
          <-> String.compare (fst a) (fst b) = Lt
              \/ (fst a = fst b /\ snd a = false /\ snd b = true)).
Proof.
  intros H. eexists. split; [apply (correlate_gender_age_run records H) |].
  split; [| exact key_lt_iff].
  rewrite groups_keys. apply group_keys_sorted.
Qed.

Lemma correlate_gender_age_sorted_witness :
  groupable (centenarian :: sample) = true
  /\ exists out,
       fst (run (centenarian :: sample) correlate_gender_age) = Ok out
       /\ StronglySorted key_lt (map fst out)
       /\ (forall a b,
             key_lt a b
             <-> String.compare (fst a) (fst b) = Lt
                 \/ (fst a = fst b /\ snd a = false /\ snd b = true)).
Proof.
  split; [reflexivity |].
  apply (correlate_gender_age_sorted (centenarian :: sample)). reflexivity.
Defined.

Lemma members_clean k rows : Forall clean (members k rows).
Proof.
  apply List.Forall_forall. intros r Hr. unfold members in Hr.
  apply List.filter_In in Hr. destruct Hr as [Hin _].
  apply in_map_iff in Hin. destruct Hin as (r0 & <- & _). apply clean_replace_nan.
Qed.

Lemma numbers_all_missing cells :
  Forall (fun c => isna c = true) cells -> numbers cells = [].
Proof.
  induction 1 as [| c cells Hc _ IH]; [reflexivity |].
  destruct c; [discriminate | exact IH | exact IH].
Qed.

(** X16. A row of the result has five entries, for q1..q5 in this order, and
    its group is not empty; an entry is missing when no row of the group has
    that answer. *)
Theorem correlate_gender_age_missing_means (records : list json_object) :
  groupable records = true ->
  exists out,
    fst (run records correlate_gender_age) = Ok out
    /\ (forall k means,
          In (k, means) out ->
          length means = 5
          /\ members k (rows_of records) <> []
          /\ (forall j q,
                questions !! j = Some q ->
                Forall (fun r => isna (get_q q r) = true) (members k (rows_of records)) ->
                means !! j = Some NaN)).
Proof.
  intros H. eexists. split; [apply (correlate_gender_age_run records H) |].
  intros k means Hin. unfold groups in Hin.
  apply in_map_iff in Hin. destruct Hin as (k' & [= -> <-] & Hk).
  split; [reflexivity |]. split.
  - destruct k as [g b]. apply (proj1 (In_grouped_keys _ g b)) in Hk.
    destruct Hk as (r & x & Hr & Hg & Hx & Hb). intros Hnil.
    assert (Hmem : In (replace_nan r) (members (g, b) (rows_of records))).
    { unfold members. apply List.filter_In. split; [apply in_map, Hr |].
      unfold member. rewrite Hg, Hx. cbn [fst snd].
      rewrite String.eqb_refl, Hb, Bool.eqb_reflx. reflexivity. }
    rewrite Hnil in Hmem. contradiction.
  - intros j q Hj Hall. unfold group_means. rewrite list_lookup_fmap, Hj. cbn.
    rewrite numbers_all_missing; [reflexivity |].
    apply List.Forall_map. exact Hall.
Qed.

Lemma correlate_gender_age_missing_means_witness :
  groupable sample = true
  /\ exists out,
       fst (run sample correlate_gender_age) = Ok out
       /\ (forall k means,
             In (k, means) out ->
             length means = 5
             /\ members k (rows_of sample) <> []
             /\ (forall j q,
                   questions !! j = Some q ->
                   Forall (fun r => isna (get_q q r) = true) (members k (rows_of sample)) ->
                   means !! j = Some NaN)).
Proof.
  split; [reflexivity |].
  apply (correlate_gender_age_missing_means sample). reflexivity.
Defined.

(** X17. On such a file the result is the empty table, and nothing is
    raised, exactly when no row of the file has both a gender and an age. *)
Theorem correlate_gender_age_empty (records : list json_object) :
  groupable records = true ->
  exists out,
    fst (run records correlate_gender_age) = Ok out
    /\ (out = []
        <-> Forall (fun r => gender (replace_nan r) = TNaN
                             \/ age_value (age (replace_nan r)) = None)
                   (rows_of records)).
Proof.
  intros H. eexists. split; [apply (correlate_gender_age_run records H) |].
  unfold groups.
  set (keys := group_keys (range_index (grouped_rows (rows_of records)))). split.
  - intros Hnil. apply map_eq_nil in Hnil.
    apply List.Forall_forall. intros r Hr.
    destruct (gender (replace_nan r)) as [g |] eqn:Eg; [| left; reflexivity].
    destruct (age_value (age (replace_nan r))) as [x |] eqn:Ex; [| right; reflexivity].
    exfalso.
    assert (Hin : In (g, Qle_bool 40 x) keys).
    { apply In_grouped_keys. exists r, x. auto. }
    rewrite Hnil in Hin. contradiction.
  - intros Hall. destruct keys as [| [g b] keys'] eqn:E; [reflexivity |]. exfalso.
    assert (Hin : In (g, b) keys) by (rewrite E; left; reflexivity).
    apply (proj1 (In_grouped_keys _ g b)) in Hin.
    destruct Hin as (r & x & Hr & Hg & Hx & _).
    destruct (proj1 (List.Forall_forall _ _) Hall r Hr) as [H' | H']; congruence.
Qed.

Lemma correlate_gender_age_empty_witness :
  groupable [ageless] = true
  /\ exists out,
       fst (run [ageless] correlate_gender_age) = Ok out
       /\ (out = []
           <-> Forall (fun r => gender (replace_nan r) = TNaN
                                \/ age_value (age (replace_nan r)) = None)
                      (rows_of [ageless])).
Proof.
  split; [reflexivity |].
  apply (correlate_gender_age_empty [ageless]). reflexivity.
Defined.

(** ** Files that lack a column *)

Lemma infer_dtype_absent kinds :
  infer_dtype kinds = None <-> Forall (fun k => k = KAbsent) kinds.
Proof.
  unfold infer_dtype. destruct (forallb is_absent kinds) eqn:E.
  - split; [intros _ | reflexivity].
    apply List.Forall_forall. intros k Hk.
    pose proof (proj1 (forallb_forall _ _) E k Hk) as H.
    destruct k; [reflexivity | discriminate H ..].
  - split.
    + destruct (existsb is_string kinds); [discriminate |].
      destruct (forallb is_null kinds); discriminate.
    + intros H. assert (E' : forallb is_absent kinds = true).
      { apply forallb_forall. intros k Hk.
        rewrite (proj1 (List.Forall_forall _ _) H k Hk). reflexivity. }
      congruence.
Qed.

Lemma no_column c records :
  Forall (fun o => kind_of c o = KAbsent) records ->
  dtype_of (dtypes (DataFrame_of records)) c = None.
Proof.
  intros H. unfold DataFrame_of. cbn [dtypes]. rewrite dtype_of_columns_of.
  apply infer_dtype_absent, List.Forall_map, H.
Qed.

Lemma no_column_replace c records :
  Forall (fun o => kind_of c o = KAbsent) records ->
  dtype_of (dtypes (replace (DataFrame_of records))) c = None.
Proof.
  intros H. rewrite dtype_of_replace. apply replace_dtype_None, no_column, H.
Qed.

Lemma getitem_list_KeyError cs (df : DataFrame) e :
  getitem_list cs df = Raise e -> e = KeyError.
Proof.
  induction cs as [| c cs IH]; [discriminate |].
  cbn [getitem_list]. unfold getitem.
  destruct (dtype_of (dtypes df) c); [exact IH | congruence].
Qed.

Lemma In_questions q : In q questions.
Proof. destruct q; cbn; auto 10. Qed.

Lemma score_subjects_raise k name (d : loc) (h : store) (t : DataFrame) e :
  h !! d = Some t ->
  nanmean_questions (replace t) = Raise e ->
  fst (score_subjects k (mkQA name (Some d)) h) = Raise e.
Proof.
  intros Hd He. unfold score_subjects, pd_DataFrame. cbn [data].
  unfold bind at 1. cbn [ret].
  rewrite (bind_derive_run _ _ _ _ _ Hd).
  unfold bind at 1.
  rewrite (assign_res_raise _ _ _ _ _ (lookup_snoc _ _) He). reflexivity.
Qed.

Lemma run_table_raise records (method : QuestionnaireAnalysis -> M loc) e :
  fst (run records method) = Raise e -> run_table records method = Raise e.
Proof.
  unfold run_table. destruct (run records method) as [[l | e'] h]; cbn; congruence.
Qed.

Lemma run_fill_raise records e :
  fst (run records fill_na_with_mean) = Raise e -> run_fill records = Raise e.
Proof.
  unfold run_fill. destruct (run records fill_na_with_mean) as [[[l arr] | e'] h];
    cbn; congruence.
Qed.

Lemma fill_na_with_mean_raise name (d : loc) (h : store) (t : DataFrame) :
  h !! d = Some t ->
  dtype_of (dtypes (replace t)) (L_q Q1) = None ->
  fst (fill_na_with_mean (mkQA name (Some d)) h) = Raise KeyError.
Proof.
  intros Hd H1. unfold fill_na_with_mean. cbn [data].
  rewrite (bind_derive_run _ _ _ _ _ Hd).
  unfold bind at 1. cbn [for_each questions].
  unfold bind at 1. unfold fill_question at 1.
  unfold bind at 1. rewrite (deref_run _ _ _ (lookup_snoc _ _)).
  unfold bind at 1. unfold lift at 1, getitem. rewrite H1. reflexivity.
Qed.

Lemma correlate_gender_age_raise name (d : loc) (h : store) (t : DataFrame) :
  h !! d = Some t ->
  dtype_of (dtypes (replace t)) L_age = None ->
  fst (correlate_gender_age (mkQA name (Some d)) h) = Raise KeyError.
Proof.
  intros Hd Ha. unfold correlate_gender_age, pd_DataFrame. cbn [data].
  unfold bind at 1. cbn [ret].
  rewrite (bind_derive_run _ _ _ _ _ Hd).
  assert (Hdrop : dropna_age (replace t) = Raise KeyError).
  { unfold dropna_age, getitem. rewrite Ha. reflexivity. }
  rewrite (bind_derive_res_raise _ _ _ _ _ _ (lookup_snoc _ _) Hdrop). reflexivity.
Qed.

(** X21. A query raises when no object of the file has a key it reads, as
    is the case for every key on the empty file: without ages
    [show_age_distrib] and [correlate_gender_age] raise [KeyError], without
    addresses [remove_rows_without_mail] raises [AttributeError], without q1
    [fill_na_with_mean] raises [KeyError], and without one of q1..q5
    [score_subjects] raises [KeyError]. *)
Theorem queries_without_column (records : list json_object) :
  (Forall (fun o => kind_of L_age o = KAbsent) records ->
     fst (run records show_age_distrib) = Raise KeyError
     /\ fst (run records correlate_gender_age) = Raise KeyError)
  /\ (Forall (fun o => kind_of L_email o = KAbsent) records ->
        run_table records remove_rows_without_mail = Raise AttributeError)
  /\ (Forall (fun o => kind_of (L_q Q1) o = KAbsent) records ->
        run_fill records = Raise KeyError)
  /\ (forall q k,
        Forall (fun o => kind_of (L_q q) o = KAbsent) records ->
        run_table records (score_subjects k) = Raise KeyError)
  /\ fst (run [] show_age_distrib) = Raise KeyError
  /\ run_table [] remove_rows_without_mail = Raise AttributeError
  /\ run_fill [] = Raise KeyError
  /\ (forall k, run_table [] (score_subjects k) = Raise KeyError)
  /\ fst (run [] correlate_gender_age) = Raise KeyError.
Proof.
  assert (Hscore : forall recs q k,
            Forall (fun o => kind_of (L_q q) o = KAbsent) recs ->
            run_table recs (score_subjects k) = Raise KeyError).
  { intros recs q k H. apply run_table_raise. rewrite run_unfold.
    apply (score_subjects_raise k data_json 0 [DataFrame_of recs] _ _ eq_refl).
    unfold nanmean_questions.
    rewrite getitem_list_raise; [reflexivity |].
    apply List.Exists_exists. exists (L_q q).
    split; [apply in_map, In_questions | apply no_column_replace, H]. }
  split.
  { intros H. split.
    - rewrite show_age_distrib_run.
      unfold has_column. rewrite (no_column L_age records H). reflexivity.
    - rewrite run_unfold.
      apply (correlate_gender_age_raise data_json 0 [DataFrame_of records] _ eq_refl).
      apply no_column_replace, H. }
  split.
  { intros H. apply run_table_raise. rewrite run_unfold.
    rewrite (remove_rows_without_mail_raise data_json 0 [DataFrame_of records] _ eq_refl);
      [reflexivity |].
    change (c_email (dtypes (DataFrame_of records)))
      with (dtype_of (dtypes (DataFrame_of records)) L_email).
    rewrite (no_column L_email records H). discriminate. }
  split.
  { intros H. apply run_fill_raise. rewrite run_unfold.
    apply (fill_na_with_mean_raise data_json 0 [DataFrame_of records] _ eq_refl).
    apply no_column_replace, H. }
  split; [exact (Hscore records) |].
  split; [reflexivity |]. split; [reflexivity |]. split; [reflexivity |].
  split; [| reflexivity].
  intros k. apply (Hscore [] Q1 k). constructor.
Qed.

Lemma infer_dtype_null kinds :
  kinds <> [] -> Forall (fun k => k = KNull) kinds -> infer_dtype kinds = Some Object.
Proof.
  intros Hne H. unfold infer_dtype.
  assert (Ha : forallb is_absent kinds = false).
  { destruct H as [| k l Hk _]; [contradiction | rewrite Hk; reflexivity]. }
  assert (Hs : existsb is_string kinds = false).
  { clear Hne Ha. induction H as [| k l Hk _ IH]; [reflexivity |].
    cbn [existsb]. rewrite Hk, IH. reflexivity. }
  assert (Hn : forallb is_null kinds = true).
  { clear Hne Ha Hs. induction H as [| k l Hk _ IH]; [reflexivity |].
    cbn [forallb]. rewrite Hk, IH. reflexivity. }
  rewrite Ha, Hs, Hn. reflexivity.
Qed.

Lemma null_column q records :
  records <> [] ->
  Forall (fun o => kind_of (L_q q) o = KNull) records ->
  dtype_of (dtypes (replace (DataFrame_of records))) (L_q q) = Some Object.
Proof.
  intros Hne Hnull. rewrite dtype_of_replace.
  assert (Hd : dtype_of (dtypes (DataFrame_of records)) (L_q q) = Some Object).
  { unfold DataFrame_of. cbn [dtypes]. rewrite dtype_of_columns_of.
    apply infer_dtype_null.
    - destruct records; [contradiction | discriminate].
    - apply List.Forall_map, Hnull. }
  rewrite Hd. unfold replace_dtype.
  assert (Hno : existsb (fun lr => is_nan_text (L_q q) (snd lr))
                        (body (DataFrame_of records)) = false).
  { apply not_true_is_false. intros Hex. apply existsb_exists in Hex.
    destruct Hex as ([l r] & Hin & Hr). cbn [snd] in Hr.
    assert (Hin' : In r (map snd (body (DataFrame_of records))))
      by (apply in_map_iff; exists (l, r); auto).
    cbn [body DataFrame_of] in Hin'. rewrite range_index_rows in Hin'.
    apply in_map_iff in Hin'. destruct Hin' as (o & <- & Ho).
    pose proof (proj1 (List.Forall_forall _ _) Hnull o Ho) as Hk.
    destruct o as [a e f g i l' c1 c2 c3 c4 c5].
    destruct q; cbn in Hk, Hr;
      [destruct c1 | destruct c2 | destruct c3 | destruct c4 | destruct c5];
      cbn in Hk, Hr; congruence. }
  rewrite Hno. reflexivity.
Qed.

Lemma correlate_gender_age_not_numeric name (d : loc) (h : store) (t : DataFrame) rows :
  h !! d = Some t ->
  body t = range_index rows ->
  dtype_of (dtypes (replace t)) L_age <> None ->
  forallb (fun q => is_number (dtype_of (dtypes (replace t)) (L_q q))) questions = false ->
  fst (correlate_gender_age (mkQA name (Some d)) h) = Raise KeyError.
Proof.
  intros Hd Hbody Ha Hnum.
  set (cs := dtypes (replace t)) in *.
  assert (Ht1 : replace t = mkDataFrame cs (range_index (map replace_nan rows))).
  { unfold cs, replace. cbn [dtypes]. rewrite Hbody, range_index_map. reflexivity. }
  set (kept_rows := List.filter (fun r => negb (age_isna (age r))) (map replace_nan rows)).
  assert (Hover : Forall (fun r => over_40 r = Ok (flagged r)) kept_rows).
  { apply List.Forall_forall. intros r Hr. apply List.filter_In in Hr.
    destruct Hr as [Hin Hage]. apply in_map_iff in Hin. destruct Hin as (r0 & <- & _).
    apply over_40_flagged. apply negb_true_iff. exact Hage. }
  destruct (apply_over_40_ok cs kept_rows Ha Hover) as (cs' & Happly & Ha' & Hsame).
  assert (Hins : forall (h0 : store) (x y : DataFrame),
            <[length h0 := y]> (h0 ++ [x]) = h0 ++ [y]).
  { intros h0 x y. rewrite insert_app_r_alt by lia. rewrite Nat.sub_diag. reflexivity. }
  unfold correlate_gender_age, pd_DataFrame. cbn [data].
  unfold bind at 1. cbn [ret].
  rewrite (bind_derive_run _ _ _ _ _ Hd), Ht1.
  rewrite (bind_derive_res_run _ _ _ _ _ _ (lookup_snoc _ _) (dropna_age_ok cs _ Ha)).
  rewrite range_index_rows. fold kept_rows.
  unfold bind at 1.
  rewrite (assign_res_run _ _ _ _ _ (lookup_snoc _ _) Happly), Hins.
  unfold bind, deref, lift. rewrite lookup_snoc. cbn [fst].
  unfold groupby_mean. cbn [dtypes].
  destruct (getitem_list [L_gender; L_age] _) as [[] | e] eqn:E.
  - assert (Hnum' : forallb (fun q => is_number (dtype_of cs' (L_q q))) questions = false).
    { rewrite <- Hnum. cbn [forallb questions].
      rewrite !Hsame by discriminate. reflexivity. }
    rewrite Hnum'. reflexivity.
  - apply getitem_list_KeyError in E. rewrite E. reflexivity.
Qed.

(** X22. A question that is null in every object of a file makes its column
    an object column of None.  On such a file, when the table has its eleven
    columns and some other question column is numeric, [score_subjects]
    raises [TypeError] whatever the threshold (the None cannot be added up),
    and [correlate_gender_age] raises [KeyError] (the group means leave the
    column out). *)
Theorem queries_with_null_column (records : list json_object) (q q' : qcol) :
  Forall (fun o => kind_of (L_q q) o = KNull) records ->
  has_columns records = true ->
  is_number (dtype_of (dtypes (replace (DataFrame_of records))) (L_q q')) = true ->
  (forall k, run_table records (score_subjects k) = Raise TypeError)
  /\ fst (run records correlate_gender_age) = Raise KeyError.
Proof.
  intros Hnull Hcols _.
  assert (Hne : records <> []) by (intros ->; discriminate Hcols).
  pose proof (null_column q records Hne Hnull) as Hobj.
  pose proof (has_columns_replace records Hcols) as Hhas.
  set (t1 := replace (DataFrame_of records)) in *.
  assert (Hall : forallb (fun q0 => is_number (dtype_of (dtypes t1) (L_q q0))) questions
                 = false).
  { apply not_true_is_false. intros H.
    pose proof (proj1 (forallb_forall _ _) H q (In_questions q)) as Hq.
    cbn beta in Hq. rewrite Hobj in Hq. discriminate. }
  assert (Hcol : forall c, In c file_columns -> dtype_of (dtypes t1) c <> None).
  { intros c Hc. exact (proj1 (List.Forall_forall _ _) Hhas c Hc). }
  split.
  - intros k. apply run_table_raise. rewrite run_unfold.
    apply (score_subjects_raise k data_json 0 [DataFrame_of records] _ _ eq_refl).
    fold t1. unfold nanmean_questions.
    rewrite (getitem_list_ok (map L_q questions) t1), Hall; [reflexivity |].
    apply List.Forall_forall. intros c Hc. apply Hcol.
    apply in_map_iff in Hc. destruct Hc as (q0 & <- & _). destruct q0; cbn; auto 15.
  - rewrite run_unfold.
    apply (correlate_gender_age_not_numeric data_json 0 [DataFrame_of records]
             (DataFrame_of records) (rows_of records) eq_refl eq_refl).
    + apply Hcol. cbn. auto.
    + exact Hall.
Qed.

Lemma queries_with_null_column_witness :
  Forall (fun o => kind_of (L_q Q5) o = KNull) unanswered
  /\ has_columns unanswered = true
  /\ is_number (dtype_of (dtypes (replace (DataFrame_of unanswered))) (L_q Q4)) = true
  /\ (forall k, run_table unanswered (score_subjects k) = Raise TypeError)
  /\ fst (run unanswered correlate_gender_age) = Raise KeyError.
Proof.
  assert (H : Forall (fun o => kind_of (L_q Q5) o = KNull) unanswered)
    by (repeat constructor).
  split; [exact H |]. split; [reflexivity |]. split; [reflexivity |].
  apply (queries_with_null_column unanswered Q5 Q4 H); reflexivity.
Defined.

(** ** Calls in sequence *)

(** What a call gives depends on the table behind [self.data] only. *)
Lemma call_outcome q name (d : loc) (h1 h2 : store) records :
  fillable records = true ->
  h1 !! d = Some (DataFrame_of records) ->
  h2 !! d = Some (DataFrame_of records) ->
  fst (call q (mkQA name (Some d)) h1) = fst (call q (mkQA name (Some d)) h2).
Proof.
  intros Hfill H1 H2.
  destruct (fillable_columns records Hfill) as [Hcols Hnum].
  assert (Hcol : forall c, In c file_columns ->
            dtype_of (dtypes (replace (DataFrame_of records))) c <> None).
  { intros c Hc. exact (proj1 (List.Forall_forall _ _) Hcols c Hc). }
  destruct q as [| | | k |]; unfold call.
  - pose proof (show_age_distrib_at name d h1 _ H1) as E1.
    pose proof (show_age_distrib_at name d h2 _ H2) as E2.
    destruct (show_age_distrib _ h1) as [r1 h1'].
    destruct (show_age_distrib _ h2) as [r2 h2']. cbn [fst] in *. congruence.
  - destruct (c_email (dtypes (DataFrame_of records))) as [[] |] eqn:Ee.
    2: { destruct (remove_rows_without_mail_run name d h1 _ H1 Ee) as (h1' & R1 & O1 & _).
         destruct (remove_rows_without_mail_run name d h2 _ H2 Ee) as (h2' & R2 & O2 & _).
         rewrite R1, R2. cbn [fst]. unfold table_at. rewrite O1, O2. reflexivity. }
    all: rewrite (remove_rows_without_mail_raise name d h1 _ H1) by congruence;
      rewrite (remove_rows_without_mail_raise name d h2 _ H2) by congruence;
      reflexivity.
  - assert (Hlook : forall (h : store) (a b : DataFrame),
              (h ++ [a; b]) !! (length h + 1) = Some b).
    { intros h a b. rewrite lookup_app_r by lia.
      replace (length h + 1 - length h) with 1 by lia. reflexivity. }
    rewrite (fill_na_with_mean_at name d h1 _ (rows_of records) H1 eq_refl Hcols Hnum).
    rewrite (fill_na_with_mean_at name d h2 _ (rows_of records) H2 eq_refl Hcols Hnum).
    cbn [fst]. unfold table_at. rewrite !Hlook. reflexivity.
  - pose proof (score_subjects_at k name d h1 _ (rows_of records) H1 eq_refl Hnum) as E1.
    pose proof (score_subjects_at k name d h2 _ (rows_of records) H2 eq_refl Hnum) as E2.
    destruct (forallb (storable k) (map replace_nan (rows_of records))).
    + rewrite E1, E2. cbn [fst]. unfold table_at. rewrite !lookup_snoc. reflexivity.
    + destruct (score_subjects k _ h1) as [r1 h1'].
      destruct (score_subjects k _ h2) as [r2 h2']. cbn [fst] in *. subst. reflexivity.
  - assert (Ha : dtype_of (dtypes (replace (DataFrame_of records))) L_age <> None)
      by (apply Hcol; cbn; auto).
    assert (Hg : dtype_of (dtypes (replace (DataFrame_of records))) L_gender <> None)
      by (apply Hcol; cbn; auto).
    pose proof (correlate_gender_age_at name d h1 _ (rows_of records) H1 eq_refl Ha Hg Hnum)
      as E1.
    pose proof (correlate_gender_age_at name d h2 _ (rows_of records) H2 eq_refl Ha Hg Hnum)
      as E2.
    destruct (correlate_gender_age _ h1) as [r1 h1'].
    destruct (correlate_gender_age _ h2) as [r2 h2']. cbn [fst] in *. congruence.
Qed.

(** A call leaves the objects that exist as they are. *)
Lemma call_frame q self (h : store) l :
  l < length h ->
  length h <= length (snd (call q self h)) /\ snd (call q self h) !! l = h !! l.
Proof.
  intros Hl.
  assert (Hgen : forall A (m : M A),
             frame (length h) (fun _ => True) m ->
             length h <= length (snd (m h)) /\ snd (m h) !! l = h !! l).
  { intros A m Hm. destruct (Hm h (Nat.le_refl _)) as (H1 & H2 & _). auto. }
  destruct q as [| | | k |]; unfold call.
  - pose proof (Hgen _ _ (frame_show_age_distrib (length h) self)) as H.
    destruct (show_age_distrib self h); exact H.
  - pose proof (Hgen _ _ (frame_remove_rows_without_mail (length h) self)) as H.
    destruct (remove_rows_without_mail self h); exact H.
  - pose proof (Hgen _ _ (frame_fill_na_with_mean (length h) self)) as H.
    destruct (fill_na_with_mean self h); exact H.
  - pose proof (Hgen _ _ (frame_score_subjects (length h) k self)) as H.
    destruct (score_subjects k self h); exact H.
  - pose proof (Hgen _ _ (frame_correlate_gender_age (length h) self)) as H.
    destruct (correlate_gender_age self h); exact H.
Qed.

Lemma calls_frame qs self : forall (h : store) l,
  l < length h -> calls qs self h !! l = h !! l.
Proof.
  induction qs as [| q qs IH]; intros h l Hl; [reflexivity |].
  unfold calls. cbn [fold_left]. fold (calls qs self (snd (call q self h))).
  destruct (call_frame q self h l Hl) as [Hlen Hlook].
  rewrite IH by lia. exact Hlook.
Qed.

(** X18. What a query returns or raises does not depend on the calls made
    before it: on a file that gives the table its eleven columns, the
    question columns numeric, after any series of queries on the loaded
    object each query gives what it gives right after loading. *)
Theorem queries_do_not_interfere (records : list json_object) (qs : list query)
    (q : query) :
  fillable records = true ->
  session records qs q = session records [] q.
Proof.
  intros Hfill. unfold session. rewrite load_run. f_equal.
  apply (call_outcome q data_json 0 _ _ records Hfill).
  - rewrite calls_frame by (cbn; lia). reflexivity.
  - reflexivity.
Qed.

Lemma queries_do_not_interfere_witness :
  fillable sample = true
  /\ session sample [FillNaWithMean; ScoreSubjects 1; RemoveRowsWithoutMail]
             CorrelateGenderAge
     = session sample [] CorrelateGenderAge.
Proof.
  split; [reflexivity |].
  apply (queries_do_not_interfere sample
           [FillNaWithMean; ScoreSubjects 1; RemoveRowsWithoutMail] CorrelateGenderAge).
  reflexivity.
Defined.
